(** * Returns & warranty assistant: the dialogue coordinator and its collaborators

    A shallow embedding of [app/chat_coordinator.py], [app/schemas.py],
    [app/db/models.py], [app/agents/retrieval_agent.py],
    [app/agents/forecasting_agent.py], [app/agents/report_agent.py] and
    [app/rag/retrieve.py].

    Conventions of the embedding.
    - Python [str] is [string]; the development covers ASCII text (a byte
      above 127 is an opaque symbol: neither a space, a letter nor a digit),
      and a statement that depends on it says so ([PyStr.is_ascii]).
    - A [datetime.date] is its proleptic Gregorian ordinal ([date.toordinal()]),
      a [Z]; adding a [timedelta] of [n] days adds [n].  pandas' [Timestamp]
      holds fewer days than [datetime.date]; its two ends are parameters.
    - A finite double is the rational it denotes, kept in lowest terms.  The
      float of a request may also be the negative zero or NaN ([float]); the
      two infinities are left out.  Where the libraries
      compute with doubles (the mean and the error of the forecast, the sum of
      the prices) the rounding and the order of the additions are parameters
      ([Numerics]); a decimal literal of a message is taken at its value.
    - The table is kept by SQLite: a NaN written to a [Float] column is read
      back as NULL, and [LIKE] knows the wildcards [%] and [_] and refuses
      a pattern of more than 50000 bytes.
    - An exception is a value of [Exn]; a function that may raise while it
      mutates an object returns the outcome together with the object. *)

From Stdlib Require Import List String Ascii ZArith QArith Qabs Bool Lia Arith.
From Stdlib Require Import DecimalString Sorted Permutation.
From Stdlib Require Qcanon.
Import ListNotations.

Set Implicit Arguments.

Local Close Scope Q_scope.
Local Open Scope string_scope.
Local Open Scope nat_scope.

(** ** Python string primitives *)

Module PyStr.

(** [str.isspace] on one ASCII character: TAB..CR, FS..US and the blank.
    The same class is [\s] in a [str] pattern. *)
Definition is_space (c : ascii) : bool :=
  let n := nat_of_ascii c in
  ((9 <=? n) && (n <=? 13)) || ((28 <=? n) && (n <=? 32)).

Definition is_digit (c : ascii) : bool :=
  let n := nat_of_ascii c in (48 <=? n) && (n <=? 57).

Definition is_upper (c : ascii) : bool :=
  let n := nat_of_ascii c in (65 <=? n) && (n <=? 90).

Definition is_lower (c : ascii) : bool :=
  let n := nat_of_ascii c in (97 <=? n) && (n <=? 122).

Definition is_alpha (c : ascii) : bool := is_upper c || is_lower c.

(** [\w] on ASCII. *)
Definition is_word (c : ascii) : bool :=
  is_alpha c || is_digit c || Ascii.eqb c "_"%char.

Definition lower_char (c : ascii) : ascii :=
  if is_upper c then ascii_of_nat (nat_of_ascii c + 32) else c.

Definition upper_char (c : ascii) : ascii :=
  if is_lower c then ascii_of_nat (nat_of_ascii c - 32) else c.

Fixpoint map_chars (f : ascii -> ascii) (s : string) : string :=
  match s with
  | EmptyString => EmptyString
  | String c s' => String (f c) (map_chars f s')
  end.

(** [s.lower()] and [s.upper()]. *)
Definition lower : string -> string := map_chars lower_char.
Definition upper : string -> string := map_chars upper_char.

Fixpoint lstrip (s : string) : string :=
  match s with
  | EmptyString => EmptyString
  | String c s' => if is_space c then lstrip s' else s
  end.

Fixpoint rstrip (s : string) : string :=
  match s with
  | EmptyString => EmptyString
  | String c s' =>
      let r := rstrip s' in
      if is_space c && String.eqb r EmptyString then EmptyString
      else String c r
  end.

(** [s.strip()]. *)
Definition strip (s : string) : string := rstrip (lstrip s).

(** [s.split()]: the maximal runs of non-space characters, [cur] being the
    run read so far. *)
Fixpoint split_from (cur s : string) : list string :=
  match s with
  | EmptyString => if String.eqb cur EmptyString then [] else [cur]
  | String c s' =>
      if is_space c
      then (if String.eqb cur EmptyString then split_from EmptyString s'
            else cur :: split_from EmptyString s')
      else split_from (cur ++ String c EmptyString) s'
  end.

Definition split (s : string) : list string := split_from EmptyString s.

(** [k in t] on strings. *)
Fixpoint contains (k t : string) : bool :=
  String.prefix k t ||
  match t with
  | EmptyString => false
  | String _ t' => contains k t'
  end.

(** [any(k in t for k in ks)]. *)
Definition any_in (ks : list string) (t : string) : bool :=
  existsb (fun k => contains k t) ks.

(** Truthiness of a [str]: the empty string is falsy. *)
Definition nonempty (s : string) : bool := negb (String.eqb s EmptyString).

(** [s.isascii()]: every character is below 128. *)
Definition is_ascii_char (c : ascii) : bool := nat_of_ascii c <? 128.

Fixpoint is_ascii (s : string) : bool :=
  match s with
  | EmptyString => true
  | String c s' => is_ascii_char c && is_ascii s'
  end.

End PyStr.

(** ** The fragment of SQL the report uses *)

Module Sql.

(** [s LIKE pat]: [%] stands for any run of characters, the empty one
    included, [_] for any one character, and there is no escape character. *)
Fixpoint like (pat s : string) : bool :=
  match pat with
  | EmptyString =>
      match s with EmptyString => true | String _ _ => false end
  | String c pat' =>
      if Ascii.eqb c "%"%char
      then (fix skip (s : string) : bool :=
              like pat' s
              || match s with
                 | EmptyString => false
                 | String _ s' => skip s'
                 end) s
      else
        match s with
        | EmptyString => false
        | String d s' =>
            (Ascii.eqb c "_"%char || Ascii.eqb c d) && like pat' s'
        end
  end.

(** SQLAlchemy's [column.ilike(pat)] on SQLite:
    [lower(column) LIKE lower(pat)]; [lower] folds the ASCII letters. *)
Definition ilike (s pat : string) : bool :=
  like (PyStr.lower pat) (PyStr.lower s).

(** [SQLITE_MAX_LIKE_PATTERN_LENGTH]: a longer pattern is refused, with the
    error "LIKE or GLOB pattern too complex". *)
Definition max_pattern_length : Z := 50000.

End Sql.

(** ** The fragment of [re] the coordinator uses

    A backtracking matcher with Python's priorities: alternatives are tried
    left to right, repetition is greedy, and [search] returns the match at the
    leftmost starting position.  A position is the character before it (for
    [\b]) and the text after it. *)

Module Re.

Inductive re : Type :=
| Eps
| Cls (p : ascii -> bool)
| Seq (r1 r2 : re)
| Alt (r1 r2 : re)
| Star (r : re)
| Grp (i : nat) (r : re)
| Bnd.

(** Captured groups, most recent first. *)
Definition caps : Type := list (nat * string).

Fixpoint group (i : nat) (m : caps) : string :=
  match m with
  | [] => EmptyString
  | (j, s) :: m' => if Nat.eqb i j then s else group i m'
  end.

Definition word_before (prev : option ascii) : bool :=
  match prev with Some c => PyStr.is_word c | None => false end.

Definition word_after (s : string) : bool :=
  match s with String c _ => PyStr.is_word c | EmptyString => false end.

(** The text consumed between position [s] and the later position [s']. *)
Definition consumed (s s' : string) : string :=
  String.substring 0 (String.length s - String.length s') s.

Fixpoint run (A : Type) (r : re) (prev : option ascii) (s : string) (m : caps)
    (k : option ascii -> string -> caps -> option A) {struct r} : option A :=
  match r with
  | Eps => k prev s m
  | Cls p =>
      match s with
      | String c s' => if p c then k (Some c) s' m else None
      | EmptyString => None
      end
  | Seq r1 r2 =>
      run r1 prev s m (fun prev' s' m' => run r2 prev' s' m' k)
  | Alt r1 r2 =>
      match run r1 prev s m k with
      | Some x => Some x
      | None => run r2 prev s m k
      end
  | Star r1 =>
      (fix loop (n : nat) (prev : option ascii) (s : string) (m : caps)
           {struct n} : option A :=
         match n with
         | O => k prev s m
         | S n' =>
             match
               run r1 prev s m
                 (fun prev' s' m' =>
                    if String.length s' <? String.length s
                    then loop n' prev' s' m' else None)
             with
             | Some x => Some x
             | None => k prev s m
             end
         end) (String.length s) prev s m
  | Grp i r1 =>
      run r1 prev s m (fun prev' s' m' => k prev' s' ((i, consumed s s') :: m'))
  | Bnd =>
      if xorb (word_before prev) (word_after s) then k prev s m else None
  end.

(** [re.search]: the first starting position, left to right, that matches. *)
Fixpoint search_from (r : re) (prev : option ascii) (s : string) : option caps :=
  match run r prev s [] (fun _ _ m => Some m) with
  | Some m => Some m
  | None =>
      match s with
      | EmptyString => None
      | String c s' => search_from r (Some c) s'
      end
  end.

Definition search (r : re) (s : string) : option caps := search_from r None s.

(** Derived forms. *)
Definition Opt (r : re) : re := Alt r Eps.
Definition Plus (r : re) : re := Seq r (Star r).

Definition chr (c : ascii) : re := Cls (Ascii.eqb c).
(** A literal character under [re.I]. *)
Definition chr_i (c : ascii) : re :=
  Cls (fun x => Ascii.eqb (PyStr.lower_char x) (PyStr.lower_char c)).

Fixpoint lit_i (s : string) : re :=
  match s with
  | EmptyString => Eps
  | String c s' => Seq (chr_i c) (lit_i s')
  end.

Definition space : re := Cls PyStr.is_space.
Definition digit : re := Cls PyStr.is_digit.
Definition alpha : re := Cls PyStr.is_alpha.
(** [.] without DOTALL: anything but a newline. *)
Definition dot : re := Cls (fun c => negb (Ascii.eqb c "010"%char)).

End Re.

Import Re.

(** ** Numbers and dates read from text *)

Module PyNum.

Definition digit_val (c : ascii) : Z := Z.of_nat (nat_of_ascii c - 48).

(** The value of a run of decimal digits, [acc] being the value read so far. *)
Fixpoint digits_from (acc : Z) (s : string) : Z :=
  match s with
  | EmptyString => acc
  | String c s' => digits_from (10 * acc + digit_val c)%Z s'
  end.

Definition int_of_digits (s : string) : Z := digits_from 0%Z s.

(** The integer part and the fraction digits of a literal [\d+(\.\d+)?]. *)
Fixpoint split_dot (s : string) : string * string :=
  match s with
  | EmptyString => (EmptyString, EmptyString)
  | String c s' =>
      if Ascii.eqb c "."%char then (EmptyString, s')
      else let (a, b) := split_dot s' in (String c a, b)
  end.

(** [float(lit)] for a literal [\d+(\.\d+)?]. *)
Definition float_of_literal (lit : string) : Q :=
  let (a, b) := split_dot lit in
  Qred (Qmake (int_of_digits (a ++ b))
              (Z.to_pos (10 ^ Z.of_nat (String.length b)))).

(** Truthiness of a [float]: zero is falsy. *)
Definition nonzero (q : Q) : bool := negb (Qnum q =? 0)%Z.

(** [date.min] and [date.max] as ordinals: 0001-01-01 and 9999-12-31. *)
Definition date_min : Z := 1%Z.
Definition date_max : Z := 3652059%Z.

(** [calendar]: leap years and month lengths. *)
Definition is_leap (y : Z) : bool :=
  ((y mod 4 =? 0) && (negb (y mod 100 =? 0) || (y mod 400 =? 0)))%Z.

Definition days_in_month (y m : Z) : Z :=
  if (m =? 2)%Z then (if is_leap y then 29 else 28)%Z
  else if ((m =? 4) || (m =? 6) || (m =? 9) || (m =? 11))%Z then 30%Z
  else 31%Z.

Definition days_before_year (y : Z) : Z :=
  let y1 := (y - 1)%Z in (y1 * 365 + y1 / 4 - y1 / 100 + y1 / 400)%Z.

Fixpoint days_before_month_from (y : Z) (m : nat) : Z :=
  match m with
  | O => 0%Z
  | S m' => (days_before_month_from y m' + days_in_month y (Z.of_nat m))%Z
  end.

(** Days of year [y] before the first of month [m]. *)
Definition days_before_month (y m : Z) : Z :=
  days_before_month_from y (Z.to_nat m - 1).

(** [date(y, m, d).toordinal()]. *)
Definition ymd2ord (y m d : Z) : Z :=
  (days_before_year y + days_before_month y m + d)%Z.

(** [datetime.strptime(g, "%Y-%m-%d").date()] for a text [g] of the shape
    [dddd-dd-dd]; [None] stands for the [ValueError] it raises on a month
    or a day that does not exist. *)
Definition strptime_ymd (g : string) : option Z :=
  let y := int_of_digits (String.substring 0 4 g) in
  let m := int_of_digits (String.substring 5 2 g) in
  let d := int_of_digits (String.substring 8 2 g) in
  if ((1 <=? y) && (1 <=? m) && (m <=? 12) && (1 <=? d)
      && (d <=? days_in_month y m))%Z
  then Some (ymd2ord y m d) else None.

End PyNum.

(** ** Exceptions *)

(** [ValidationError] is pydantic's; it derives from [ValueError] and carries
    the names of the fields it rejects. *)
Inductive Exn : Type :=
| ValueError (msg : string)
| ValidationError (fields : list string)
| RuntimeError (msg : string)
| IndexError
| OSError
| AssertionError
| OutOfBoundsDatetime.

(** [isinstance(e, ValueError)], the test of [except ValueError];
    [pandas.errors.OutOfBoundsDatetime] derives from [ValueError] too. *)
Definition is_ValueError (e : Exn) : bool :=
  match e with
  | ValueError _ | ValidationError _ | OutOfBoundsDatetime => true
  | _ => false
  end.

(** ** Floats *)

(** The [float] of a request: a number; the negative zero, which equals 0.0
    and prints as [-0.0]; or NaN, which [float("nan")] yields and pydantic
    accepts in a [float] field.  The infinities are left out. *)
Inductive float : Type :=
| Num (q : Q)
| NegZero
| NaN.

(** What a [Float] column gives back after the commit and the refresh:
    SQLite stores NaN as NULL. *)
Definition stored (x : float) : option Q :=
  match x with
  | Num q => Some q
  | NegZero => Some 0%Q
  | NaN => None
  end.

(** What the numeric libraries decide and the sources do not show: [fl], the
    double nearest to a real result; the sum of a column of doubles as numpy's
    [add.reduce] and as the engine's [SUM] add it up; the first and the last
    day a pandas [Timestamp] holds (1677-09-22 and 2262-04-11 at nanosecond
    resolution). *)
Class Numerics : Type := {
  fl : Q -> Q;
  np_sum : list Q -> Q;
  sql_sum : list Q -> Q;
  Timestamp_min : Z;
  Timestamp_max : Z
}.

(** ** [app/schemas.py] *)

Record InsertReturnRequest : Type := {
  req_product_name : string;
  req_product_category : option string;
  req_store_name : string;
  req_city : option string;
  req_country : option string;
  req_purchase_date : Z;
  req_return_date : Z;
  req_reason_raw : string;
  req_price : float;
  req_currency : string;
  req_discount_pct : option float
}.

Record InsertReturnResponse : Type := {
  resp_return_id : Z;
  resp_product_name : string;
  resp_store_name : string;
  resp_price : Q;
  resp_currency : string;
  resp_message : string
}.

Record RetrievalQuery : Type := { query : string; top_k : Z }.

Record RetrievalResult : Type := {
  content : string;
  meta_product : string;
  meta_store : string;
  meta_price : option Q;
  meta_currency : string;
  meta_return_date : Z
}.

Record ReportRequest : Type := {
  rep_product_name : option string;
  start_date : option Z;
  end_date : option Z;
  generate_excel : bool
}.

Record ReportSummary : Type := {
  total_returns : Z;
  total_loss : Q;
  trend : string;
  insight : string;
  excel_path : option string
}.

Record ForecastRequest : Type := { target : string; horizon_days : Z }.

Record ForecastPoint : Type := { date : Z; predicted_value : Q }.

Record ForecastResponse : Type := {
  fc_target : string;
  fc_horizon_days : Z;
  predictions : list ForecastPoint;
  model_used : string;
  metric : string;
  metric_value : Q
}.

(** ** [app/db/models.py] *)

(** A row of the table [returns]; a [Float] column is nullable. *)
Record Return : Type := {
  id : Z;
  row_product_name : string;
  row_product_category : option string;
  row_store_name : string;
  row_city : option string;
  row_country : option string;
  row_purchase_date : Z;
  row_return_date : Z;
  row_reason_raw : string;
  row_price : option Q;
  row_currency : string;
  row_discount_pct : option Q;
  dedupe_key : string
}.

(** The table, oldest row first. *)
Definition Table : Type := list Return.

(** The constraint [uq_dedupe_key]: adding a row whose key is present makes
    the commit fail with [IntegrityError]. *)
Definition key_present (k : string) (db : Table) : bool :=
  existsb (fun r => String.eqb (dedupe_key r) k) db.

(** The primary key the engine assigns: one more than the largest in use. *)
Definition next_id (db : Table) : Z :=
  (1 + fold_right (fun r m => Z.max (id r) m) 0 db)%Z.

(** The invariant the constraint maintains. *)
Definition unique_keys (db : Table) : Prop := NoDup (map dedupe_key db).

(** Rows carrying key [k]. *)
Definition rows_with_key (k : string) (db : Table) : list Return :=
  filter (fun r => String.eqb (dedupe_key r) k) db.

Section Platform.

(** What the Python runtime and its libraries provide: the SHA-256 digest in
    hexadecimal, [str] of a float and of a date, the arithmetic of doubles,
    the text of an insight, the writing of a workbook, the sentence encoder
    and the nearest-neighbour search of the index. *)
Variable sha256_hexdigest : string -> string.
Variable str_float : float -> string.
Variable str_date : Z -> string.
Context {num : Numerics}.

(** *** [app/agents/retrieval_agent.py] *)

(** The f-string hashed by [_generate_dedupe_key]. *)
Definition raw_key (data : InsertReturnRequest) : string :=
  req_product_name data ++ "|" ++ req_store_name data ++ "|"
  ++ str_date (req_purchase_date data) ++ "|"
  ++ str_float (req_price data) ++ "|" ++ req_currency data.

Definition _generate_dedupe_key (data : InsertReturnRequest) : string :=
  sha256_hexdigest (raw_key data).

Definition new_return (request : InsertReturnRequest) (key : string)
    (rid : Z) : Return :=
  {| id := rid;
     row_product_name := req_product_name request;
     row_product_category := req_product_category request;
     row_store_name := req_store_name request;
     row_city := req_city request;
     row_country := req_country request;
     row_purchase_date := req_purchase_date request;
     row_return_date := req_return_date request;
     row_reason_raw := req_reason_raw request;
     row_price := stored (req_price request);
     row_currency := req_currency request;
     row_discount_pct :=
       match req_discount_pct request with
       | Some x => stored x
       | None => None
       end;
     dedupe_key := key |}.

Definition duplicate_message : string :=
  "Duplicate return detected. This item appears to have already been returned.".

(** [insert_return]: the outcome and the table afterwards.  On
    [IntegrityError] the transaction is rolled back.  Otherwise the row is
    committed and read back, and the response is built from it: pydantic
    rejects a price that came back as NULL, after the commit. *)
Definition insert_return (request : InsertReturnRequest) (db : Table)
    : (Exn + InsertReturnResponse) * Table :=
  let key := _generate_dedupe_key request in
  if key_present key db
  then (inl (ValueError duplicate_message), db)
  else
    let row := new_return request key (next_id db) in
    match row_price row with
    | Some price =>
        (inr {| resp_return_id := id row;
                resp_product_name := row_product_name row;
                resp_store_name := row_store_name row;
                resp_price := price;
                resp_currency := row_currency row;
                resp_message := "Return successfully recorded." |},
         (db ++ [row])%list)
    | None => (inl (ValidationError ["price"]), (db ++ [row])%list)
    end.

(** *** [app/agents/forecasting_agent.py] *)

(** One more return on day [d] in a series kept sorted by date. *)
Fixpoint count_day (d : Z) (s : list (Z * Z)) : list (Z * Z) :=
  match s with
  | [] => [(d, 1%Z)]
  | (d', c) :: s' =>
      if (d <? d')%Z then (d, 1%Z) :: s
      else if (d =? d')%Z then (d', (c + 1)%Z) :: s'
      else (d', c) :: count_day d s'
  end.

(** [_load_daily_series]: the return dates grouped, counted and sorted; the
    empty frame when there is no row.  On the way [pd.to_datetime] turns the
    dates into [Timestamp]s and raises on a date a [Timestamp] cannot hold;
    this is the frame it builds otherwise, and [forecast], the only caller,
    carries the failure (see [in_Timestamp]). *)
Definition _load_daily_series (db : Table) : list (Z * Z) :=
  fold_left (fun s r => count_day (row_return_date r) s) db [].

(** A day a [Timestamp] holds. *)
Definition in_Timestamp (d : Z) : bool :=
  ((Timestamp_min <=? d) && (d <=? Timestamp_max))%Z.

(** [series.tail(n)]. *)
Definition tail (A : Type) (n : nat) (l : list A) : list A :=
  skipn (List.length l - n) l.

Definition sumZ (l : list Z) : Z := fold_right Z.add 0%Z l.
Definition sumQ (l : list Q) : Q := fold_right Qplus 0%Q l.

(** [series.mean()] of a non-empty column of counts: the counts, far below
    2^53, add up without rounding, and the quotient is rounded. *)
Definition mean (l : list Z) : Q :=
  fl (inject_Z (sumZ l) / inject_Z (Z.of_nat (List.length l)))%Q.

(** [np.mean] of a non-empty array of doubles. *)
Definition meanQ (l : list Q) : Q :=
  fl (np_sum l / inject_Z (Z.of_nat (List.length l)))%Q.

(** [df["date"].max()]. *)
Definition max_date (df : list (Z * Z)) : Z :=
  match map fst df with
  | [] => 0%Z
  | d :: ds => fold_left Z.max ds d
  end.

(** [range(1, n + 1)]. *)
Definition range1 (n : Z) : list Z := map Z.of_nat (seq 1 (Z.to_nat n)).

Definition empty_series_message : string :=
  "Not enough data to generate forecast.".

(** [[last + timedelta(days=i) for i in steps]] on a [Timestamp]: the first
    day out of its range raises. *)
Fixpoint days_after (last : Z) (steps : list Z) : Exn + list Z :=
  match steps with
  | [] => inr []
  | i :: rest =>
      if in_Timestamp (last + i)
      then match days_after last rest with
           | inl e => inl e
           | inr ds => inr ((last + i)%Z :: ds)
           end
      else inl OutOfBoundsDatetime
  end.

Definition forecast (request : ForecastRequest) (db : Table)
    : Exn + ForecastResponse :=
  let df := _load_daily_series db in
  match df with
  | [] => inl (ValueError empty_series_message)
  | _ :: _ =>
      if negb (forallb in_Timestamp (map fst df))
      then inl OutOfBoundsDatetime
      else
        let window := Nat.min 7 (List.length df) in
        let avg_value := mean (tail window (map snd df)) in
        match days_after (max_date df) (range1 (horizon_days request)) with
        | inl e => inl e
        | inr future_dates =>
            let predictions :=
              map (fun d => {| date := d; predicted_value := avg_value |})
                  future_dates in
            let actual := tail window (map snd df) in
            let predicted := map (fun _ => avg_value) actual in
            let mae :=
              meanQ (map (fun ap => Qabs (fl (inject_Z (fst ap) - snd ap))%Q)
                         (combine actual predicted)) in
            inr {| fc_target := target request;
                   fc_horizon_days := horizon_days request;
                   predictions := predictions;
                   model_used := "7-day moving average";
                   metric := "MAE";
                   metric_value := mae |}
        end
  end.

(** *** [app/agents/report_agent.py] *)

(** [_build_insight] only composes a sentence, [_write_excel] writes a
    workbook named after the clock and may fail with the file system. *)
Variable _build_insight :
  option string -> Z -> Z -> Z -> Q -> Z -> Q -> string -> string.
Variable _write_excel :
  option string -> Z -> Z -> Z -> Q -> Z -> Q -> string -> string
  -> Exn + string.

Definition _resolve_date_range (today : Z) (start end_ : option Z) : Z * Z :=
  let e := match end_ with None => today | Some e => e end in
  let s := match start with None => (e - 13)%Z | Some s => s end in
  (s, e).

(** The filter [ilike(f"%{product_name}%")], applied only for a non-empty
    name; the name goes into the pattern as it is, wildcards included. *)
Definition product_matches (product_name : option string) (r : Return) : bool :=
  match product_name with
  | Some n =>
      if PyStr.nonempty n
      then Sql.ilike (row_product_name r) ("%" ++ n ++ "%")
      else true
  | None => true
  end.

(** The prices [SUM] sees: NULL is skipped. *)
Definition prices_of (rows : list Return) : list Q :=
  flat_map (fun r => match row_price r with Some q => [q] | None => [] end)
    rows.

(** [coalesce(sum(price), 0.0)]: the sum of no price is NULL. *)
Definition coalesce_sum (prices : list Q) : Q :=
  match prices with
  | [] => 0%Q
  | _ :: _ => sql_sum prices
  end.

Definition _aggregate_window (db : Table) (start_date end_date : Z)
    (product_name : option string) : Z * Q :=
  let rows :=
    filter (fun r => (start_date <=? row_return_date r)%Z
                     && (row_return_date r <=? end_date)%Z
                     && product_matches product_name r) db in
  (Z.of_nat (List.length rows), coalesce_sum (prices_of rows)).

Definition _compute_trend (current previous : Z) : string :=
  if ((previous =? 0) && (current =? 0))%Z then "flat"
  else if ((previous =? 0) && (0 <? current))%Z then "increasing"
  else if (previous <? current)%Z then "increasing"
  else if (current <? previous)%Z then "decreasing"
  else "flat".

(** [generate_report] over days of the calendar: below 0001-01-01 the
    subtraction of a [timedelta] raises [OverflowError], and a statement
    about a request with dates of its own says that its days are in the
    calendar ([report_in_calendar]). *)
Definition generate_report (today : Z) (request : ReportRequest) (db : Table)
    : Exn + ReportSummary :=
  let (start_date, end_date) :=
    _resolve_date_range today (start_date request) (end_date request) in
  let (total_returns, total_loss) :=
    _aggregate_window db start_date end_date (rep_product_name request) in
  let window_days := (end_date - start_date + 1)%Z in
  let prev_end := (start_date - 1)%Z in
  let prev_start := (prev_end - (window_days - 1))%Z in
  let (prev_returns, prev_loss) :=
    _aggregate_window db prev_start prev_end (rep_product_name request) in
  let trend := _compute_trend total_returns prev_returns in
  let insight :=
    _build_insight (rep_product_name request) start_date end_date
      total_returns total_loss prev_returns prev_loss trend in
  let summary (path : option string) :=
    {| total_returns := total_returns; total_loss := total_loss;
       trend := trend; insight := insight; excel_path := path |} in
  if generate_excel request
  then
    match
      _write_excel (rep_product_name request) start_date end_date
        total_returns total_loss prev_returns prev_loss trend insight
    with
    | inl e => inl e
    | inr path => inr (summary (Some path))
    end
  else inr (summary None).

(** *** [app/rag/retrieve.py] *)

Variable Vec : Type.
Variable encode : string -> Vec.
(** [index.search(query_vec, k)] for a positive [k]: the [k] positions
    found, nearest first, or the exception of a search that cannot hold its
    result. *)
Variable index_search : list Vec -> Vec -> Z -> Exn + list Z.

(** The retriever object: [self.index] ([None] until built) and
    [self.records]. *)
Record RAGRetriever : Type := {
  index : option (list Vec);
  records : list Return
}.

Definition new_retriever : RAGRetriever := {| index := None; records := [] |}.

(** [str] of a price read from the table. *)
Definition str_price (v : option Q) : string :=
  match v with
  | Some q => str_float (Num q)
  | None => "None"
  end.

Definition record_text (r : Return) : string :=
  "Product: " ++ row_product_name r ++ ". "
  ++ "Store: " ++ row_store_name r ++ ". "
  ++ "Reason: " ++ row_reason_raw r ++ ". "
  ++ "Price: " ++ str_price (row_price r) ++ " " ++ row_currency r ++ ".".

Definition index_not_built_message : string :=
  "RAG index not built. Call build_index() first.".

Definition build_index (db : Table) (self : RAGRetriever) : RAGRetriever :=
  let texts := map record_text db in
  match texts with
  | [] => {| index := index self; records := db |}
  | _ :: _ => {| index := Some (map encode texts); records := db |}
  end.

(** [l[i]] with Python's negative positions. *)
Definition py_get (A : Type) (l : list A) (i : Z) : Exn + A :=
  let n := Z.of_nat (List.length l) in
  let j := if (i <? 0)%Z then (i + n)%Z else i in
  if ((0 <=? j) && (j <? n))%Z
  then match nth_error l (Z.to_nat j) with
       | Some x => inr x
       | None => inl IndexError
       end
  else inl IndexError.

Definition result_of (record : Return) : RetrievalResult :=
  {| content := row_reason_raw record;
     meta_product := row_product_name record;
     meta_store := row_store_name record;
     meta_price := row_price record;
     meta_currency := row_currency record;
     meta_return_date := row_return_date record |}.

Fixpoint collect (recs : list Return) (indices : list Z)
    : Exn + list RetrievalResult :=
  match indices with
  | [] => inr []
  | idx :: rest =>
      match py_get recs idx with
      | inl e => inl e
      | inr record =>
          match collect recs rest with
          | inl e => inl e
          | inr results => inr (result_of record :: results)
          end
      end
  end.

(** [retrieve]; faiss' [search] asserts [k > 0] before it looks at the
    index. *)
Definition retrieve (q : RetrievalQuery) (self : RAGRetriever)
    : Exn + list RetrievalResult :=
  match index self with
  | None => inl (RuntimeError index_not_built_message)
  | Some idx =>
      if (top_k q <=? 0)%Z then inl AssertionError
      else
        match index_search idx (encode (query q)) (top_k q) with
        | inl e => inl e
        | inr indices => collect (records self) indices
        end
  end.

(** *** [app/chat_coordinator.py] *)

(** The dictionary [pending_return]: its eleven keys are fixed. *)
Record Pending : Type := {
  product_name : option string;
  product_category : option string;
  store_name : option string;
  city : option string;
  country : option string;
  purchase_date : option Z;
  return_date : option Z;
  reason_raw : option string;
  price : option Q;
  currency : option string;
  discount_pct : option Q
}.

Definition no_pending : Pending :=
  {| product_name := None; product_category := None; store_name := None;
     city := None; country := None; purchase_date := None;
     return_date := None; reason_raw := None; price := None;
     currency := None; discount_pct := None |}.

Inductive Mode : Type := InsertReturn | Analytics | Forecast | Rag.

Record ConversationState : Type := {
  pending_return : Pending;
  mode : option Mode
}.

Definition new_state : ConversationState :=
  {| pending_return := no_pending; mode := None |}.

(** The coordinator object: the table behind [self.db] and [self.rag]. *)
Record Coordinator : Type := {
  self_db : Table;
  self_rag : RAGRetriever
}.

(** Truthiness of the values a pending field holds. *)
Definition truthy_str (v : option string) : bool :=
  match v with Some s => PyStr.nonempty s | None => false end.
Definition truthy_float (v : option Q) : bool :=
  match v with Some q => PyNum.nonzero q | None => false end.
Definition truthy_date (v : option Z) : bool :=
  match v with Some _ => true | None => false end.

(** [bool(state.pending_return.get(k))]. *)
Definition truthy_key (p : Pending) (k : string) : bool :=
  if String.eqb k "product_name" then truthy_str (product_name p)
  else if String.eqb k "product_category" then truthy_str (product_category p)
  else if String.eqb k "store_name" then truthy_str (store_name p)
  else if String.eqb k "city" then truthy_str (city p)
  else if String.eqb k "country" then truthy_str (country p)
  else if String.eqb k "purchase_date" then truthy_date (purchase_date p)
  else if String.eqb k "return_date" then truthy_date (return_date p)
  else if String.eqb k "reason_raw" then truthy_str (reason_raw p)
  else if String.eqb k "price" then truthy_float (price p)
  else if String.eqb k "currency" then truthy_str (currency p)
  else if String.eqb k "discount_pct" then truthy_float (discount_pct p)
  else false.

(** Assignments [state.pending_return[k] = v]. *)
Definition set_product_name (v : string) (p : Pending) : Pending :=
  {| product_name := Some v; product_category := product_category p;
     store_name := store_name p; city := city p; country := country p;
     purchase_date := purchase_date p; return_date := return_date p;
     reason_raw := reason_raw p; price := price p; currency := currency p;
     discount_pct := discount_pct p |}.
Definition set_store_name (v : string) (p : Pending) : Pending :=
  {| product_name := product_name p; product_category := product_category p;
     store_name := Some v; city := city p; country := country p;
     purchase_date := purchase_date p; return_date := return_date p;
     reason_raw := reason_raw p; price := price p; currency := currency p;
     discount_pct := discount_pct p |}.
Definition set_reason_raw (v : string) (p : Pending) : Pending :=
  {| product_name := product_name p; product_category := product_category p;
     store_name := store_name p; city := city p; country := country p;
     purchase_date := purchase_date p; return_date := return_date p;
     reason_raw := Some v; price := price p; currency := currency p;
     discount_pct := discount_pct p |}.
Definition set_price_currency (v : Q) (c : string) (p : Pending) : Pending :=
  {| product_name := product_name p; product_category := product_category p;
     store_name := store_name p; city := city p; country := country p;
     purchase_date := purchase_date p; return_date := return_date p;
     reason_raw := reason_raw p; price := Some v; currency := Some c;
     discount_pct := discount_pct p |}.
Definition set_purchase_date (v : Z) (p : Pending) : Pending :=
  {| product_name := product_name p; product_category := product_category p;
     store_name := store_name p; city := city p; country := country p;
     purchase_date := Some v; return_date := return_date p;
     reason_raw := reason_raw p; price := price p; currency := currency p;
     discount_pct := discount_pct p |}.
Definition set_return_date (v : Z) (p : Pending) : Pending :=
  {| product_name := product_name p; product_category := product_category p;
     store_name := store_name p; city := city p; country := country p;
     purchase_date := purchase_date p; return_date := Some v;
     reason_raw := reason_raw p; price := price p; currency := currency p;
     discount_pct := discount_pct p |}.

(** [_classify_intent]. *)
Definition forecast_keywords : list string := ["forecast"; "predict"; "next"].
Definition analytics_keywords : list string :=
  ["report"; "analysis"; "how many"; "trend"; "excel"].
Definition return_keywords : list string := ["return"; "refund"].

Definition _classify_intent (text : string) : Mode :=
  let t := PyStr.lower text in
  if PyStr.any_in forecast_keywords t then Forecast
  else if PyStr.any_in analytics_keywords t then Analytics
  else if PyStr.any_in return_keywords t then InsertReturn
  else Rag.

(** The four patterns of [_extract_fields]. *)

(** [return (?:my|an|a)?\s*(.+)] with [re.I]. *)
Definition pat_product : re :=
  Seq (lit_i "return ")
    (Seq (Opt (Alt (lit_i "my") (Alt (lit_i "an") (lit_i "a"))))
       (Seq (Star space) (Grp 1 (Plus dot)))).

(** [(?:from|at)\s+(.+)] with [re.I]. *)
Definition pat_store : re :=
  Seq (Alt (lit_i "from") (lit_i "at")) (Seq (Plus space) (Grp 1 (Plus dot))).

(** [(\d+(?:\.\d+)?)\s*([A-Za-z]{2,5})]. *)
Definition pat_price : re :=
  Seq (Grp 1 (Seq (Plus digit) (Opt (Seq (chr ".") (Plus digit)))))
    (Seq (Star space)
       (Grp 2 (Seq alpha (Seq alpha
                 (Opt (Seq alpha (Opt (Seq alpha (Opt alpha))))))))).

(** [\b(20\d{2}-\d{2}-\d{2})\b]. *)
Definition pat_date : re :=
  Seq Bnd
    (Seq (Grp 1 (Seq (chr "2") (Seq (chr "0") (Seq digit (Seq digit
            (Seq (chr "-") (Seq digit (Seq digit
               (Seq (chr "-") (Seq digit digit))))))))))
       Bnd).

Definition store_blocklist : list string :=
  ["working"; "broken"; "week"; "today"].
Definition reason_keywords : list string :=
  ["not working"; "broken"; "defective"].

Definition extract_product (text : string) (p : Pending) : Pending :=
  if negb (truthy_str (product_name p)) then
    match search pat_product text with
    | Some m => set_product_name (PyStr.strip (group 1 m)) p
    | None =>
        if List.length (PyStr.split text) <=? 4
        then set_product_name (PyStr.strip text) p
        else p
    end
  else p.

Definition extract_store (text t : string) (p : Pending) : Pending :=
  if negb (truthy_str (store_name p)) then
    match search pat_store text with
    | Some m => set_store_name (PyStr.strip (group 1 m)) p
    | None =>
        if truthy_str (product_name p)
           && (List.length (PyStr.split text) <=? 5)
           && negb (PyStr.any_in store_blocklist t)
        then set_store_name (PyStr.strip text) p
        else p
    end
  else p.

Definition extract_reason (text t : string) (p : Pending) : Pending :=
  if negb (truthy_str (reason_raw p)) then
    if PyStr.any_in reason_keywords t
    then set_reason_raw (PyStr.strip text) p
    else p
  else p.

Definition extract_price (text : string) (p : Pending) : Pending :=
  if negb (truthy_float (price p)) || negb (truthy_str (currency p)) then
    match search pat_price text with
    | Some m =>
        set_price_currency (PyNum.float_of_literal (group 1 m))
          (PyStr.upper (group 2 m)) p
    | None => p
    end
  else p.

(** The purchase date; [strptime] raises on a date that does not exist (the
    text of its message is shortened here). *)
Definition extract_purchase_date (today : Z) (text t : string) (p : Pending)
    : Exn + Pending :=
  if negb (truthy_date (purchase_date p)) then
    if PyStr.contains "last week" t
    then inr (set_purchase_date (today - 7)%Z p)
    else
      match search pat_date text with
      | Some m =>
          match PyNum.strptime_ymd (group 1 m) with
          | Some d => inr (set_purchase_date d p)
          | None => inl (ValueError "time data does not match format")
          end
      | None => inr p
      end
  else inr p.

Definition extract_return_date (today : Z) (t : string) (p : Pending)
    : Pending :=
  if negb (truthy_date (return_date p)) then
    if PyStr.contains "today" t then set_return_date today p else p
  else p.

(** [_extract_fields] mutates the dictionary in place: the result is the
    exception raised, if any, and the dictionary as the call leaves it. *)
Definition _extract_fields (today : Z) (text : string) (p : Pending)
    : option Exn * Pending :=
  let t := PyStr.lower text in
  let p := extract_product text p in
  let p := extract_store text t p in
  let p := extract_reason text t p in
  let p := extract_price text p in
  match extract_purchase_date today text t p with
  | inl e => (Some e, p)
  | inr p => (None, extract_return_date today t p)
  end.

Definition required : list string :=
  ["product_name"; "store_name"; "purchase_date"; "reason_raw"; "price";
   "currency"].

Definition _missing_fields (p : Pending) : list string :=
  filter (fun k => negb (truthy_key p k)) required.

(** [k in missing]. *)
Definition mem (k : string) (missing : list string) : bool :=
  existsb (String.eqb k) missing.

Definition _ask_next (missing : list string) : string :=
  if mem "product_name" missing then "What product are you returning?"
  else if mem "store_name" missing then "Which store did you buy it from?"
  else if mem "purchase_date" missing
    then "When did you purchase it? (YYYY-MM-DD or 'last week')"
  else if mem "return_date" missing then "When is the return date?"
  else if mem "reason_raw" missing then "What is the reason for return?"
  else if mem "price" missing || mem "currency" missing
    then "What was the price and currency?"
  else "Please provide the missing details.".

(** [InsertReturnRequest] built from the keys of the dictionary: pydantic
    rejects [None] in a field that is not [Optional], naming every such
    field. *)
Definition is_some (A : Type) (v : option A) : bool :=
  match v with Some _ => true | None => false end.

Definition none_fields (p : Pending) : list string :=
  ((if is_some (product_name p) then [] else ["product_name"])
   ++ (if is_some (store_name p) then [] else ["store_name"])
   ++ (if is_some (purchase_date p) then [] else ["purchase_date"])
   ++ (if is_some (return_date p) then [] else ["return_date"])
   ++ (if is_some (reason_raw p) then [] else ["reason_raw"])
   ++ (if is_some (price p) then [] else ["price"])
   ++ (if is_some (currency p) then [] else ["currency"]))%list.

Definition make_request (p : Pending) : Exn + InsertReturnRequest :=
  match product_name p, store_name p, purchase_date p, return_date p,
        reason_raw p, price p, currency p with
  | Some pn, Some sn, Some pd, Some rd, Some rr, Some pr, Some cu =>
      inr {| req_product_name := pn;
             req_product_category := product_category p;
             req_store_name := sn;
             req_city := city p;
             req_country := country p;
             req_purchase_date := pd;
             req_return_date := rd;
             req_reason_raw := rr;
             req_price := Num pr;
             req_currency := cu;
             req_discount_pct := option_map Num (discount_pct p) |}
  | _, _, _, _, _, _, _ => inl (ValidationError (none_fields p))
  end.

(** What a turn leaves behind: a reply returned, or an exception that
    reaches the caller. *)
Inductive Reply : Type :=
| Say (text : string)
| ReturnRecorded (resp : InsertReturnResponse)
| ErrorText (e : Exn)
| ReportText (resp : ReportSummary)
| ForecastText (resp : ForecastResponse)
| RagLines (res : list RetrievalResult).

Inductive Outcome : Type :=
| Returned (reply : Reply)
| Raised (e : Exn).

(** The state object is mutated in place and the caller keeps a reference to
    it: a turn yields the outcome, the state object and the coordinator as
    the call leaves them, also when it raises. *)
Definition Turn : Type := Outcome * ConversationState * Coordinator.

Definition with_pending (p : Pending) (state : ConversationState)
    : ConversationState :=
  {| pending_return := p; mode := mode state |}.
Definition with_mode (m : option Mode) (state : ConversationState)
    : ConversationState :=
  {| pending_return := pending_return state; mode := m |}.
Definition with_db (db : Table) (self : Coordinator) : Coordinator :=
  {| self_db := db; self_rag := self_rag self |}.
Definition with_rag (r : RAGRetriever) (self : Coordinator) : Coordinator :=
  {| self_db := self_db self; self_rag := r |}.

(** The body of the [try] block up to the call of the agent. *)
Definition submit (p : Pending) (db : Table)
    : (Exn + InsertReturnResponse) * Table :=
  match make_request p with
  | inl e => (inl e, db)
  | inr req => insert_return req db
  end.

Definition _handle_insert_flow (today : Z) (text : string)
    (state : ConversationState) (self : Coordinator) : Turn :=
  let (raised, p) := _extract_fields today text (pending_return state) in
  let state := with_pending p state in
  match raised with
  | Some e => (Raised e, state, self)
  | None =>
      let missing := _missing_fields (pending_return state) in
      match missing with
      | _ :: _ => (Returned (Say (_ask_next missing)), state, self)
      | [] =>
          let (res, db) := submit (pending_return state) (self_db self) in
          let self := with_db db self in
          match res with
          | inr resp =>
              (Returned (ReturnRecorded resp),
               with_mode None (with_pending no_pending state), self)
          | inl e =>
              if is_ValueError e
              then (Returned (ErrorText e),
                    with_mode None (with_pending no_pending state), self)
              else (Raised e, state, self)
          end
      end
  end.

Definition _handle_analytics (today : Z) (text : string)
    (state : ConversationState) (self : Coordinator) : Turn :=
  let req := {| rep_product_name := None; start_date := None;
                end_date := None; generate_excel := true |} in
  match generate_report today req (self_db self) with
  | inl e => (Raised e, state, self)
  | inr resp => (Returned (ReportText resp), with_mode None state, self)
  end.

Definition _handle_forecast (text : string) (state : ConversationState)
    (self : Coordinator) : Turn :=
  let req := {| target := "daily_return_volume"; horizon_days := 14 |} in
  match forecast req (self_db self) with
  | inl e => (Raised e, state, self)
  | inr resp => (Returned (ForecastText resp), with_mode None state, self)
  end.

Definition _handle_rag (text : string) (state : ConversationState)
    (self : Coordinator) : Turn :=
  let self := with_rag (build_index (self_db self) (self_rag self)) self in
  match retrieve {| query := text; top_k := 3 |} (self_rag self) with
  | inl e => (Raised e, state, self)
  | inr res =>
      let state := with_mode None state in
      match res with
      | [] => (Returned (Say "No relevant returns found."), state, self)
      | _ :: _ => (Returned (RagLines res), state, self)
      end
  end.

Definition is_insert_return (m : option Mode) : bool :=
  match m with Some InsertReturn => true | _ => false end.

Definition handle_message (today : Z) (user_text : string)
    (state : ConversationState) (self : Coordinator) : Turn :=
  let text := PyStr.strip user_text in
  if is_insert_return (mode state)
  then _handle_insert_flow today text state self
  else
    let intent := _classify_intent text in
    let state := with_mode (Some intent) state in
    match intent with
    | Forecast => _handle_forecast text state self
    | Analytics => _handle_analytics today text state self
    | InsertReturn => _handle_insert_flow today text state self
    | Rag => _handle_rag text state self
    end.

(** A conversation: the turns are fed one after the other to the same state
    object and coordinator as long as no exception reaches the caller; the
    outcomes come in order. *)
Fixpoint converse (today : Z) (texts : list string)
    (state : ConversationState) (self : Coordinator)
    : list Outcome * ConversationState * Coordinator :=
  match texts with
  | [] => ([], state, self)
  | u :: rest =>
      match handle_message today u state self with
      | (o, state', self') =>
          match converse today rest state' self' with
          | (os, state'', self'') => (o :: os, state'', self'')
          end
      end
  end.

End Platform.

(** ** [app/rag/ingest.py] *)

(** A row as [csv.DictReader] yields it: the cells by column name, a cell
    being [None] where the line is shorter than the header. *)
Definition CsvRow : Type := list (string * option string).

Fixpoint row_lookup (k : string) (row : CsvRow) : option (option string) :=
  match row with
  | [] => None
  | (k', v) :: row' => if String.eqb k' k then Some v else row_lookup k row'
  end.

(** [row.get(k)]. *)
Definition row_get (k : string) (row : CsvRow) : option string :=
  match row_lookup k row with
  | Some v => v
  | None => None
  end.

Section Ingest.

Variable sha256_hexdigest : string -> string.
Variable str_float : float -> string.
Variable str_date : Z -> string.
(** [float(s)] and [datetime.strptime(s, "%Y-%m-%d").date()] on any text,
    [None] standing for the [ValueError] they raise; [float] reads NaN from
    the cell [nan]. *)
Variable py_float : string -> option float.
Variable py_strptime : string -> option Z.

(** [_parse_date]; a missing cell makes [strptime] raise [TypeError]. *)
Definition _parse_date (value : option string) : option Z :=
  match value with
  | Some s => py_strptime s
  | None => None
  end.

(** [float(cell)], raising on a missing cell as well. *)
Definition float_cell (value : option string) : option float :=
  match value with
  | Some s => py_float s
  | None => None
  end.

(** [float(row["discount_pct"]) if row.get("discount_pct") else None]. *)
Definition discount_cell (row : CsvRow) : option (option float) :=
  if truthy_str (row_get "discount_pct" row)
  then match float_cell (row_get "discount_pct" row) with
       | Some q => Some (Some q)
       | None => None
       end
  else Some None.

(** The request built from a row inside the [try]; [None] when building it
    raises: [KeyError] for an absent column, [TypeError] or [ValueError] from
    a date or a number, pydantic's error for a missing text cell.  Every
    exception is caught alike, so which one it is does not show. *)
Definition request_of_row (row : CsvRow) : option InsertReturnRequest :=
  match row_lookup "product_name" row, row_lookup "store_name" row,
        row_lookup "purchase_date" row, row_lookup "return_date" row,
        row_lookup "reason" row, row_lookup "price" row,
        row_lookup "currency" row with
  | Some pn, Some sn, Some pd, Some rd, Some rr, Some pr, Some cu =>
      match _parse_date pd, _parse_date rd, float_cell pr,
            discount_cell row with
      | Some pd', Some rd', Some pr', Some disc =>
          match pn, sn, rr, cu with
          | Some pn', Some sn', Some rr', Some cu' =>
              Some {| req_product_name := pn';
                      req_product_category := row_get "product_category" row;
                      req_store_name := sn';
                      req_city := row_get "city" row;
                      req_country := row_get "country" row;
                      req_purchase_date := pd';
                      req_return_date := rd';
                      req_reason_raw := rr';
                      req_price := pr';
                      req_currency := cu';
                      req_discount_pct := disc |}
          | _, _, _, _ => None
          end
      | _, _, _, _ => None
      end
  | _, _, _, _, _, _, _ => None
  end.

(** One turn of the loop: the counter and the table after the row.  The
    counter moves only when [insert_return] returns; the table is the one the
    call leaves, also when it raises. *)
Definition ingest_row (st : Z * Table) (row : CsvRow) : Z * Table :=
  match request_of_row row with
  | None => st
  | Some request =>
      match insert_return sha256_hexdigest str_float str_date request (snd st)
      with
      | (inr _, db) => ((fst st + 1)%Z, db)
      | (inl _, db) => (fst st, db)
      end
  end.

(** [ingest] over the rows the reader yields. *)
Definition ingest (rows : list CsvRow) (db : Table) : Z * Table :=
  fold_left ingest_row rows (0%Z, db).

(** The rows whose request can be built have their fingerprint in [db]. *)
Definition all_known (rows : list CsvRow) (db : Table) : Prop :=
  forall row request,
    In row rows -> request_of_row row = Some request ->
    key_present (_generate_dedupe_key sha256_hexdigest str_float str_date
                   request) db = true.

End Ingest.

(** ** A concrete platform for running the model: the digest is the identity,
    a float prints as numerator/denominator and a date as its ordinal; the
    doubles are those of a machine that never has to round, the timestamps
    those of pandas at nanosecond resolution. *)
Module Demo.

Definition str_Z (z : Z) : string :=
  NilZero.string_of_int (Z.to_int z).
Fixpoint all_digits_or_dot (s : string) : bool :=
  match s with
  | EmptyString => true
  | String c s' =>
      (PyStr.is_digit c || Ascii.eqb c "."%char) && all_digits_or_dot s'
  end.
Definition str_float (x : float) : string :=
  match x with
  | Num q => str_Z (Qnum q) ++ "/" ++ str_Z (Zpos (Qden q))
  | NegZero => "-0/1"
  | NaN => "nan"
  end.
Definition digest (s : string) : string := s.
Definition exact : Numerics :=
  {| fl := Qred;
     np_sum := fun l => Qred (sumQ l);
     sql_sum := fun l => Qred (sumQ l);
     Timestamp_min := PyNum.ymd2ord 1677 9 22;
     Timestamp_max := PyNum.ymd2ord 2262 4 11 |}.
Definition insight (_ : option string) (_ _ _ : Z) (_ : Q) (_ : Z) (_ : Q)
    (t : string) : string := t.
Definition excel (_ : option string) (_ _ _ : Z) (_ : Q) (_ : Z) (_ : Q)
    (_ _ : string) : Exn + string := inr "reports/returns_report_all.xlsx".
Definition excel_fails (_ : option string) (_ _ _ : Z) (_ : Q) (_ : Z) (_ : Q)
    (_ _ : string) : Exn + string := inl OSError.
Definition enc (s : string) : string := s.
(** The first [k] positions of the index, padded with -1 when the index
    holds fewer than [k] vectors. *)
Definition nearest (idx : list string) (_ : string) (k : Z)
    : Exn + list Z :=
  inr (map Z.of_nat (seq 0 (Nat.min (Z.to_nat k) (List.length idx)))
       ++ repeat (-1)%Z (Z.to_nat k - List.length idx))%list.

Definition chat :=
  converse (num := exact) digest str_float str_Z insight excel enc nearest.
Definition fresh : Coordinator string :=
  {| self_db := []; self_rag := new_retriever string |}.

(** The dialogue of the five-turn return. *)
Definition iphone_dialogue : list string :=
  ["I want to return my iPhone"; "Target"; "2025-01-01"; "not working";
   "50 USD"].

(** A session that is collecting a return and knows the product. *)
Definition collecting_iphone : ConversationState :=
  {| pending_return := set_product_name "iPhone" no_pending;
     mode := Some InsertReturn |}.

Definition handle :=
  handle_message (num := exact) digest str_float str_Z insight excel enc
    nearest.

(** The same coordinator on a file system that refuses the workbook. *)
Definition handle_readonly :=
  handle_message (num := exact) digest str_float str_Z insight excel_fails enc
    nearest.

(** The request of the insertion script, and the same purchase returned for
    another reason on another day. *)
Definition apple_tv : InsertReturnRequest :=
  {| req_product_name := "Apple TV";
     req_product_category := Some "Streaming Device";
     req_store_name := "Taipei 101 Apple Store";
     req_city := Some "Taipei";
     req_country := Some "Taiwan";
     req_purchase_date := 739256%Z;
     req_return_date := 739261%Z;
     req_reason_raw := "USB port not working";
     req_price := Num 3300%Q;
     req_currency := "NTD";
     req_discount_pct := Some (Num 10%Q) |}.

Definition apple_tv_again : InsertReturnRequest :=
  {| req_product_name := "Apple TV";
     req_product_category := None;
     req_store_name := "Taipei 101 Apple Store";
     req_city := None;
     req_country := None;
     req_purchase_date := 739256%Z;
     req_return_date := 739270%Z;
     req_reason_raw := "remote broken";
     req_price := Num 3300%Q;
     req_currency := "NTD";
     req_discount_pct := None |}.

(** A line of a CSV file whose price cell reads [nan], as a request, and the
    same line read again. *)
Definition nan_priced : InsertReturnRequest :=
  {| req_product_name := "Apple TV";
     req_product_category := None;
     req_store_name := "Taipei 101 Apple Store";
     req_city := None;
     req_country := None;
     req_purchase_date := 739256%Z;
     req_return_date := 739261%Z;
     req_reason_raw := "USB port not working";
     req_price := NaN;
     req_currency := "NTD";
     req_discount_pct := None |}.

Definition insert := insert_return digest str_float str_Z.
Definition fingerprint := _generate_dedupe_key digest str_float str_Z.
Definition predict := forecast (num := exact).
Definition aggregate := _aggregate_window (num := exact).

(** A table of five returns, all made on 2025-01-10. *)
Definition returned_on (day rid : Z) : Return :=
  {| id := rid;
     row_product_name := "Apple TV";
     row_product_category := None;
     row_store_name := "Taipei 101 Apple Store";
     row_city := None;
     row_country := None;
     row_purchase_date := (day - 5)%Z;
     row_return_date := day;
     row_reason_raw := "USB port not working";
     row_price := Some (inject_Z (3300 + rid));
     row_currency := "NTD";
     row_discount_pct := None;
     dedupe_key := str_Z rid |}.
Definition five_returns : Table := map (returned_on 739261%Z) [1; 2; 3; 4; 5]%Z.

(** The request of [_handle_analytics]. *)
Definition whole_table_report : ReportRequest :=
  {| rep_product_name := None; start_date := None; end_date := None;
     generate_excel := true |}.

(** A report over the default window without a workbook. *)
Definition plain_report : ReportRequest :=
  {| rep_product_name := None; start_date := None; end_date := None;
     generate_excel := false |}.

(** The query of [_handle_rag]'s shape. *)
Definition three_nearest : RetrievalQuery :=
  {| query := "USB port not working"; top_k := 3 |}.

(** The five-turn dialogue with the word "today" in its fourth message. *)
Definition iphone_dialogue_today : list string :=
  ["I want to return my iPhone"; "Target"; "2025-01-01"; "not working today";
   "50 USD"].

Definition two_weeks : ForecastRequest :=
  {| target := "daily_return_volume"; horizon_days := 14 |}.

(** A reader of cells for the ingestion: [nan] is NaN, a decimal literal its
    value, anything else an error; a date is read when it has ten
    characters. *)
Definition py_float (cell : string) : option float :=
  if String.eqb (PyStr.lower (PyStr.strip cell)) "nan" then Some NaN
  else if PyStr.nonempty cell
          && all_digits_or_dot cell
       then Some (Num (PyNum.float_of_literal cell))
       else None.
Definition py_strptime (cell : string) : option Z :=
  if String.length cell =? 10 then PyNum.strptime_ymd cell else None.
Definition load := ingest digest str_float str_Z py_float py_strptime.

(** Two lines of a file: the second has no price. *)
Definition line (product price : string) : CsvRow :=
  [("product_name", Some product); ("store_name", Some "Target");
   ("purchase_date", Some "2025-01-05"); ("return_date", Some "2025-01-10");
   ("reason", Some "broken"); ("price", Some price);
   ("currency", Some "USD")].
Definition two_lines : list CsvRow := [line "iPhone" "50"; line "iPad" "nan"].

(** A query that asks for no result. *)
Definition none_nearest : RetrievalQuery :=
  {| query := "USB port not working"; top_k := 0 |}.

(** A forecast for one day, and a table whose only return is dated
    9999-12-31. *)
Definition one_day : ForecastRequest :=
  {| target := "daily_return_volume"; horizon_days := 1 |}.
Definition last_day_of_the_calendar : Table := [returned_on PyNum.date_max 1].

(** The dictionary after the single message "0 USD" in a fresh session. *)
Definition after_zero_usd : Pending :=
  snd (_extract_fields 739500%Z "0 USD" no_pending).


End Demo.

(** * Vocabulary of the statements *)

(** Two requests name the same real-world event: they agree on the ordered
    tuple (product, store, purchase date, price, currency). *)
Definition same_natural_key (a b : InsertReturnRequest) : Prop :=
  req_product_name a = req_product_name b
  /\ req_store_name a = req_store_name b
  /\ req_purchase_date a = req_purchase_date b
  /\ req_price a = req_price b
  /\ req_currency a = req_currency b.

(** [k] occurs in [t] as a contiguous piece. *)
Definition occurs (k t : string) : Prop :=
  exists a b : string, t = a ++ k ++ b.

(** Some keyword of [ks] occurs in [t]. *)
Definition some_occurs (ks : list string) (t : string) : Prop :=
  Exists (fun k => occurs k t) ks.

(** Every field that holds a value in [p] holds the same value in [p']. *)
Definition keeps_filled (p p' : Pending) : Prop :=
  (product_name p <> None -> product_name p' = product_name p)
  /\ (product_category p <> None -> product_category p' = product_category p)
  /\ (store_name p <> None -> store_name p' = store_name p)
  /\ (city p <> None -> city p' = city p)
  /\ (country p <> None -> country p' = country p)
  /\ (purchase_date p <> None -> purchase_date p' = purchase_date p)
  /\ (return_date p <> None -> return_date p' = return_date p)
  /\ (reason_raw p <> None -> reason_raw p' = reason_raw p)
  /\ (price p <> None -> price p' = price p)
  /\ (currency p <> None -> currency p' = currency p)
  /\ (discount_pct p <> None -> discount_pct p' = discount_pct p).

(** Every field that holds a truthy value in [p] holds the same value in
    [p']; price and currency count as filled only together. *)
Definition keeps_truthy (p p' : Pending) : Prop :=
  (truthy_str (product_name p) = true -> product_name p' = product_name p)
  /\ (truthy_str (store_name p) = true -> store_name p' = store_name p)
  /\ (truthy_str (reason_raw p) = true -> reason_raw p' = reason_raw p)
  /\ (truthy_float (price p) = true -> truthy_str (currency p) = true ->
      price p' = price p /\ currency p' = currency p)
  /\ (purchase_date p <> None -> purchase_date p' = purchase_date p)
  /\ (return_date p <> None -> return_date p' = return_date p)
  /\ product_category p' = product_category p
  /\ city p' = city p
  /\ country p' = country p
  /\ discount_pct p' = discount_pct p.

(** The number of rows of the table returned on day [d]. *)
Definition returns_on (d : Z) (db : Table) : Z :=
  Z.of_nat (List.length (filter (fun r => (row_return_date r =? d)%Z) db)).

(** The count a series holds for day [d], if it has an entry for it. *)
Fixpoint count_on (d : Z) (s : list (Z * Z)) : option Z :=
  match s with
  | [] => None
  | (d', c) :: s' => if (d' =? d)%Z then Some c else count_on d s'
  end.

(** The number of rows of the table returned from day [s] to day [e], both
    included. *)
Definition returns_between (s e : Z) (db : Table) : Z :=
  Z.of_nat (List.length
              (filter (fun r => (s <=? row_return_date r)%Z
                                && (row_return_date r <=? e)%Z) db)).

(** A day of the calendar of [datetime.date]. *)
Definition is_date (d : Z) : Prop := (PyNum.date_min <= d <= PyNum.date_max)%Z.

(** The days [generate_report] computes for a request are days of the
    calendar: the two ends of the window, the day before it and the first day
    of the window before. *)
Definition report_in_calendar (today : Z) (request : ReportRequest) : Prop :=
  let (s, e) :=
    _resolve_date_range today (start_date request) (end_date request) in
  is_date s /\ is_date e /\ is_date (s - 1) /\ is_date (s - 1 - (e - s)).

(** The product filter and the product names of the table are ASCII text. *)
Definition ascii_names (name : option string) (db : Table) : Prop :=
  (forall n, name = Some n -> PyStr.is_ascii n = true)
  /\ Forall (fun r => PyStr.is_ascii (row_product_name r) = true) db.

(** The pattern of the product filter, the name between two [%], is one
    SQLite accepts. *)
Definition filter_accepted (name : option string) : Prop :=
  match name with
  | Some n => (Z.of_nat (String.length n) + 2 <= Sql.max_pattern_length)%Z
  | None => True
  end.

(** A text without the wildcards of [LIKE]. *)
Fixpoint no_wildcard (s : string) : bool :=
  match s with
  | EmptyString => true
  | String c s' =>
      negb (Ascii.eqb c "%"%char) && negb (Ascii.eqb c "_"%char)
      && no_wildcard s'
  end.

(** Every return date of the table, and for a positive [horizon] the day
    [horizon] days after it, is a day a [Timestamp] holds. *)
Definition forecastable {num : Numerics} (horizon : Z) (db : Table) : Prop :=
  Forall (fun r => (Timestamp_min <= row_return_date r)%Z
                   /\ (row_return_date r + Z.max 0 horizon
                       <= Timestamp_max)%Z) db.

(** What IEEE 754 gives for doubles within their range: rounding depends on
    the value only, keeps the order and leaves an integer up to 2^53 as it
    is; a sum of zeros is zero and a sum of numbers that are not negative is
    not negative, in whatever order it is taken. *)
Definition ieee_doubles (num : Numerics) : Prop :=
  (forall x y : Q, (x == y)%Q -> fl x = fl y)
  /\ (forall x y : Q, (x <= y)%Q -> (fl x <= fl y)%Q)
  /\ (forall z : Z, (Z.abs z <= 2 ^ 53)%Z -> fl (inject_Z z) = inject_Z z)
  /\ (forall l : list Q, Forall (fun x => (x == 0)%Q) l -> (np_sum l == 0)%Q)
  /\ (forall l : list Q, Forall (fun x => (0 <= x)%Q) l -> (0 <= np_sum l)%Q).

(** A position a list of [n] records accepts: from [-n] to [n - 1]. *)
Definition in_range (n : nat) (i : Z) : Prop :=
  (- Z.of_nat n <= i < Z.of_nat n)%Z.

(** The rows of a table that hold a price. *)
Definition priced (db : Table) : nat :=
  List.length (filter (fun r => is_some (row_price r)) db).

(** The turns of a conversation that ended in a recorded return. *)
Definition is_recorded (o : Outcome) : bool :=
  match o with
  | Returned (ReturnRecorded _) => true
  | _ => false
  end.

Definition recorded (os : list Outcome) : nat :=
  List.length (filter is_recorded os).

(** The words a pattern matches, groups and boundaries left aside. *)
Fixpoint lang (r : re) (w : string) : Prop :=
  match r with
  | Eps => w = EmptyString
  | Cls p => exists c, w = String c EmptyString /\ p c = true
  | Seq r1 r2 => exists u v, w = u ++ v /\ lang r1 u /\ lang r2 v
  | Alt r1 r2 => lang r1 w \/ lang r2 w
  | Star r1 =>
      exists ws, w = fold_right append EmptyString ws /\ Forall (lang r1) ws
  | Grp _ r1 => lang r1 w
  | Bnd => w = EmptyString
  end.

(** The text [20ab-cd-ef] and the number two digits denote. *)
Definition iso_text (d1 d2 d3 d4 d5 d6 : ascii) : string :=
  String "2" (String "0" (String d1 (String d2 (String "-"
    (String d3 (String d4 (String "-" (String d5 (String d6
       EmptyString))))))))).

Definition two_digits (a b : ascii) : Z :=
  (10 * PyNum.digit_val a + PyNum.digit_val b)%Z.

(** Every character of [w] satisfies [p]. *)
Fixpoint all_chars (p : ascii -> bool) (w : string) : bool :=
  match w with
  | EmptyString => true
  | String c w' => p c && all_chars p w'
  end.

(** A price that is not negative and a currency of two to five capital
    letters, where they are set. *)
Definition well_priced (p : Pending) : Prop :=
  (forall q, price p = Some q -> (0 <= q)%Q)
  /\ (forall cur, currency p = Some cur ->
        (2 <= String.length cur <= 5)%nat
        /\ all_chars PyStr.is_upper cur = true).

(** A recorded return with a product, a store, a price above zero and a
    currency of two to five capital letters. *)
Definition well_recorded (o : Outcome) : Prop :=
  match o with
  | Returned (ReturnRecorded resp) =>
      resp_product_name resp <> EmptyString
      /\ resp_store_name resp <> EmptyString
      /\ (0 < resp_price resp)%Q
      /\ (2 <= String.length (resp_currency resp) <= 5)%nat
      /\ all_chars PyStr.is_upper (resp_currency resp) = true
  | _ => True
  end.

(** * Properties *)

(** ** Strings as character lists *)

Lemma chars_app (a b : string) :
  list_ascii_of_string (a ++ b)
  = (list_ascii_of_string a ++ list_ascii_of_string b)%list.
Proof.
  induction a as [|c a IH]; simpl; [reflexivity | now rewrite IH].
Qed.

Lemma chars_inj (a b : string) :
  list_ascii_of_string a = list_ascii_of_string b -> a = b.
Proof.
  intro H.
  rewrite <- (string_of_list_ascii_of_string a),
          <- (string_of_list_ascii_of_string b).
  now rewrite H.
Qed.

Lemma str_app_inv_tail (a b t : string) : a ++ t = b ++ t -> a = b.
Proof.
  intro H. apply chars_inj.
  apply (f_equal list_ascii_of_string) in H. rewrite !chars_app in H.
  now apply app_inv_tail in H.
Qed.

Lemma str_app_inv_head (h a b : string) : h ++ a = h ++ b -> a = b.
Proof.
  intro H. apply chars_inj.
  apply (f_equal list_ascii_of_string) in H. rewrite !chars_app in H.
  now apply app_inv_head in H.
Qed.

Lemma str_app_assoc (a b c : string) : (a ++ b) ++ c = a ++ b ++ c.
Proof.
  induction a as [|x a IH]; simpl; [reflexivity | now rewrite IH].
Qed.

(** ** The record store *)

Section RecordStore.

Variable sha256_hexdigest : string -> string.
Variable str_float : float -> string.
Variable str_date : Z -> string.

Local Abbreviation insert := (insert_return sha256_hexdigest str_float str_date).
Local Abbreviation fingerprint :=
  (_generate_dedupe_key sha256_hexdigest str_float str_date).

Lemma same_key_same_fingerprint (a b : InsertReturnRequest) :
  same_natural_key a b -> fingerprint a = fingerprint b.
Proof.
  intros (Hp & Hs & Hd & Hq & Hc).
  unfold _generate_dedupe_key, raw_key.
  now rewrite Hp, Hs, Hd, Hq, Hc.
Qed.

(** C9.  The fingerprint is the digest of the text
    product|store|purchase date|price|currency, built from the fields as
    given.  Requests that agree on that tuple get the same fingerprint, and
    nothing is normalised: two requests that differ in one of the three text
    fields only, be it by a capital or a blank, are hashed from different
    texts. *)
Theorem C9_fingerprint_is_a_function_of_the_natural_key :
  (forall a b : InsertReturnRequest,
      same_natural_key a b -> fingerprint a = fingerprint b)
  /\ (forall a : InsertReturnRequest,
        fingerprint a
        = sha256_hexdigest
            (req_product_name a ++ "|" ++ req_store_name a ++ "|"
             ++ str_date (req_purchase_date a) ++ "|"
             ++ str_float (req_price a) ++ "|" ++ req_currency a))
  /\ (forall a b : InsertReturnRequest,
        raw_key str_float str_date a = raw_key str_float str_date b ->
        req_purchase_date a = req_purchase_date b ->
        req_price a = req_price b ->
        (req_store_name a = req_store_name b ->
         req_currency a = req_currency b ->
         req_product_name a = req_product_name b)
        /\ (req_product_name a = req_product_name b ->
            req_currency a = req_currency b ->
            req_store_name a = req_store_name b)
        /\ (req_product_name a = req_product_name b ->
            req_store_name a = req_store_name b ->
            req_currency a = req_currency b)).
Proof.
  split; [|split].
  - exact same_key_same_fingerprint.
  - reflexivity.
  - intros a b Hk Hd Hq. unfold raw_key in Hk. rewrite Hd, Hq in Hk.
    repeat split.
    + intros Hs Hc. rewrite Hs, Hc in Hk.
      now apply str_app_inv_tail in Hk.
    + intros Hp Hc. rewrite Hp, Hc in Hk.
      apply str_app_inv_head in Hk. apply str_app_inv_head in Hk.
      now apply str_app_inv_tail in Hk.
    + intros Hp Hs. rewrite Hp, Hs in Hk.
      do 8 apply str_app_inv_head in Hk. exact Hk.
Qed.

Lemma key_absent_no_rows (k : string) (db : Table) :
  key_present k db = false -> rows_with_key k db = [].
Proof.
  unfold key_present, rows_with_key.
  induction db as [|r db IH]; simpl; [reflexivity|].
  intro H. apply orb_false_iff in H as [Hr Hdb].
  rewrite Hr. now apply IH.
Qed.

Lemma key_absent_not_in (k : string) (db : Table) :
  key_present k db = false -> ~ In k (map dedupe_key db).
Proof.
  unfold key_present. induction db as [|r db IH]; simpl; [tauto|].
  intro H. apply orb_false_iff in H as [Hr Hdb].
  intros [E|HIn]; [|now apply IH].
  apply String.eqb_neq in Hr. congruence.
Qed.

Lemma key_present_last (k : string) (db : Table) (row : Return) :
  dedupe_key row = k -> key_present k (db ++ [row])%list = true.
Proof.
  intro E. unfold key_present. rewrite existsb_app. simpl.
  rewrite E, String.eqb_refl. now rewrite orb_true_r.
Qed.

Lemma unique_keys_snoc (db : Table) (row : Return) :
  unique_keys db -> ~ In (dedupe_key row) (map dedupe_key db) ->
  unique_keys (db ++ [row])%list.
Proof.
  unfold unique_keys. intros Hu Hn. rewrite map_app. simpl.
  induction db as [|r db IH]; simpl in *.
  - constructor; [tauto | constructor].
  - inversion Hu as [|x l Hx Hl]; subst. constructor.
    + rewrite in_app_iff. simpl. intros [H|[H|[]]]; [tauto|].
      apply Hn. now left.
    + apply IH; [exact Hl | tauto].
Qed.

Lemma insert_absent (request : InsertReturnRequest) (db : Table) :
  key_present (fingerprint request) db = false ->
  let row := new_return request (fingerprint request) (next_id db) in
  snd (insert request db) = (db ++ [row])%list
  /\ (forall q : Q,
        stored (req_price request) = Some q ->
        fst (insert request db)
        = inr {| resp_return_id := next_id db;
                 resp_product_name := req_product_name request;
                 resp_store_name := req_store_name request;
                 resp_price := q;
                 resp_currency := req_currency request;
                 resp_message := "Return successfully recorded." |})
  /\ (stored (req_price request) = None ->
      fst (insert request db) = inl (ValidationError ["price"])).
Proof.
  intros Habs row. subst row. unfold insert_return. rewrite Habs.
  cbn [row_price new_return].
  destruct (stored (req_price request)) as [q|]; cbn [fst snd].
  - split; [reflexivity|]. split; [|discriminate].
    intros q' E. inversion E; subst q'. reflexivity.
  - split; [reflexivity|]. split; [discriminate | reflexivity].
Qed.

(** C5 (the code departs from the claim).  When the table holds no row with
    the fingerprint of a request, the insert commits one row.  A second insert
    of any request with the same natural key raises the duplicate error and
    leaves the table as the first insert made it: exactly one row carries the
    fingerprint, and keys that were unique stay unique.  The first insert
    returns its response when the table gives the price back.  When the
    price is NaN the row is committed all the same, with no price, and the
    call raises pydantic's error instead of returning: the first insert does
    not succeed, although its row is in the table. *)
Theorem C5_first_insert_commits_then_answers :
  forall (db : Table) (r1 r2 : InsertReturnRequest),
    key_present (fingerprint r1) db = false ->
    same_natural_key r1 r2 ->
    exists row : Return,
      snd (insert r1 db) = (db ++ [row])%list
      /\ dedupe_key row = fingerprint r1
      /\ row_price row = stored (req_price r1)
      /\ (forall q : Q,
            stored (req_price r1) = Some q ->
            exists resp : InsertReturnResponse,
              fst (insert r1 db) = inr resp
              /\ resp_return_id resp = id row
              /\ resp_price resp = q)
      /\ (req_price r1 = NaN ->
          fst (insert r1 db) = inl (ValidationError ["price"])
          /\ row_price row = None)
      /\ insert r2 (db ++ [row])%list
         = (inl (ValueError duplicate_message), (db ++ [row])%list)
      /\ rows_with_key (fingerprint r1) (db ++ [row])%list = [row]
      /\ (unique_keys db -> unique_keys (db ++ [row])%list).
Proof.
  intros db r1 r2 Habs Hsame.
  pose (row := new_return r1 (fingerprint r1) (next_id db)).
  assert (Hfp : fingerprint r2 = fingerprint r1).
  { symmetry. now apply same_key_same_fingerprint. }
  destruct (insert_absent r1 db Habs) as (Hdb & Hnum & Hnan).
  exists row. split; [exact Hdb|]. split; [reflexivity|].
  split; [reflexivity|]. split.
  - intros q Hq. eexists. split; [exact (Hnum q Hq)|]. split; reflexivity.
  - split.
    + intro Hq. split; [apply Hnan; now rewrite Hq|].
      unfold row. cbn [row_price new_return]. now rewrite Hq.
    + split.
      * unfold insert_return at 1. rewrite Hfp.
        now rewrite (@key_present_last (fingerprint r1) db row eq_refl).
      * split.
        -- unfold rows_with_key. rewrite filter_app.
           fold (rows_with_key (fingerprint r1) db).
           rewrite (key_absent_no_rows _ _ Habs). simpl.
           now rewrite String.eqb_refl.
        -- intro Hu. apply unique_keys_snoc; [exact Hu|].
           now apply key_absent_not_in.
Qed.

End RecordStore.

(** ** Invariants of the record store *)

Section StoreInvariants.

Variable sha256_hexdigest : string -> string.
Variable str_float : float -> string.
Variable str_date : Z -> string.

Local Abbreviation insert := (insert_return sha256_hexdigest str_float str_date).
Local Abbreviation fingerprint :=
  (_generate_dedupe_key sha256_hexdigest str_float str_date).

Lemma key_present_app (k : string) (db more : Table) :
  key_present k (db ++ more)%list = key_present k db || key_present k more.
Proof. unfold key_present. apply existsb_app. Qed.

(** The three ways an insert can end. *)
Lemma insert_cases (request : InsertReturnRequest) (db : Table) :
  let row := new_return request (fingerprint request) (next_id db) in
  (key_present (fingerprint request) db = true
   /\ insert request db = (inl (ValueError duplicate_message), db))
  \/ (key_present (fingerprint request) db = false
      /\ exists q : Q,
           stored (req_price request) = Some q
           /\ insert request db
              = (inr {| resp_return_id := next_id db;
                        resp_product_name := req_product_name request;
                        resp_store_name := req_store_name request;
                        resp_price := q;
                        resp_currency := req_currency request;
                        resp_message := "Return successfully recorded." |},
                 (db ++ [row])%list))
  \/ (key_present (fingerprint request) db = false
      /\ req_price request = NaN
      /\ insert request db
         = (inl (ValidationError ["price"]), (db ++ [row])%list)).
Proof.
  intro row. subst row. unfold insert_return.
  destruct (key_present (fingerprint request) db); [left; auto | right].
  cbn [row_price new_return].
  destruct (req_price request) as [q| |]; cbn [stored].
  - left. split; [reflexivity|]. exists q. split; reflexivity.
  - left. split; [reflexivity|]. exists 0%Q. split; reflexivity.
  - right. repeat split.
Qed.

(** When the table gives the price back an insert ends in one of two
    ways. *)
Lemma insert_number_cases (request : InsertReturnRequest) (db : Table) (q : Q) :
  stored (req_price request) = Some q ->
  (key_present (fingerprint request) db = true
   /\ insert request db = (inl (ValueError duplicate_message), db))
  \/ (key_present (fingerprint request) db = false
      /\ insert request db
         = (inr {| resp_return_id := next_id db;
                   resp_product_name := req_product_name request;
                   resp_store_name := req_store_name request;
                   resp_price := q;
                   resp_currency := req_currency request;
                   resp_message := "Return successfully recorded." |},
            (db ++ [new_return request (fingerprint request) (next_id db)])%list)).
Proof.
  intro Hq.
  destruct (insert_cases request db) as [H|[(Hk & q' & Hq' & E)|(_ & Hn & _)]].
  - now left.
  - right. split; [exact Hk|]. rewrite Hq in Hq'. inversion Hq'; subst q'.
    exact E.
  - rewrite Hn in Hq. discriminate Hq.
Qed.

(** X1.  Whatever the outcome, an insert keeps every row of the table in place,
    adds at most one row, the one built from the request, leaves the
    fingerprint of the request present and every key that was present still
    present, and keeps the keys unique.  It adds no row exactly when the
    fingerprint was present, and then raises the duplicate error.  It returns
    a response exactly when the fingerprint was absent and the price is not
    NaN; the response then echoes the request and the new row is the last
    one.  With the fingerprint absent and a price that is NaN it adds the
    row, without a price, and raises pydantic's error. *)
Theorem insert_return_effect :
  forall (request : InsertReturnRequest) (db : Table),
    let out := insert request db in
    (exists added : Table,
        snd out = (db ++ added)%list /\ (List.length added <= 1)%nat
        /\ Forall (fun r => dedupe_key r = fingerprint request
                            /\ row_product_name r = req_product_name request
                            /\ row_store_name r = req_store_name request
                            /\ row_purchase_date r = req_purchase_date request
                            /\ row_return_date r = req_return_date request
                            /\ row_reason_raw r = req_reason_raw request
                            /\ row_price r = stored (req_price request)
                            /\ row_currency r = req_currency request
                            /\ r = new_return request (fingerprint request)
                                   (id r)) added
        /\ (added = [] <-> key_present (fingerprint request) db = true)
        /\ (added = [] <-> fst out = inl (ValueError duplicate_message)))
    /\ ((exists resp, fst out = inr resp)
        <-> key_present (fingerprint request) db = false
            /\ req_price request <> NaN)
    /\ (key_present (fingerprint request) db = false ->
        req_price request = NaN ->
        fst out = inl (ValidationError ["price"]))
    /\ key_present (fingerprint request) (snd out) = true
    /\ (forall k, key_present k db = true -> key_present k (snd out) = true)
    /\ (unique_keys db -> unique_keys (snd out))
    /\ (forall resp, fst out = inr resp ->
          resp_product_name resp = req_product_name request
          /\ resp_store_name resp = req_store_name request
          /\ Some (resp_price resp) = stored (req_price request)
          /\ resp_currency resp = req_currency request
          /\ resp_message resp = "Return successfully recorded."
          /\ exists row, snd out = (db ++ [row])%list
                         /\ id row = resp_return_id resp).
Proof.
  intros request db out. subst out.
  set (row := new_return request (fingerprint request) (next_id db)).
  assert (Hrow : Forall
            (fun r => dedupe_key r = fingerprint request
                      /\ row_product_name r = req_product_name request
                      /\ row_store_name r = req_store_name request
                      /\ row_purchase_date r = req_purchase_date request
                      /\ row_return_date r = req_return_date request
                      /\ row_reason_raw r = req_reason_raw request
                      /\ row_price r = stored (req_price request)
                      /\ row_currency r = req_currency request
                      /\ r = new_return request (fingerprint request)
                             (id r)) [row])
    by (constructor; [repeat split | constructor]).
  assert (Hpresent : key_present (fingerprint request) (db ++ [row])%list = true).
  { rewrite key_present_app. cbn. rewrite String.eqb_refl.
    now rewrite orb_true_r. }
  destruct (insert_cases request db)
    as [[Hk E]|[(Hk & q & Hq & E)|(Hk & Hn & E)]];
    cbv zeta in E; fold row in E; rewrite E; cbn [fst snd].
  - split; [|split; [|split; [|split; [exact Hk | split; [auto | split; [auto|]]]]]].
    + exists []. rewrite app_nil_r.
      repeat split; auto; try constructor; intros; congruence.
    + split; [intros [resp H]; discriminate H | intros [H _]; congruence].
    + congruence.
    + intros resp H. discriminate H.
  - split; [|split; [|split; [|split; [exact Hpresent | split; [|split]]]]].
    + exists [row]. split; [reflexivity|]. split; [simpl; lia|].
      split; [exact Hrow|].
      split; split; intro H; try discriminate H; congruence.
    + split; [intros _; split; [exact Hk|] | intros _; eexists; reflexivity].
      intro C. rewrite C in Hq. discriminate Hq.
    + intros _ C. rewrite C in Hq. discriminate Hq.
    + intros k H. rewrite key_present_app, H. reflexivity.
    + intro Hu. apply unique_keys_snoc; [exact Hu|].
      now apply key_absent_not_in.
    + intros resp H. inversion H; subst resp; cbn.
      repeat split; [now rewrite Hq|]. now exists row.
  - split; [|split; [|split; [|split; [exact Hpresent | split; [|split]]]]].
    + exists [row]. split; [reflexivity|]. split; [simpl; lia|].
      split; [exact Hrow|].
      split; split; intro H; try discriminate H; congruence.
    + split; [intros [resp H]; discriminate H | intros [_ H]; congruence].
    + reflexivity.
    + intros k H. rewrite key_present_app, H. reflexivity.
    + intro Hu. apply unique_keys_snoc; [exact Hu|].
      now apply key_absent_not_in.
    + intros resp H. discriminate H.
Qed.

End StoreInvariants.


(** ** Bulk ingestion *)

Section IngestProperties.

Variable sha256_hexdigest : string -> string.
Variable str_float : float -> string.
Variable str_date : Z -> string.
Variable py_float : string -> option float.
Variable py_strptime : string -> option Z.

Local Abbreviation fingerprint :=
  (_generate_dedupe_key sha256_hexdigest str_float str_date).
Local Abbreviation parse := (request_of_row py_float py_strptime).
Local Abbreviation step :=
  (ingest_row sha256_hexdigest str_float str_date py_float py_strptime).
Local Abbreviation load :=
  (ingest sha256_hexdigest str_float str_date py_float py_strptime).
Local Abbreviation all_known :=
  (all_known sha256_hexdigest str_float str_date py_float py_strptime).

Lemma priced_app (a b : Table) : priced (a ++ b)%list = (priced a + priced b)%nat.
Proof. unfold priced. now rewrite filter_app, length_app. Qed.

Lemma ingest_row_effect (n : Z) (db : Table) (row : CsvRow) :
  exists added : Table,
    step (n, db) row = ((n + Z.of_nat (priced added))%Z, (db ++ added)%list)
    /\ (List.length added <= 1)%nat
    /\ (unique_keys db -> unique_keys (db ++ added)%list)
    /\ (forall request, parse row = Some request ->
          key_present (fingerprint request) (db ++ added)%list = true)
    /\ (forall request, parse row = Some request ->
          key_present (fingerprint request) db = true -> added = [])
    /\ (parse row = None -> added = [])
    /\ Forall (fun r => exists request,
                  parse row = Some request
                  /\ row_price r = stored (req_price request)
                  /\ r = new_return request (fingerprint request) (id r))
         added.
Proof.
  unfold ingest_row. cbn [fst snd].
  destruct (parse row) as [request|].
  - set (new := new_return request (fingerprint request) (next_id db)).
    assert (Hkey : key_present (fingerprint request) (db ++ [new])%list = true).
    { rewrite key_present_app. cbn. rewrite String.eqb_refl.
      now rewrite orb_true_r. }
    assert (Hnew : Forall (fun r => exists request0,
                      Some request = Some request0
                      /\ row_price r = stored (req_price request0)
                      /\ r = new_return request0 (fingerprint request0)
                             (id r)) [new])
      by (constructor; [exists request; repeat split | constructor]).
    destruct (insert_cases sha256_hexdigest str_float str_date request db)
      as [[Hk E]|[(Hk & q & Hq & E)|(Hk & Hn & E)]];
      cbv zeta in E; fold new in E; rewrite E.
    + exists []. rewrite app_nil_r, Z.add_0_r.
      repeat split; auto; try constructor;
        intros r Hr; inversion Hr; subst; auto.
    + exists [new].
      assert (P : priced [new] = 1%nat).
      { unfold priced, new. cbn [filter row_price new_return].
        rewrite Hq. reflexivity. }
      rewrite P. split; [reflexivity|]. split; [simpl; lia|].
      split; [|split; [|split; [|split]]].
      * intro Hu. apply unique_keys_snoc; [exact Hu|].
        now apply key_absent_not_in.
      * intros r Hr. inversion Hr; subst. exact Hkey.
      * intros r Hr Hp. inversion Hr; subst. congruence.
      * discriminate.
      * exact Hnew.
    + exists [new].
      assert (P : priced [new] = 0%nat).
      { unfold priced, new. cbn [filter row_price new_return].
        rewrite Hn. reflexivity. }
      rewrite P, Z.add_0_r. split; [reflexivity|]. split; [simpl; lia|].
      split; [|split; [|split; [|split]]].
      * intro Hu. apply unique_keys_snoc; [exact Hu|].
        now apply key_absent_not_in.
      * intros r Hr. inversion Hr; subst. exact Hkey.
      * intros r Hr Hp. inversion Hr; subst. congruence.
      * discriminate.
      * exact Hnew.
  - exists []. rewrite app_nil_r, Z.add_0_r.
    repeat split; auto; try constructor; discriminate.
Qed.

Lemma ingest_from (rows : list CsvRow) (n : Z) (db : Table) :
  exists added : Table,
    fold_left step rows (n, db)
    = ((n + Z.of_nat (priced added))%Z, (db ++ added)%list)
    /\ (List.length added <= List.length rows)%nat
    /\ (unique_keys db -> unique_keys (db ++ added)%list)
    /\ all_known rows (db ++ added)%list
    /\ Forall (fun r => exists row request,
                  In row rows /\ parse row = Some request
                  /\ row_price r = stored (req_price request)
                  /\ r = new_return request (fingerprint request) (id r))
         added.
Proof.
  revert n db. induction rows as [|row rows IH]; intros n db.
  - exists []. rewrite app_nil_r, Z.add_0_r. cbn.
    split; [reflexivity|]. split; [lia|]. split; [auto|].
    split; [intros row request [] | constructor].
  - destruct (ingest_row_effect n db row)
      as (a1 & E1 & L1 & U1 & K1 & _ & _ & P1).
    cbn [fold_left]. rewrite E1.
    destruct (IH (n + Z.of_nat (priced a1))%Z (db ++ a1)%list)
      as (a2 & E2 & L2 & U2 & K2 & P2).
    exists (a1 ++ a2)%list. rewrite app_assoc, length_app, priced_app.
    split; [etransitivity; [exact E2 | f_equal; lia]|].
    split; [simpl; lia|]. split; [auto|]. split.
    + intros r request [->|HIn] Hp; [|now apply (K2 r)].
      rewrite key_present_app, (K1 request Hp). reflexivity.
    + apply Forall_app. split.
      * eapply Forall_impl; [|exact P1].
        intros r (request & Hp & Hr & Hnew). exists row, request.
        split; [now left | repeat split; assumption].
      * eapply Forall_impl; [|exact P2].
        intros r (row' & request & HIn & Hp & Hr & Hnew).
        exists row', request.
        split; [now right | repeat split; assumption].
Qed.

Lemma ingest_known (rows : list CsvRow) (n : Z) (db : Table) :
  all_known rows db -> fold_left step rows (n, db) = (n, db).
Proof.
  revert n db. induction rows as [|row rows IH]; intros n db Hk; [reflexivity|].
  cbn [fold_left].
  destruct (ingest_row_effect n db row) as (a1 & E1 & _ & _ & _ & D1 & N1 & _).
  assert (Ha : a1 = []).
  { destruct (parse row) as [request|] eqn:Hp; [|now apply N1].
    apply (D1 request eq_refl). apply (Hk row); [now left | exact Hp]. }
  rewrite E1, Ha, app_nil_r. cbn. rewrite Z.add_0_r. apply IH.
  intros r request HIn. apply Hk. now right.
Qed.

(** X2.  The number [ingest] returns is the number of rows it added that hold a
    price: the table afterwards is the table before followed by the new rows,
    never more than the file has lines, and unique keys stay unique.  Every
    new row is the row of a line of the file whose request could be built,
    and every such line has its fingerprint in the table afterwards.  The
    count is the number of rows added when no line of the file has NaN for
    its price; a line that has is committed without a price and not
    counted. *)
Theorem ingest_counts_the_rows_added :
  forall (rows : list CsvRow) (db : Table),
    exists added : Table,
      load rows db = (Z.of_nat (priced added), (db ++ added)%list)
      /\ (priced added <= List.length added <= List.length rows)%nat
      /\ (unique_keys db -> unique_keys (db ++ added)%list)
      /\ Forall (fun r => exists row request,
                    In row rows /\ parse row = Some request
                    /\ r = new_return request (fingerprint request) (id r))
           added
      /\ (forall row request,
            In row rows -> parse row = Some request ->
            key_present (fingerprint request) (db ++ added)%list = true)
      /\ Forall (fun r => row_price r = None
                          -> exists row request,
                               In row rows /\ parse row = Some request
                               /\ req_price request = NaN) added
      /\ ((forall row request,
             In row rows -> parse row = Some request ->
             req_price request <> NaN) ->
          priced added = List.length added).
Proof.
  intros rows db. unfold ingest.
  destruct (ingest_from rows 0 db) as (added & E & L & U & K & P).
  exists added. rewrite E. split; [reflexivity|].
  assert (Hle : (priced added <= List.length added)%nat)
    by (unfold priced; apply filter_length_le).
  split; [lia|]. split; [exact U|].
  split; [|split; [exact K|split]].
  - eapply Forall_impl; [|exact P].
    intros r (row & request & HIn & Hp & _ & Hnew).
    exists row, request. repeat split; assumption.
  - eapply Forall_impl; [|exact P].
    intros r (row & request & HIn & Hp & Hr & _) Hnone.
    exists row, request. split; [exact HIn|]. split; [exact Hp|].
    rewrite Hnone in Hr. now destruct (req_price request).
  - intro Hnum. unfold priced. f_equal.
    apply forallb_filter_id. apply forallb_forall. intros r Hr.
    rewrite Forall_forall in P.
    destruct (P r Hr) as (row & request & HIn & Hp & Hprice & _).
    rewrite Hprice. specialize (Hnum row request HIn Hp).
    now destruct (req_price request).
Qed.

(** X3.  Loading the same rows a second time adds nothing and returns 0. *)
Theorem ingest_again_adds_nothing :
  forall (rows : list CsvRow) (db : Table),
    load rows (snd (load rows db)) = (0%Z, snd (load rows db)).
Proof.
  intros rows db. unfold ingest at 2 3.
  destruct (ingest_from rows 0 db) as (added & E & _ & _ & K).
  rewrite E. cbn [snd]. unfold ingest. now apply ingest_known.
Qed.

Lemma ingest_row_shift (n : Z) (st : Z * Table) (row : CsvRow) :
  step ((n + fst st)%Z, snd st) row
  = ((n + fst (step st row))%Z, snd (step st row)).
Proof.
  unfold ingest_row. cbn [fst snd].
  destruct (parse row) as [request|]; [|reflexivity].
  destruct (insert_return _ _ _ request (snd st)) as [[e|resp] db'];
    cbn [fst snd]; f_equal; lia.
Qed.

Lemma ingest_shift (rows : list CsvRow) (n : Z) (st : Z * Table) :
  fold_left step rows ((n + fst st)%Z, snd st)
  = ((n + fst (fold_left step rows st))%Z, snd (fold_left step rows st)).
Proof.
  revert st. induction rows as [|row rows IH]; intro st; [reflexivity|].
  cbn [fold_left]. rewrite ingest_row_shift. apply IH.
Qed.

(** X4.  A file loaded in two parts gives the table of the whole file, and the two
    counts add up to the count of the whole. *)
Theorem ingest_in_two_parts :
  forall (first second : list CsvRow) (db : Table),
    load (first ++ second) db
    = ((fst (load first db) + fst (load second (snd (load first db))))%Z,
       snd (load second (snd (load first db)))).
Proof.
  intros first second db. unfold ingest. rewrite fold_left_app.
  destruct (fold_left step first (0%Z, db)) as [n1 db1]. cbn [fst snd].
  pose proof (ingest_shift second n1 (0%Z, db1)) as H.
  cbn [fst snd] in H. rewrite Z.add_0_r in H. exact H.
Qed.

(** X5.  A row whose request cannot be built (a column or a cell is missing, a
    date or a number does not parse) changes neither the count nor the
    table. *)
Theorem ingest_skips_malformed_rows :
  forall (rows : list CsvRow) (db : Table),
    load rows db
    = load (filter (fun row => is_some (parse row)) rows) db.
Proof.
  intros rows db. unfold ingest. generalize (0%Z, db) as st.
  induction rows as [|row rows IH]; intro st; [reflexivity|].
  cbn [fold_left filter].
  destruct (parse row) as [request|] eqn:Hp; cbn [is_some].
  - cbn [fold_left]. apply IH.
  - unfold ingest_row at 2. rewrite Hp. apply IH.
Qed.

End IngestProperties.


(** ** The aggregator *)

Lemma trend_cases (current previous : Z) :
  (_compute_trend current previous = "increasing" <-> (previous < current)%Z)
  /\ (_compute_trend current previous = "decreasing"
      <-> (current < previous)%Z)
  /\ (_compute_trend current previous = "flat" <-> current = previous).
Proof.
  unfold _compute_trend.
  destruct (Z.eqb_spec previous 0), (Z.eqb_spec current 0),
    (Z.ltb_spec 0 current), (Z.ltb_spec previous current),
    (Z.ltb_spec current previous); cbn [andb];
    repeat split; intros; try reflexivity; try lia; try congruence.
Qed.

(** X6.  The trend label compares the two counts and nothing else: the two tests
    for an empty previous window are special cases of the comparison. *)
Theorem compute_trend_is_a_comparison :
  forall current previous : Z,
    (_compute_trend current previous = "increasing" <-> (previous < current)%Z)
    /\ (_compute_trend current previous = "decreasing"
        <-> (current < previous)%Z)
    /\ (_compute_trend current previous = "flat" <-> current = previous).
Proof.
  intros current previous. unfold _compute_trend.
  destruct (Z.eqb_spec previous 0), (Z.eqb_spec current 0),
    (Z.ltb_spec 0 current), (Z.ltb_spec previous current),
    (Z.ltb_spec current previous); cbn [andb];
    repeat split; intros; try reflexivity; try lia; try congruence.
Qed.

Section AggregatorProperties.

Context {num : Numerics}.

Lemma aggregate_count_unfiltered (db : Table) (s e : Z) :
  fst (_aggregate_window db s e None) = returns_between s e db.
Proof.
  unfold _aggregate_window, returns_between. cbn [fst]. do 2 f_equal.
  apply filter_ext. intro r. cbn. now rewrite andb_true_r.
Qed.

(** Rows of [db] in the window [s..e] that pass the product filter, split at
    day [m]. *)
Lemma window_split (db : Table) (s m e : Z) (name : option string) :
  (s <= m + 1)%Z -> (m <= e)%Z ->
  let inw (a b : Z) :=
    filter (fun r => (a <=? row_return_date r)%Z
                     && (row_return_date r <=? b)%Z
                     && product_matches name r) db in
  List.length (inw s e)
  = (List.length (inw s m) + List.length (inw (m + 1)%Z e))%nat.
Proof.
  intros Hs He inw. subst inw. cbv beta.
  induction db as [|r db IHn]; cbn [filter]; [reflexivity|].
  destruct (product_matches name r); rewrite ?andb_true_r, ?andb_false_r.
  - destruct (Z.leb_spec s (row_return_date r)),
      (Z.leb_spec (row_return_date r) e),
      (Z.leb_spec (row_return_date r) m),
      (Z.leb_spec (m + 1) (row_return_date r));
      cbn [andb]; try lia; cbn [List.length]; rewrite ?IHn; lia.
  - exact IHn.
Qed.

(** X7.  Windows are inclusive at both ends and adjacent windows do not overlap:
    the count over [s..e] is the count over [s..m] plus the count over
    [m+1..e], with or without a product filter (one short enough for
    [LIKE]), and a count is never more than the table has rows.  The window
    of one day counts the rows of that day that pass the filter, and without
    a filter a window counts the returns dated from [s] to [e]. *)
Theorem aggregate_window_splits :
  forall (db : Table) (s m e : Z) (name : option string),
    filter_accepted name ->
    (s <= m + 1)%Z -> (m <= e)%Z ->
    fst (_aggregate_window db s e name)
    = (fst (_aggregate_window db s m name)
       + fst (_aggregate_window db (m + 1) e name))%Z
    /\ (0 <= fst (_aggregate_window db s e name)
         <= Z.of_nat (List.length db))%Z
    /\ fst (_aggregate_window db e e name)
       = Z.of_nat (List.length
                    (filter (fun r => (row_return_date r =? e)%Z
                                      && product_matches name r) db))
    /\ fst (_aggregate_window db s e None) = returns_between s e db.
Proof.
  intros db s m e name _ Hs He.
  pose proof (window_split db name Hs He) as Hn.
  split; [|split; [|split]].
  - unfold _aggregate_window. cbn [fst]. rewrite Hn. lia.
  - unfold _aggregate_window. cbn [fst].
    split; [lia|]. apply inj_le. apply filter_length_le.
  - unfold _aggregate_window. cbn [fst]. do 2 f_equal.
    apply filter_ext. intro r. f_equal.
    destruct (Z.leb_spec e (row_return_date r)),
      (Z.leb_spec (row_return_date r) e),
      (Z.eqb_spec (row_return_date r) e); cbn [andb]; try reflexivity; lia.
  - apply aggregate_count_unfiltered.
Qed.

Lemma nothing_in_window (db : Table) (s e : Z) (name : option string) :
  Forall (fun r => (row_return_date r < s)%Z \/ (e < row_return_date r)%Z \/
                   product_matches name r = false) db ->
  filter (fun r => (s <=? row_return_date r)%Z
                   && (row_return_date r <=? e)%Z
                   && product_matches name r) db = [].
Proof.
  induction 1 as [|r db Hr Hdb IH]; cbn [filter]; [reflexivity|].
  rewrite IH.
  destruct (Z.leb_spec s (row_return_date r)),
    (Z.leb_spec (row_return_date r) e), (product_matches name r);
    cbn [andb]; try reflexivity.
  destruct Hr as [Hr|[Hr|Hr]]; try lia; discriminate.
Qed.

Lemma like_skip (p s : string) :
  Sql.like (String "%" p) s
  = Sql.like p s
    || match s with
       | EmptyString => false
       | String _ s' => Sql.like (String "%" p) s'
       end.
Proof. destruct s; reflexivity. Qed.

Lemma like_percent (s : string) : Sql.like "%" s = true.
Proof.
  cbn [Sql.like Ascii.eqb Bool.eqb]. cbv iota.
  induction s as [|c s IH]; [reflexivity|].
  rewrite IH. apply orb_true_r.
Qed.

(** Before the closing [%] a pattern without wildcards matches a prefix. *)
Lemma like_prefix (n s : string) :
  no_wildcard n = true -> Sql.like (n ++ "%") s = String.prefix n s.
Proof.
  revert s. induction n as [|c n IH]; intros s H.
  - cbn [append]. rewrite like_percent. now destruct s.
  - cbn [no_wildcard] in H.
    apply andb_true_iff in H as [H Hn]. apply andb_true_iff in H as [H1 H2].
    apply negb_true_iff in H1, H2.
    cbn [append Sql.like]. rewrite H1.
    destruct s as [|d s]; [reflexivity|].
    rewrite H2, (IH s Hn). cbn [orb String.prefix].
    destruct (ascii_dec c d) as [->|Hcd].
    + now rewrite Ascii.eqb_refl.
    + apply Ascii.eqb_neq in Hcd. now rewrite Hcd.
Qed.

(** Between two [%] a pattern without wildcards matches a piece of the
    text. *)
Lemma like_contains (n s : string) :
  no_wildcard n = true ->
  Sql.like ("%" ++ n ++ "%") s = PyStr.contains n s.
Proof.
  intro H. cbn [append Sql.like Ascii.eqb Bool.eqb]. cbv iota.
  induction s as [|c s IH].
  - rewrite (like_prefix n EmptyString H). cbn [PyStr.contains].
    now rewrite orb_false_r.
  - rewrite (like_prefix n (String c s) H). cbn [PyStr.contains].
    now rewrite IH.
Qed.

Lemma lower_app (a b : string) :
  PyStr.lower (a ++ b) = PyStr.lower a ++ PyStr.lower b.
Proof.
  unfold PyStr.lower.
  induction a as [|c a IH]; cbn [append PyStr.map_chars]; [reflexivity|].
  now rewrite IH.
Qed.

Lemma lower_char_no_wildcard (c : ascii) :
  negb (Ascii.eqb c "%"%char) && negb (Ascii.eqb c "_"%char) = true ->
  negb (Ascii.eqb (PyStr.lower_char c) "%"%char)
  && negb (Ascii.eqb (PyStr.lower_char c) "_"%char) = true.
Proof.
  destruct c as [[] [] [] [] [] [] [] []]; cbn; intro H;
    try reflexivity; discriminate H.
Qed.

Lemma lower_no_wildcard (n : string) :
  no_wildcard n = true -> no_wildcard (PyStr.lower n) = true.
Proof.
  unfold PyStr.lower.
  induction n as [|c n IH]; cbn [no_wildcard PyStr.map_chars]; [auto|].
  intro H. apply andb_true_iff in H as [Hc Hn].
  now rewrite (lower_char_no_wildcard c Hc), (IH Hn).
Qed.

(** X8.  With no row in the window that passes the filter the aggregate is
    (0, 0.0): on an empty table, on a window that ends before it starts, or
    when no return date falls in it.  The filter is SQL's [LIKE] between two
    [%], on ASCII names and for a filter short enough for [LIKE]: a name
    without [%] and [_] matches the product names it occurs in, letter case
    set aside, while [_] alone matches every product name that is not empty
    and [%] alone every product name. *)
Theorem aggregate_window_nothing :
  forall (db : Table) (s e : Z) (name : option string),
    ascii_names name db ->
    filter_accepted name ->
    Forall (fun r => (row_return_date r < s)%Z \/ (e < row_return_date r)%Z \/
                     product_matches name r = false) db ->
    _aggregate_window db s e name = (0%Z, 0%Q)
    /\ (forall (n : string) (r : Return),
          PyStr.nonempty n = true -> no_wildcard n = true ->
          product_matches (Some n) r
          = PyStr.contains (PyStr.lower n) (PyStr.lower (row_product_name r)))
    /\ (forall r : Return,
          product_matches (Some "_") r = PyStr.nonempty (row_product_name r)
          /\ product_matches (Some "%") r = true).
Proof.
  intros db s e name _ _ H. split; [|split].
  - unfold _aggregate_window. now rewrite (nothing_in_window name H).
  - intros n r Hn Hw. unfold product_matches, Sql.ilike. rewrite Hn.
    rewrite !lower_app. change (PyStr.lower "%") with "%".
    apply like_contains. now apply lower_no_wildcard.
  - intro r. unfold product_matches, Sql.ilike.
    change (PyStr.nonempty "_") with true.
    change (PyStr.nonempty "%") with true. cbv iota.
    change (PyStr.lower ("%" ++ "_" ++ "%")) with "%_%".
    change (PyStr.lower ("%" ++ "%" ++ "%")) with "%%%".
    assert (L : PyStr.nonempty (PyStr.lower (row_product_name r))
                = PyStr.nonempty (row_product_name r))
      by (now destruct (row_product_name r)).
    rewrite <- L. generalize (PyStr.lower (row_product_name r)). intro t.
    split.
    + rewrite like_skip. destruct t as [|c t]; [reflexivity|].
      change (Sql.like "_%" (String c t)) with (Sql.like "%" t).
      now rewrite like_percent.
    + rewrite like_skip, like_skip, like_percent. reflexivity.
Qed.

End AggregatorProperties.

Section ReportProperties.

Context {num : Numerics}.
Variable _build_insight :
  option string -> Z -> Z -> Z -> Q -> Z -> Q -> string -> string.
Variable _write_excel :
  option string -> Z -> Z -> Z -> Q -> Z -> Q -> string -> string
  -> Exn + string.

Local Abbreviation report := (generate_report _build_insight _write_excel).

Lemma report_default_windows (today : Z) (db : Table) :
  report today Demo.whole_table_report db
  = let cur := _aggregate_window db (today - 13) today None in
    let prev := _aggregate_window db (today - 27) (today - 14) None in
    let trend := _compute_trend (fst cur) (fst prev) in
    let insight :=
      _build_insight None (today - 13)%Z today (fst cur) (snd cur) (fst prev)
        (snd prev) trend in
    match _write_excel None (today - 13)%Z today (fst cur) (snd cur)
            (fst prev) (snd prev) trend insight with
    | inl e => inl e
    | inr path =>
        inr {| total_returns := fst cur; total_loss := snd cur;
               trend := trend; insight := insight;
               excel_path := Some path |}
    end.
Proof.
  unfold generate_report, Demo.whole_table_report.
  cbn [start_date end_date rep_product_name generate_excel
       _resolve_date_range].
  replace (today - 13 - 1 - (today - (today - 13) + 1 - 1))%Z
    with (today - 27)%Z by lia.
  replace (today - 13 - 1)%Z with (today - 14)%Z by lia.
  destruct (_aggregate_window db (today - 13) today None) as [c l].
  destruct (_aggregate_window db (today - 27) (today - 14) None) as [pc pl].
  reflexivity.
Qed.

(** X9.  The report the coordinator asks for counts the returns of the last 14
    days, today included, and labels the trend by comparing that count with
    the count of the 14 days before; a return of the last 28 days is counted
    in exactly one of the two windows.  With no return in the last 14 days
    the loss is 0.  The report fails only when the workbook cannot be
    written, with the writer's own error. *)
Theorem coordinator_report_windows :
  forall (today : Z) (db : Table),
    let cur := returns_between (today - 13) today db in
    let prev := returns_between (today - 27) (today - 14) db in
    (cur + prev)%Z = returns_between (today - 27) today db
    /\ (forall r : ReportSummary,
          report today Demo.whole_table_report db = inr r ->
          total_returns r = cur
          /\ (trend r = "increasing" <-> (prev < cur)%Z)
          /\ (trend r = "decreasing" <-> (cur < prev)%Z)
          /\ (trend r = "flat" <-> cur = prev)
          /\ (cur = 0%Z -> total_loss r = 0%Q)
          /\ excel_path r <> None)
    /\ (forall e : Exn,
          report today Demo.whole_table_report db = inl e ->
          exists a b c d f g h i j, _write_excel a b c d f g h i j = inl e).
Proof.
  intros today db cur prev. split; [|split].
  - subst cur prev. rewrite <- !aggregate_count_unfiltered.
    assert (Hs : (today - 27 <= today - 14 + 1)%Z) by lia.
    assert (He : (today - 14 <= today)%Z) by lia.
    pose proof (window_split db None Hs He) as Hn. cbv zeta in Hn.
    replace (today - 14 + 1)%Z with (today - 13)%Z in Hn by lia.
    unfold _aggregate_window. cbn [fst]. rewrite Hn, Nat2Z.inj_add.
    apply Z.add_comm.
  - intros r. rewrite report_default_windows. cbv zeta.
    rewrite !aggregate_count_unfiltered. fold cur prev.
    destruct (_write_excel _ _ _ _ _ _ _ _ _) as [e|path]; [discriminate|].
    intro H. inversion H; subst r; cbn [total_returns trend total_loss excel_path].
    destruct (trend_cases cur prev) as (T1 & T2 & T3).
    repeat split; try apply T1; try apply T2; try apply T3; try discriminate.
    intro Hz. unfold _aggregate_window. cbn [snd].
    assert (E : filter (fun r => (today - 13 <=? row_return_date r)%Z
                                 && (row_return_date r <=? today)%Z
                                 && product_matches None r) db = []).
    { subst cur. unfold returns_between in Hz.
      apply length_zero_iff_nil. apply Nat2Z.inj.
      change (Z.of_nat 0) with 0%Z. rewrite <- Hz.
      do 2 f_equal. apply filter_ext.
      intro x. cbn. now rewrite andb_true_r. }
    exact (f_equal (fun l => coalesce_sum (prices_of l)) E).
  - intros e. rewrite report_default_windows. cbv zeta.
    destruct (_write_excel _ _ _ _ _ _ _ _ _) as [e'|path] eqn:E;
      [|discriminate].
    intro H. inversion H; subst e'. repeat eexists. exact E.
Qed.

(** X10.  A report without a workbook, over days that all lie in the calendar
    (the window, the day before it and the start of the window before) and
    with a product filter short enough for [LIKE], cannot fail: it carries
    no path, its count and its loss are those of the window and its trend
    compares the count with the count of the window before. *)
Theorem report_without_workbook_never_fails :
  forall (today : Z) (request : ReportRequest) (db : Table),
    generate_excel request = false ->
    report_in_calendar today request ->
    filter_accepted (rep_product_name request) ->
    exists r : ReportSummary,
      report today request db = inr r /\ excel_path r = None
      /\ (let (s, e) :=
            _resolve_date_range today (start_date request)
              (end_date request) in
          let cur := fst (_aggregate_window db s e (rep_product_name request)) in
          let prev :=
            fst (_aggregate_window db (s - 1 - (e - s)) (s - 1)
                   (rep_product_name request)) in
          total_returns r = cur
          /\ total_loss r
             = snd (_aggregate_window db s e (rep_product_name request))
          /\ trend r = _compute_trend cur prev).
Proof.
  intros today request db H _ _. unfold generate_report.
  destruct (_resolve_date_range today _ _) as [s e].
  replace (s - 1 - (e - s + 1 - 1))%Z with (s - 1 - (e - s))%Z by lia.
  destruct (_aggregate_window db s e _) as [c l].
  destruct (_aggregate_window db _ _ _) as [pc pl].
  rewrite H. eexists. split; [reflexivity|]. split; [reflexivity|].
  cbn [fst snd total_returns total_loss trend]. repeat split.
Qed.

End ReportProperties.


(** ** The semantic index, rebuilt and searched *)

Section IndexProperties.

Variable str_float : float -> string.
Variable Vec : Type.
Variable encode : string -> Vec.
Variable index_search : list Vec -> Vec -> Z -> Exn + list Z.

Local Abbreviation rebuild := (build_index str_float encode).
Local Abbreviation search_index := (retrieve encode index_search).

Lemma py_get_in_range (A : Type) (l : list A) (i : Z) :
  in_range (List.length l) i ->
  exists x, py_get l i = inr x /\ In x l
            /\ nth_error l (Z.to_nat (i mod Z.of_nat (List.length l))) = Some x.
Proof.
  unfold in_range, py_get. intro H.
  set (n := Z.of_nat (List.length l)) in *.
  assert (Hj : ((if (i <? 0)%Z then (i + n)%Z else i) = i mod n)%Z).
  { destruct (Z.ltb_spec i 0).
    - apply Z.mod_unique with (-1)%Z; lia.
    - symmetry. apply Z.mod_small. lia. }
  rewrite Hj.
  assert (Hr : (0 <= i mod n < n)%Z) by (apply Z.mod_pos_bound; lia).
  destruct (Z.leb_spec 0 (i mod n)), (Z.ltb_spec (i mod n) n); try lia.
  cbn [andb].
  destruct (nth_error l (Z.to_nat (i mod n))) as [x|] eqn:E.
  - exists x. repeat split. now apply nth_error_In in E.
  - apply nth_error_None in E. lia.
Qed.

Lemma py_get_out_of_range (A : Type) (l : list A) (i : Z) :
  ~ in_range (List.length l) i -> py_get l i = inl IndexError.
Proof.
  unfold in_range, py_get. intro H.
  destruct (Z.ltb_spec i 0);
    destruct (Z.leb_spec 0 (i + Z.of_nat (List.length l)));
    destruct (Z.leb_spec 0 i);
    destruct (Z.ltb_spec (i + Z.of_nat (List.length l))
                (Z.of_nat (List.length l)));
    destruct (Z.ltb_spec i (Z.of_nat (List.length l)));
    cbn [andb]; try reflexivity; lia.
Qed.

Lemma collect_in_range (recs : list Return) (hits : list Z) :
  Forall (in_range (List.length recs)) hits ->
  exists results,
    collect recs hits = inr results
    /\ List.length results = List.length hits
    /\ Forall (fun res => exists row, In row recs /\ res = result_of row)
         results.
Proof.
  induction 1 as [|i hits Hi Hall (results & E & L & F)]; cbn [collect].
  - exists []. repeat split. constructor.
  - destruct (py_get_in_range recs Hi) as (row & Eg & HIn & _).
    rewrite Eg, E. exists (result_of row :: results).
    split; [reflexivity|]. split; [simpl; now rewrite L|].
    constructor; [now exists row | exact F].
Qed.

Lemma collect_out_of_range (recs : list Return) (hits : list Z) :
  Exists (fun i => ~ in_range (List.length recs) i) hits ->
  collect recs hits = inl IndexError.
Proof.
  induction hits as [|i hits IH]; intro H; [inversion H|].
  cbn [collect].
  destruct (py_get recs i) as [e|row] eqn:Eg.
  - destruct (Z.ltb_spec i 0); unfold py_get in Eg;
      repeat match type of Eg with
             | context [if ?b then _ else _] => destruct b
             | context [match ?x with _ => _ end] => destruct x
             end; congruence.
  - inversion H as [? ? Hi|? ? Hrest]; subst.
    + rewrite (py_get_out_of_range recs Hi) in Eg. discriminate.
    + now rewrite (IH Hrest).
Qed.

(** X11.  A rebuild always takes the rows of the table as its records.  Over a
    table with rows it builds one vector per row whatever the retriever held
    before; over an empty table it leaves the index as it was.  Rebuilding
    twice over the same table is rebuilding once. *)
Theorem rebuild_takes_the_table :
  forall (db : Table) (self : RAGRetriever Vec),
    records (rebuild db self) = db
    /\ (db = [] -> index (rebuild db self) = index self)
    /\ (db <> [] ->
        exists vectors,
          index (rebuild db self) = Some vectors
          /\ List.length vectors = List.length db
          /\ forall other, rebuild db other = rebuild db self)
    /\ rebuild db (rebuild db self) = rebuild db self.
Proof.
  intros db self. unfold build_index.
  destruct db as [|r db]; cbn [map].
  - repeat split; congruence.
  - split; [reflexivity|]. split; [congruence|]. split; [|reflexivity].
    intros _. eexists. split; [reflexivity|].
    split; [cbn; now rewrite !length_map | reflexivity].
Qed.

Lemma py_get_error (A : Type) (l : list A) (i : Z) (e : Exn) :
  py_get l i = inl e -> e = IndexError.
Proof.
  unfold py_get. intro H.
  repeat match type of H with
         | context [if ?b then _ else _] => destruct b
         | context [match ?x with _ => _ end] => destruct x
         end; congruence.
Qed.

Lemma collect_error (recs : list Return) (hits : list Z) (e : Exn) :
  collect recs hits = inl e -> e = IndexError.
Proof.
  induction hits as [|i hits IH]; cbn [collect]; [discriminate|].
  destruct (py_get recs i) as [e'|row] eqn:E.
  - intro H. inversion H; subst e'. now apply py_get_error in E.
  - destruct (collect recs hits) as [e'|res]; [|discriminate].
    intro H. inversion H; subst e'. now apply IH.
Qed.

(** X12.  After a rebuild over a table with rows the index is there, with one
    vector per row, and a search gets as far as the index.  Asked for no
    result or fewer ([top_k] of zero or less) it fails on the assertion of
    the index, and an exception of the index itself reaches the caller.
    Otherwise, when every position the index returns lies between [-n] and
    [n - 1] for the [n] rows, the search returns one result per position,
    each built from a row of the table; a position outside that range makes
    it raise [IndexError]. *)
Theorem search_after_rebuild :
  forall (db : Table) (self : RAGRetriever Vec) (q : RetrievalQuery),
    db <> [] ->
    let found :=
      index_search (map encode (map (record_text str_float) db))
        (encode (query q)) (top_k q) in
    (exists vectors,
        index (rebuild db self) = Some vectors
        /\ List.length vectors = List.length db)
    /\ ((top_k q <= 0)%Z ->
        search_index q (rebuild db self) = inl AssertionError)
    /\ ((0 < top_k q)%Z ->
        (forall e : Exn,
            found = inl e -> search_index q (rebuild db self) = inl e)
        /\ (forall hits : list Z,
              found = inr hits ->
              search_index q (rebuild db self) = collect db hits
              /\ (Forall (in_range (List.length db)) hits ->
                  exists results,
                    search_index q (rebuild db self) = inr results
                    /\ List.length results = List.length hits
                    /\ Forall (fun res => exists row,
                                  In row db /\ res = result_of row) results)
              /\ (Exists (fun i => ~ in_range (List.length db) i) hits ->
                  search_index q (rebuild db self) = inl IndexError))).
Proof.
  intros db self q Hne found.
  assert (E : search_index q (rebuild db self)
              = if (top_k q <=? 0)%Z then inl AssertionError
                else match found with
                     | inl e => inl e
                     | inr hits => collect db hits
                     end).
  { unfold retrieve, build_index. destruct db as [|r db]; [congruence|].
    reflexivity. }
  rewrite E. split; [|split].
  - unfold build_index. destruct db as [|r db]; [congruence|].
    eexists. split; [reflexivity|]. now rewrite !length_map.
  - intro H. apply Z.leb_le in H. now rewrite H.
  - intro H. apply Z.leb_gt in H. rewrite H. split.
    + now intros e ->.
    + intros hits ->. split; [reflexivity|]. split.
      * apply collect_in_range.
      * apply collect_out_of_range.
Qed.

(** Position -1, which the index uses to pad a result when it holds fewer
    vectors than asked for, reads the last record. *)
Lemma padding_position_reads_the_last_record :
  forall (recs : list Return) (r : Return),
    py_get (recs ++ [r])%list (-1) = inr r.
Proof.
  intros recs r. unfold py_get. rewrite length_app. cbn [List.length].
  replace (Z.of_nat (List.length recs + 1))
    with (Z.of_nat (List.length recs) + 1)%Z by lia.
  change (-1 <? 0)%Z with true. cbv iota.
  replace (-1 + (Z.of_nat (List.length recs) + 1))%Z
    with (Z.of_nat (List.length recs)) by lia.
  destruct (Z.leb_spec 0 (Z.of_nat (List.length recs)));
    destruct (Z.ltb_spec (Z.of_nat (List.length recs))
                (Z.of_nat (List.length recs) + 1)); try lia.
  cbn [andb]. rewrite Nat2Z.id, nth_error_app2 by lia.
  now rewrite Nat.sub_diag.
Qed.

End IndexProperties.


(** ** Intent classification *)

Lemma prefix_iff (k t : string) :
  String.prefix k t = true <-> exists b : string, t = k ++ b.
Proof.
  revert t. induction k as [|c k IH]; intro t; simpl.
  - split; [intros _; now exists t | intros _; now destruct t].
  - destruct t as [|d t]; simpl.
    + split; [discriminate | intros [b Hb]; discriminate].
    + destruct (ascii_dec c d) as [->|Hcd].
      * rewrite IH. split; intros [b Hb]; exists b; congruence.
      * split; [discriminate | intros [b Hb]; congruence].
Qed.

Lemma prefix_contains (k t : string) :
  String.prefix k t = true -> PyStr.contains k t = true.
Proof.
  intro H. destruct t; cbn [PyStr.contains]; now rewrite H.
Qed.

Lemma contains_iff (k t : string) :
  PyStr.contains k t = true <-> occurs k t.
Proof.
  split.
  - induction t as [|c t IH]; cbn [PyStr.contains]; rewrite orb_true_iff.
    + intros [H|H]; [|discriminate].
      apply prefix_iff in H as [b Hb]. now exists EmptyString, b.
    + intros [H|H].
      * apply prefix_iff in H as [b Hb]. now exists EmptyString, b.
      * destruct (IH H) as (a & b & E). exists (String c a), b.
        cbn [append]. now rewrite E.
  - intros (a & b & E). subst t.
    induction a as [|c a IH]; cbn [append].
    + apply prefix_contains, prefix_iff. now exists b.
    + cbn [PyStr.contains]. rewrite IH. apply orb_true_r.
Qed.

Lemma any_in_iff (ks : list string) (t : string) :
  PyStr.any_in ks t = true <-> some_occurs ks t.
Proof.
  unfold PyStr.any_in, some_occurs. rewrite existsb_exists, Exists_exists.
  split; intros (k & Hk & H); exists k; split; auto; now apply contains_iff.
Qed.

Lemma any_in_false (ks : list string) (t : string) :
  ~ some_occurs ks t -> PyStr.any_in ks t = false.
Proof.
  intro H. destruct (PyStr.any_in ks t) eqn:E; [|reflexivity].
  exfalso. apply H. now apply any_in_iff.
Qed.

(** ** Field extraction *)

Lemma keeps_truthy_refl (p : Pending) : keeps_truthy p p.
Proof. unfold keeps_truthy; tauto. Qed.

Lemma keeps_truthy_trans (p q r : Pending) :
  keeps_truthy p q -> keeps_truthy q r -> keeps_truthy p r.
Proof.
  unfold keeps_truthy.
  intros (A1 & A2 & A3 & A4 & A5 & A6 & A7 & A8 & A9 & A10)
         (B1 & B2 & B3 & B4 & B5 & B6 & B7 & B8 & B9 & B10).
  split; [|split; [|split; [|split; [|split; [|split]]]]];
    [| | | intros H H0; split | | | repeat split; congruence].
  - intro H. pose proof (A1 H) as E. rewrite <- E in H.
    rewrite (B1 H). exact E.
  - intro H. pose proof (A2 H) as E. rewrite <- E in H.
    rewrite (B2 H). exact E.
  - intro H. pose proof (A3 H) as E. rewrite <- E in H.
    rewrite (B3 H). exact E.
  - destruct (A4 H H0) as [E1 E2].
    rewrite <- E1 in H. rewrite <- E2 in H0.
    destruct (B4 H H0) as [F1 F2]. congruence.
  - destruct (A4 H H0) as [E1 E2].
    rewrite <- E1 in H. rewrite <- E2 in H0.
    destruct (B4 H H0) as [F1 F2]. congruence.
  - intro H. pose proof (A5 H) as E. rewrite <- E in H.
    rewrite (B5 H). exact E.
  - intro H. pose proof (A6 H) as E. rewrite <- E in H.
    rewrite (B6 H). exact E.
Qed.

(** Each step writes its own slot only, and only when the guard finds it
    falsy. *)
Ltac step_keeps f :=
  intros; unfold keeps_truthy, f;
  repeat match goal with
         | |- context [if ?b then _ else _] => destruct b eqn:?
         | |- context [match ?x with _ => _ end] => destruct x eqn:?
         end;
  cbn; repeat split; intros; try reflexivity; try congruence.

Lemma extract_product_keeps text p : keeps_truthy p (extract_product text p).
Proof.
  step_keeps extract_product;
    rewrite negb_true_iff in *; congruence.
Qed.

Lemma extract_store_keeps text t p : keeps_truthy p (extract_store text t p).
Proof.
  step_keeps extract_store;
    rewrite negb_true_iff in *; congruence.
Qed.

Lemma extract_reason_keeps text t p : keeps_truthy p (extract_reason text t p).
Proof.
  step_keeps extract_reason;
    rewrite negb_true_iff in *; congruence.
Qed.

Lemma extract_price_keeps text p : keeps_truthy p (extract_price text p).
Proof.
  step_keeps extract_price;
    match goal with
    | H : _ || _ = true |- _ =>
        apply orb_true_iff in H as [H|H]; rewrite negb_true_iff in H; congruence
    end.
Qed.

Lemma extract_purchase_date_keeps today text t p p' :
  extract_purchase_date today text t p = inr p' -> keeps_truthy p p'.
Proof.
  unfold extract_purchase_date. intro H.
  repeat match type of H with
         | context [if ?b then _ else _] => destruct b eqn:?
         | context [match ?x with _ => _ end] => destruct x eqn:?
         end;
  inversion H; subst; try apply keeps_truthy_refl;
  unfold keeps_truthy; cbn; repeat split; intros; try reflexivity;
  destruct (purchase_date p); cbn in *; congruence.
Qed.

Lemma extract_return_date_keeps today t p :
  keeps_truthy p (extract_return_date today t p).
Proof.
  step_keeps extract_return_date;
    destruct (return_date p); cbn in *; congruence.
Qed.

(** C3 (amended).  The extraction pass leaves every pending field that was
    truthy before it (a non-empty text, a non-zero price, any date) with the
    same value, price and currency being kept when both are truthy; the four
    fields the pass never reads are always kept.  This holds for the
    dictionary as the pass leaves it, also when the pass raises on a date that
    does not exist. *)
Theorem C3_extraction_keeps_truthy_fields :
  forall (today : Z) (text : string) (p : Pending),
    keeps_truthy p (snd (_extract_fields today text p)).
Proof.
  intros today text p. unfold _extract_fields.
  set (t := PyStr.lower text).
  set (p1 := extract_product text p).
  set (p2 := extract_store text t p1).
  set (p3 := extract_reason text t p2).
  set (p4 := extract_price text p3).
  assert (K4 : keeps_truthy p p4).
  { apply keeps_truthy_trans with p3; [|apply extract_price_keeps].
    apply keeps_truthy_trans with p2; [|apply extract_reason_keeps].
    apply keeps_truthy_trans with p1; [|apply extract_store_keeps].
    apply extract_product_keeps. }
  destruct (extract_purchase_date today text t p4) as [e|p5] eqn:E5; cbn.
  - exact K4.
  - apply keeps_truthy_trans with p5; [|apply extract_return_date_keeps].
    apply keeps_truthy_trans with p4; [exact K4|].
    now apply extract_purchase_date_keeps with today text t.
Qed.

(** ** The forecaster *)

Lemma count_on_above (d : Z) (s : list (Z * Z)) :
  Forall (Z.lt d) (map fst s) -> count_on d s = None.
Proof.
  induction s as [|[d' c] s IH]; simpl; [reflexivity|].
  intro H. inversion H as [|x l Hx Hl]; subst.
  destruct (Z.eqb_spec d' d); [lia | now apply IH].
Qed.

Lemma count_day_above (d0 d : Z) (s : list (Z * Z)) :
  (d < d0)%Z -> Forall (Z.lt d) (map fst s) ->
  Forall (Z.lt d) (map fst (count_day d0 s)).
Proof.
  intros Hd. induction s as [|[d' c] s IH]; simpl; intro H.
  - now constructor.
  - inversion H as [|x l Hx Hl]; subst.
    destruct (Z.ltb_spec d0 d'); [now constructor|].
    destruct (Z.eqb_spec d0 d'); simpl; constructor; auto.
Qed.

Lemma count_day_sorted (d0 : Z) (s : list (Z * Z)) :
  StronglySorted Z.lt (map fst s) ->
  StronglySorted Z.lt (map fst (count_day d0 s)).
Proof.
  induction s as [|[d' c] s IH]; simpl; intro H.
  - repeat constructor.
  - inversion H as [|x l Hs Hall]; subst.
    destruct (Z.ltb_spec d0 d').
    + simpl. constructor; [exact H|].
      constructor; [exact H0|].
      eapply Forall_impl; [|exact Hall]. intros; lia.
    + destruct (Z.eqb_spec d0 d'); simpl.
      * now constructor.
      * constructor; [now apply IH|].
        apply count_day_above; [lia | exact Hall].
Qed.

Lemma count_day_count_on (d0 d : Z) (s : list (Z * Z)) :
  StronglySorted Z.lt (map fst s) ->
  count_on d (count_day d0 s)
  = if (d =? d0)%Z
    then Some (match count_on d0 s with Some c => c + 1 | None => 1 end)%Z
    else count_on d s.
Proof.
  induction s as [|[d' c] s IH]; simpl; intro H.
  - rewrite Z.eqb_sym. reflexivity.
  - inversion H as [|x l Hs Hall]; subst.
    destruct (Z.ltb_spec d0 d') as [Hlt|Hge].
    + simpl. rewrite (Z.eqb_sym d0 d).
      destruct (Z.eqb_spec d d0) as [->|Hne]; [|reflexivity].
      destruct (Z.eqb_spec d' d0); [lia|].
      rewrite count_on_above; [reflexivity|].
      eapply Forall_impl; [|exact Hall]. intros; lia.
    + destruct (Z.eqb_spec d0 d') as [->|Hne]; simpl.
      * rewrite Z.eqb_refl, (Z.eqb_sym d' d).
        destruct (Z.eqb_spec d d'); reflexivity.
      * destruct (Z.eqb_spec d' d0); [lia|].
        destruct (Z.eqb_spec d' d) as [->|Hd'].
        -- destruct (Z.eqb_spec d d0); [lia | reflexivity].
        -- now apply IH.
Qed.

Lemma count_on_In (d c : Z) (s : list (Z * Z)) :
  StronglySorted Z.lt (map fst s) ->
  (In (d, c) s <-> count_on d s = Some c).
Proof.
  induction s as [|[d' c'] s IH]; simpl; intro H.
  - split; [tauto | discriminate].
  - inversion H as [|x l Hs Hall]; subst.
    destruct (Z.eqb_spec d' d) as [->|Hne].
    + split.
      * intros [E|HIn]; [congruence|].
        apply (in_map fst) in HIn. simpl in HIn.
        rewrite Forall_forall in Hall. apply Hall in HIn. lia.
      * intro E. left. congruence.
    + rewrite <- (IH Hs). split; [intros [E|HIn]; [congruence | exact HIn]|].
      intro HIn. now right.
Qed.

Lemma series_snoc (db : Table) (r : Return) :
  _load_daily_series (db ++ [r])%list
  = count_day (row_return_date r) (_load_daily_series db).
Proof. unfold _load_daily_series. now rewrite fold_left_app. Qed.

Lemma returns_on_snoc (d : Z) (db : Table) (r : Return) :
  returns_on d (db ++ [r])%list
  = (returns_on d db + (if (row_return_date r =? d)%Z then 1 else 0))%Z.
Proof.
  unfold returns_on. rewrite filter_app, length_app. simpl.
  destruct (row_return_date r =? d)%Z; simpl; lia.
Qed.

Lemma returns_on_nonneg (d : Z) (db : Table) : (0 <= returns_on d db)%Z.
Proof. unfold returns_on. lia. Qed.

Lemma series_sorted (db : Table) :
  StronglySorted Z.lt (map fst (_load_daily_series db)).
Proof.
  induction db as [|r db IH] using rev_ind; [constructor|].
  rewrite series_snoc. now apply count_day_sorted.
Qed.

Lemma series_count_on (d : Z) (db : Table) :
  count_on d (_load_daily_series db)
  = if (returns_on d db =? 0)%Z then None else Some (returns_on d db).
Proof.
  induction db as [|r db IH] using rev_ind; [reflexivity|].
  rewrite series_snoc, count_day_count_on by apply series_sorted.
  rewrite returns_on_snoc, (Z.eqb_sym d).
  pose proof (returns_on_nonneg d db) as Hnn.
  destruct (Z.eqb_spec (row_return_date r) d) as [->|Hne].
  - rewrite IH.
    destruct (Z.eqb_spec (returns_on d db) 0) as [E|E];
      destruct (Z.eqb_spec (returns_on d db + 1) 0); try lia.
    + now rewrite E.
    + reflexivity.
  - rewrite IH, Z.add_0_r. reflexivity.
Qed.

(** The series is the table grouped by return date: the days with at least
    one return, each with its number of returns. *)
Lemma series_In (d c : Z) (db : Table) :
  In (d, c) (_load_daily_series db) <-> (0 < c)%Z /\ c = returns_on d db.
Proof.
  rewrite (@count_on_In d c _ (series_sorted db)), series_count_on.
  pose proof (returns_on_nonneg d db) as Hnn.
  destruct (Z.eqb_spec (returns_on d db) 0) as [E|E].
  - split; [discriminate | intros [H1 H2]; lia].
  - split; [intro H; inversion H; lia | intros [H1 H2]; now subst].
Qed.

Lemma count_day_nonempty (d0 : Z) (s : list (Z * Z)) : count_day d0 s <> [].
Proof.
  destruct s as [|[d' c] s]; simpl; [discriminate|].
  destruct (d0 <? d')%Z; [discriminate|].
  destruct (d0 =? d')%Z; discriminate.
Qed.

Lemma series_nonempty (db : Table) : db <> [] -> _load_daily_series db <> [].
Proof.
  intro H. destruct (exists_last H) as (l & r & ->).
  rewrite series_snoc. apply count_day_nonempty.
Qed.

Lemma returns_on_pos (d : Z) (db : Table) :
  (0 < returns_on d db)%Z <-> In d (map row_return_date db).
Proof.
  unfold returns_on. induction db as [|r db IH]; simpl; [split; [lia|tauto]|].
  destruct (Z.eqb_spec (row_return_date r) d) as [E|E]; simpl.
  - split; [now left | lia].
  - rewrite IH. split; [now right | intros [H|H]; [congruence | exact H]].
Qed.

Lemma series_dates (d : Z) (db : Table) :
  In d (map fst (_load_daily_series db)) <-> In d (map row_return_date db).
Proof.
  rewrite <- returns_on_pos, in_map_iff. split.
  - intros ([d' c] & E & HIn). simpl in E. subst d'.
    apply series_In in HIn. lia.
  - intro Hpos. exists (d, returns_on d db). split; [reflexivity|].
    apply series_In. now split.
Qed.

Lemma fold_max_ge (l : list Z) (a : Z) :
  (a <= fold_left Z.max l a)%Z
  /\ Forall (fun x => (x <= fold_left Z.max l a)%Z) l.
Proof.
  revert a. induction l as [|x l IH]; intro a; simpl.
  - split; [lia | constructor].
  - destruct (IH (Z.max a x)) as [H1 H2]. split; [lia|].
    constructor; [lia | exact H2].
Qed.

Lemma fold_max_in (l : list Z) (a : Z) : In (fold_left Z.max l a) (a :: l).
Proof.
  revert a. induction l as [|x l IH]; intro a; simpl; [now left|].
  destruct (IH (Z.max a x)) as [H|H]; [|now right; right].
  destruct (Z.max_spec a x) as [[_ E]|[_ E]]; rewrite E in *;
    [right; left | left]; exact H.
Qed.

(** The last observed date: the latest return date of the table. *)
Lemma max_date_latest (db : Table) :
  db <> [] ->
  In (max_date (_load_daily_series db)) (map row_return_date db)
  /\ Forall (fun r => (row_return_date r <= max_date (_load_daily_series db))%Z)
       db.
Proof.
  intro Hne. pose proof (series_nonempty Hne) as Hs.
  assert (Hin : In (max_date (_load_daily_series db))
                   (map fst (_load_daily_series db))).
  { unfold max_date. destruct (map fst (_load_daily_series db)) as [|d ds] eqn:E.
    - destruct (_load_daily_series db); [congruence | discriminate].
    - apply fold_max_in. }
  assert (Hge : Forall (fun d => (d <= max_date (_load_daily_series db))%Z)
                   (map fst (_load_daily_series db))).
  { unfold max_date. destruct (map fst (_load_daily_series db)) as [|d ds].
    - constructor.
    - destruct (fold_max_ge ds d) as [H1 H2]. now constructor. }
  split; [now apply series_dates|].
  rewrite Forall_forall in *. intros r Hr. apply Hge, series_dates.
  now apply in_map.
Qed.

Lemma tail_suffix (A : Type) (n : nat) (l : list A) :
  (exists older, l = older ++ tail n l)%list
  /\ List.length (tail n l) = Nat.min n (List.length l).
Proof.
  unfold tail. split.
  - exists (firstn (List.length l - n) l). now rewrite firstn_skipn.
  - rewrite length_skipn. lia.
Qed.

Lemma series_single_day (d : Z) (db : Table) :
  db <> [] -> Forall (fun r => row_return_date r = d) db ->
  _load_daily_series db = [(d, Z.of_nat (List.length db))].
Proof.
  intros Hne Hall.
  assert (G : forall l k,
             Forall (fun r => row_return_date r = d) l ->
             fold_left (fun s r => count_day (row_return_date r) s) l [(d, k)]
             = [(d, (k + Z.of_nat (List.length l))%Z)]).
  { induction l as [|r l IH]; intros k Hl; simpl.
    - now rewrite Z.add_0_r.
    - apply Forall_cons_iff in Hl as [Hx Hy]. rewrite Hx.
      rewrite Z.ltb_irrefl, Z.eqb_refl, IH by exact Hy.
      do 2 f_equal. lia. }
  destruct db as [|r db]; [congruence|].
  apply Forall_cons_iff in Hall as [Hx Hy].
  unfold _load_daily_series. simpl. rewrite Hx, G by exact Hy.
  do 2 f_equal. lia.
Qed.

Section ForecasterProperties.

Context {num : Numerics}.

Lemma errors_against_constant (v : Q) (actual : list Z) :
  map (fun ap => Qabs (fl (inject_Z (fst ap) - snd ap))%Q)
      (combine actual (map (fun _ => v) actual))
  = map (fun a => Qabs (fl (inject_Z a - v))%Q) actual.
Proof.
  induction actual as [|a l IH]; [reflexivity|].
  cbn [map combine fst snd]. f_equal. exact IH.
Qed.

Lemma days_after_in_range (last : Z) (steps : list Z) :
  Forall (fun i => in_Timestamp (last + i) = true) steps ->
  days_after last steps = inr (map (fun i => (last + i)%Z) steps).
Proof.
  induction 1 as [|i steps Hi Hs IH]; cbn [days_after map]; [reflexivity|].
  now rewrite Hi, IH.
Qed.

Lemma days_after_out_of_range (last : Z) (steps : list Z) :
  Exists (fun i => in_Timestamp (last + i) = false) steps ->
  days_after last steps = inl OutOfBoundsDatetime.
Proof.
  induction 1 as [i steps Hi|i steps Hs IH]; cbn [days_after].
  - now rewrite Hi.
  - rewrite IH. now destruct (in_Timestamp (last + i)).
Qed.

Lemma days_after_error (last : Z) (steps : list Z) (e : Exn) :
  days_after last steps = inl e -> e = OutOfBoundsDatetime.
Proof.
  induction steps as [|i steps IH]; cbn [days_after]; [discriminate|].
  destruct (in_Timestamp (last + i)); [|now intros [=]].
  destruct (days_after last steps) as [e'|ds]; [|discriminate].
  intros [= ->]. now apply IH.
Qed.

(** With rows in the table [forecast] does not fail for lack of data. *)
Lemma forecast_has_data (request : ForecastRequest) (db : Table) :
  db <> [] -> forecast request db <> inl (ValueError empty_series_message).
Proof.
  intros Hne. unfold forecast.
  pose proof (series_nonempty Hne) as Hs.
  destruct (_load_daily_series db); [congruence|].
  destruct (negb _); [discriminate|].
  destruct (days_after _ _) as [e|ds] eqn:D; [|discriminate].
  apply days_after_error in D. subst e. discriminate.
Qed.

Lemma range1_In (h i : Z) : In i (range1 h) <-> (1 <= i <= h)%Z.
Proof.
  unfold range1. rewrite in_map_iff. split.
  - intros (k & <- & Hk). apply in_seq in Hk. lia.
  - intro H. exists (Z.to_nat i). split; [lia|]. apply in_seq. lia.
Qed.

Lemma in_Timestamp_iff (d : Z) :
  in_Timestamp d = true <-> (Timestamp_min <= d <= Timestamp_max)%Z.
Proof.
  unfold in_Timestamp. rewrite andb_true_iff, !Z.leb_le. tauto.
Qed.

(** Under [forecastable] the conversion of the dates and the days of the
    horizon stay within the range of a [Timestamp]. *)
Lemma forecastable_dates (h : Z) (db : Table) :
  forecastable h db ->
  forallb in_Timestamp (map fst (_load_daily_series db)) = true.
Proof.
  intro H. apply forallb_forall. intros d Hd.
  apply series_dates, in_map_iff in Hd as (r & <- & Hr).
  unfold forecastable in H. rewrite Forall_forall in H.
  apply in_Timestamp_iff. specialize (H r Hr). lia.
Qed.

Lemma forecastable_future (h : Z) (db : Table) :
  db <> [] -> forecastable h db ->
  Forall (fun i => in_Timestamp (max_date (_load_daily_series db) + i) = true)
    (range1 h).
Proof.
  intros Hne H. destruct (max_date_latest Hne) as [Hin _].
  apply in_map_iff in Hin as (r & Er & Hr).
  unfold forecastable in H. rewrite Forall_forall in H. specialize (H r Hr).
  apply Forall_forall. intros i Hi. apply range1_In in Hi.
  apply in_Timestamp_iff. lia.
Qed.

(** What [forecast] returns when the dates are in range. *)
Lemma forecast_on_series (request : ForecastRequest) (db : Table) :
  db <> [] -> forecastable (horizon_days request) db ->
  forecast request db
  = let df := _load_daily_series db in
    let actual := tail (Nat.min 7 (List.length df)) (map snd df) in
    inr {| fc_target := target request;
           fc_horizon_days := horizon_days request;
           predictions :=
             map (fun d => {| date := d; predicted_value := mean actual |})
               (map (fun i => (max_date df + i)%Z)
                  (range1 (horizon_days request)));
           model_used := "7-day moving average";
           metric := "MAE";
           metric_value :=
             meanQ (map (fun ap => Qabs (fl (inject_Z (fst ap) - snd ap))%Q)
                      (combine actual (map (fun _ => mean actual) actual))) |}.
Proof.
  intros Hne H. unfold forecast.
  pose proof (series_nonempty Hne) as Hs.
  rewrite (forecastable_dates H).
  rewrite (days_after_in_range _ (forecastable_future Hne H)).
  destruct (_load_daily_series db) eqn:E; [congruence | reflexivity].
Qed.

(** What it does otherwise. *)
Lemma forecast_out_of_range (request : ForecastRequest) (db : Table) :
  db <> [] -> ~ forecastable (horizon_days request) db ->
  forecast request db = inl OutOfBoundsDatetime.
Proof.
  intros Hne H. unfold forecast.
  pose proof (series_nonempty Hne) as Hs.
  destruct (_load_daily_series db) as [|x xs] eqn:E; [congruence|].
  rewrite <- E in *. clear E x xs.
  destruct (forallb in_Timestamp (map fst (_load_daily_series db))) eqn:F;
    [|reflexivity].
  cbn [negb].
  assert (G : forall r, In r db ->
             (Timestamp_min <= row_return_date r <= Timestamp_max)%Z).
  { intros r Hr. apply in_Timestamp_iff.
    rewrite forallb_forall in F. apply F, series_dates. now apply in_map. }
  set (h := horizon_days request) in *.
  assert (X : exists r, In r db
                        /\ (Timestamp_max < row_return_date r + Z.max 0 h)%Z).
  { apply neg_Forall_Exists_neg in H.
    - apply Exists_exists in H as (r & Hr & Hn). exists r.
      split; [exact Hr|]. specialize (G r Hr). lia.
    - intro r.
      destruct (Z_le_dec Timestamp_min (row_return_date r)),
        (Z_le_dec (row_return_date r + Z.max 0 h) Timestamp_max);
        [left; split; assumption | right; tauto ..]. }
  destruct X as (r & Hr & Hlate).
  destruct (max_date_latest Hne) as [_ Hge].
  rewrite Forall_forall in Hge. specialize (Hge r Hr). specialize (G r Hr).
  rewrite days_after_out_of_range; [reflexivity|].
  apply Exists_exists. exists h. split.
  - apply range1_In. lia.
  - destruct (in_Timestamp _) eqn:T; [|reflexivity].
    apply in_Timestamp_iff in T. lia.
Qed.

Lemma next_days (last : Z) (v : Q) (h : Z) :
  map (fun d => {| date := d; predicted_value := v |})
    (map (fun i => (last + i)%Z) (range1 h))
  = map (fun i => {| date := (last + Z.of_nat i)%Z; predicted_value := v |})
      (seq 1 (Z.to_nat h)).
Proof. unfold range1. now rewrite !map_map. Qed.

Lemma window_nonempty (db : Table) :
  db <> [] ->
  tail (Nat.min 7 (List.length (_load_daily_series db)))
    (map snd (_load_daily_series db)) <> [].
Proof.
  intros Hne E.
  destruct (tail_suffix (Nat.min 7 (List.length (_load_daily_series db)))
              (map snd (_load_daily_series db))) as [_ Hl].
  rewrite E, length_map in Hl. cbn [List.length] in Hl.
  pose proof (series_nonempty Hne) as Hs.
  destruct (_load_daily_series db); [congruence | cbn [List.length] in Hl; lia].
Qed.

(** C8 (amended).  The forecaster groups the whole table by return date into
    a series of daily counts sorted by date, takes as window the last
    min(7, length) counts, and fails on an empty table.  On a table with rows
    it answers exactly when every return date, and for a positive horizon
    the day [horizon_days] after it, is a day a pandas [Timestamp] holds;
    otherwise it raises.  When it answers it predicts, for each of the next
    [horizon_days] days after the latest return date, the mean of the window
    as a double (the quotient of the sum and the length, rounded), and
    reports as MAE the mean, in doubles, of the absolute differences between
    that constant and the counts of the window.  Five returns on one day,
    when the forecast answers, give the prediction 5 for every day of the
    horizon and an MAE of 0. *)
Theorem C8_forecast_is_the_trailing_mean :
  forall (request : ForecastRequest) (db : Table),
    let series := _load_daily_series db in
    let window := tail (Nat.min 7 (List.length series)) (map snd series) in
    let n := inject_Z (Z.of_nat (List.length window)) in
    StronglySorted Z.lt (map fst series)
    /\ (forall d c : Z,
          In (d, c) series <-> (0 < c)%Z /\ c = returns_on d db)
    /\ (exists older : list Z, map snd series = (older ++ window)%list)
    /\ List.length window = Nat.min 7 (List.length series)
    /\ (db = [] -> forecast request db = inl (ValueError empty_series_message))
    /\ (db <> [] -> forecastable (horizon_days request) db ->
        exists (resp : ForecastResponse) (last : Z) (avg : Q),
          forecast request db = inr resp
          /\ In last (map row_return_date db)
          /\ Forall (fun r => (row_return_date r <= last)%Z) db
          /\ avg = fl (inject_Z (sumZ window) / n)%Q
          /\ predictions resp
             = map (fun i => {| date := (last + Z.of_nat i)%Z;
                                predicted_value := avg |})
                 (seq 1 (Z.to_nat (horizon_days request)))
          /\ metric_value resp
             = fl (np_sum (map (fun a => Qabs (fl (inject_Z a - avg))%Q)
                             window) / n)%Q
          /\ metric resp = "MAE")
    /\ (db <> [] -> ~ forecastable (horizon_days request) db ->
        exists e : Exn, forecast request db = inl e)
    /\ (ieee_doubles num ->
        forall d : Z,
          List.length db = 5 ->
          Forall (fun r => row_return_date r = d) db ->
          forecastable (horizon_days request) db ->
          exists resp : ForecastResponse,
            forecast request db = inr resp
            /\ predictions resp
               = map (fun i => {| date := (d + Z.of_nat i)%Z;
                                  predicted_value := 5%Q |})
                   (seq 1 (Z.to_nat (horizon_days request)))
            /\ metric_value resp = 0%Q).
Proof.
  intros request db series window n.
  destruct (tail_suffix (Nat.min 7 (List.length series)) (map snd series))
    as [Hold Hlen].
  fold window in Hold, Hlen. rewrite length_map in Hlen.
  assert (Hlen' : List.length window = Nat.min 7 (List.length series))
    by (rewrite Hlen; lia).
  split; [apply series_sorted|]. split; [intros; apply series_In|].
  split; [exact Hold|]. split; [exact Hlen'|].
  split; [intros ->; reflexivity|]. split; [|split].
  - intros Hne Hok.
    destruct (max_date_latest Hne) as [Hin Hge].
    rewrite (forecast_on_series request Hne Hok). cbv zeta.
    fold series. fold window.
    eexists. exists (max_date series), (mean window).
    split; [reflexivity|]. cbn [predictions metric_value metric].
    split; [exact Hin|]. split; [exact Hge|].
    split; [reflexivity|].
    split; [apply next_days|]. split; [|reflexivity].
    rewrite errors_against_constant. unfold meanQ.
    now rewrite length_map.
  - intros Hne Hno. eexists. now apply forecast_out_of_range.
  - intros (Hcompat & _ & Hint & Hzero & _) d H5 Hall Hok.
    assert (Hne : db <> []) by (destruct db; [discriminate | discriminate]).
    pose proof (series_single_day Hne Hall) as E. rewrite H5 in E.
    rewrite (forecast_on_series request Hne Hok). rewrite E.
    eexists. split; [reflexivity|]. cbn [predictions metric_value].
    assert (M : mean [5%Z] = 5%Q).
    { unfold mean. exact (Hint 5%Z ltac:(cbn; lia)). }
    change (tail (Nat.min 7 (List.length [(d, Z.of_nat 5)]))
              (map snd [(d, Z.of_nat 5)])) with [5%Z].
    rewrite M. split.
    + rewrite next_days. reflexivity.
    + unfold meanQ. cbn [combine map fst snd List.length].
      assert (Z0 : fl (inject_Z 5 - 5)%Q = 0%Q)
        by exact (Hint 0%Z ltac:(cbn; lia)).
      rewrite Z0. change (Qabs 0) with 0%Q.
      assert (S : (np_sum [0%Q] / inject_Z (Z.of_nat 1) == inject_Z 0)%Q).
      { rewrite (Hzero [0%Q]) by (repeat constructor; reflexivity).
        reflexivity. }
      rewrite (Hcompat _ _ S). exact (Hint 0%Z ltac:(cbn; lia)).
Qed.

(** ** More on the forecaster *)

Lemma count_day_total (d : Z) (s : list (Z * Z)) :
  sumZ (map snd (count_day d s)) = (sumZ (map snd s) + 1)%Z.
Proof.
  unfold sumZ.
  induction s as [|[d' c] s IH]; cbn [count_day map snd fold_right];
    [reflexivity|].
  destruct (d <? d')%Z; [cbn [map snd fold_right]; lia|].
  destruct (d =? d')%Z; cbn [map snd fold_right]; [lia | rewrite IH; lia].
Qed.

Lemma count_day_positive (d : Z) (s : list (Z * Z)) :
  Forall (fun c => (1 <= c)%Z) (map snd s) ->
  Forall (fun c => (1 <= c)%Z) (map snd (count_day d s)).
Proof.
  induction s as [|[d' c] s IH]; cbn [count_day map snd]; intro H.
  - repeat constructor. lia.
  - apply Forall_cons_iff in H as [Hc Hs].
    destruct (d <? d')%Z; [cbn [map snd]; repeat constructor; auto; lia|].
    destruct (d =? d')%Z; cbn [map snd]; constructor; auto; lia.
Qed.

Lemma series_positive (db : Table) :
  Forall (fun c => (1 <= c)%Z) (map snd (_load_daily_series db)).
Proof.
  induction db as [|r db IH] using rev_ind; [constructor|].
  rewrite series_snoc. now apply count_day_positive.
Qed.

(** X13.  Grouping loses no return: the daily counts add up to the number of rows
    of the table, and every day of the series has at least one return (a day
    without returns has no entry). *)
Theorem daily_series_accounts_for_every_row :
  forall db : Table,
    sumZ (map snd (_load_daily_series db)) = Z.of_nat (List.length db)
    /\ Forall (fun c => (1 <= c)%Z) (map snd (_load_daily_series db))
    /\ (List.length (_load_daily_series db) <= List.length db)%nat.
Proof.
  intro db.
  assert (T : sumZ (map snd (_load_daily_series db)) = Z.of_nat (List.length db)).
  { induction db as [|r db IH] using rev_ind; [reflexivity|].
    rewrite series_snoc, count_day_total, IH, length_app. simpl. lia. }
  split; [exact T|]. split; [apply series_positive|].
  pose proof (series_positive db) as P. rewrite <- (length_map snd).
  assert (G : forall l, Forall (fun c => (1 <= c)%Z) l ->
                        (Z.of_nat (List.length l) <= sumZ l)%Z).
  { induction 1; cbn [List.length sumZ fold_right] in *; [lia|].
    fold (sumZ l). lia. }
  apply G in P. lia.
Qed.

Lemma sorted_series_ext (s1 s2 : list (Z * Z)) :
  StronglySorted Z.lt (map fst s1) ->
  StronglySorted Z.lt (map fst s2) ->
  (forall d, count_on d s1 = count_on d s2) ->
  s1 = s2.
Proof.
  revert s2. induction s1 as [|[d1 c1] t1 IH]; intros [|[d2 c2] t2] H1 H2 E.
  - reflexivity.
  - specialize (E d2). cbn in E. rewrite Z.eqb_refl in E. discriminate.
  - specialize (E d1). cbn in E. rewrite Z.eqb_refl in E. discriminate.
  - cbn [map fst] in H1, H2.
    inversion H1 as [|x l Hs1 Ha1]; inversion H2 as [|y m Hs2 Ha2]; subst.
    assert (Hd : d1 = d2).
    { destruct (Z.lt_trichotomy d1 d2) as [Hlt|[Heq|Hgt]]; [|exact Heq|].
      - specialize (E d1). cbn in E. rewrite Z.eqb_refl in E.
        destruct (Z.eqb_spec d2 d1); [lia|].
        rewrite count_on_above in E; [discriminate|].
        eapply Forall_impl; [|exact Ha2]. intros; lia.
      - specialize (E d2). cbn in E. rewrite Z.eqb_refl in E.
        destruct (Z.eqb_spec d1 d2); [lia|].
        rewrite count_on_above in E; [discriminate|].
        eapply Forall_impl; [|exact Ha1]. intros; lia. }
    subst d2.
    assert (Hc : c1 = c2).
    { specialize (E d1). cbn in E. rewrite Z.eqb_refl in E. congruence. }
    subst c2. f_equal. apply IH; auto.
    intro d. specialize (E d). cbn in E.
    destruct (Z.eqb_spec d1 d) as [Heq|Hne]; [|exact E].
    rewrite <- Heq. now rewrite !count_on_above.
Qed.

Lemma series_by_counts (db db' : Table) :
  (forall d, returns_on d db = returns_on d db') ->
  _load_daily_series db = _load_daily_series db'.
Proof.
  intro H. apply sorted_series_ext; try apply series_sorted.
  intro d. now rewrite !series_count_on, H.
Qed.

Lemma forecast_by_series (request : ForecastRequest) (db db' : Table) :
  _load_daily_series db = _load_daily_series db' ->
  forecast request db = forecast request db'.
Proof. unfold forecast. now intros ->. Qed.

Lemma returns_on_permutation (d : Z) (db db' : Table) :
  Permutation db db' -> returns_on d db = returns_on d db'.
Proof.
  unfold returns_on. intro P. f_equal.
  induction P as [|r l l' P IH|a b l|l l' l'' P1 IH1 P2 IH2]; cbn [filter].
  - reflexivity.
  - destruct (row_return_date r =? d)%Z; cbn; now rewrite IH.
  - destruct (row_return_date a =? d)%Z, (row_return_date b =? d)%Z;
      reflexivity.
  - congruence.
Qed.

(** X14.  The forecast depends on the table only through the number of returns of
    each day: two tables with the same daily numbers get the same forecast,
    so the order of the rows and every field but the return date are
    irrelevant. *)
Theorem forecast_depends_on_daily_numbers_only :
  forall (request : ForecastRequest) (db db' : Table),
    ((forall d, returns_on d db = returns_on d db') ->
     forecast request db = forecast request db')
    /\ (Permutation db db' -> forecast request db = forecast request db')
    /\ (map row_return_date db = map row_return_date db' ->
        forecast request db = forecast request db').
Proof.
  intros request db db'. split; [|split]; intro H;
    apply forecast_by_series, series_by_counts; intro d.
  - apply H.
  - now apply returns_on_permutation.
  - unfold returns_on. f_equal.
    rewrite <- !(length_map row_return_date).
    assert (G : forall l : Table,
               map row_return_date
                 (filter (fun r => (row_return_date r =? d)%Z) l)
               = filter (fun x => (x =? d)%Z) (map row_return_date l)).
    { induction l as [|r l IH]; cbn [filter map]; [reflexivity|].
      destruct (row_return_date r =? d)%Z; cbn [map]; now rewrite IH. }
    now rewrite !G, H.
Qed.


Lemma length_pos_Q (A : Type) (l : list A) :
  l <> [] -> (0 < inject_Z (Z.of_nat (List.length l)))%Q.
Proof.
  intro H. destruct l; [congruence|].
  unfold Qlt, inject_Z. cbn [Qnum Qden List.length]. lia.
Qed.

Lemma sumZ_bounds (a b : Z) (l : list Z) :
  Forall (fun c => (a <= c <= b)%Z) l ->
  (a * Z.of_nat (List.length l) <= sumZ l <= b * Z.of_nat (List.length l))%Z.
Proof.
  unfold sumZ. induction 1 as [|c l Hc Hl IH]; cbn [List.length fold_right];
    [lia|nia].
Qed.

(** The quotient the mean rounds lies between the least and the largest
    count. *)
Lemma quotient_bounds (a b : Z) (l : list Z) :
  l <> [] -> Forall (fun c => (a <= c <= b)%Z) l ->
  (inject_Z a <= inject_Z (sumZ l) / inject_Z (Z.of_nat (List.length l)))%Q
  /\ (inject_Z (sumZ l) / inject_Z (Z.of_nat (List.length l))
       <= inject_Z b)%Q.
Proof.
  intros Hne Hall. pose proof (length_pos_Q Hne) as Hn.
  destruct (sumZ_bounds Hall) as [Ha Hb]. split.
  - apply Qle_shift_div_l; [exact Hn|].
    rewrite <- inject_Z_mult. now rewrite <- Zle_Qle.
  - apply Qle_shift_div_r; [exact Hn|].
    rewrite <- inject_Z_mult. now rewrite <- Zle_Qle.
Qed.

Lemma mean_bounds (a b : Z) (l : list Z) :
  ieee_doubles num ->
  (Z.abs a <= 2 ^ 53)%Z -> (Z.abs b <= 2 ^ 53)%Z ->
  l <> [] -> Forall (fun c => (a <= c <= b)%Z) l ->
  (inject_Z a <= mean l)%Q /\ (mean l <= inject_Z b)%Q.
Proof.
  intros (_ & Hmono & Hint & _) Ha Hb Hne Hall.
  destruct (quotient_bounds Hne Hall) as [Hlo Hhi]. unfold mean.
  split; [rewrite <- (Hint a Ha) | rewrite <- (Hint b Hb)]; now apply Hmono.
Qed.

Lemma mean_of_constant (k : Z) (l : list Z) :
  ieee_doubles num -> (Z.abs k <= 2 ^ 53)%Z ->
  l <> [] -> Forall (fun c => c = k) l -> mean l = inject_Z k.
Proof.
  intros Hlaws Hk Hne Hall.
  assert (B : Forall (fun c => (k <= c <= k)%Z) l)
    by (eapply Forall_impl; [|exact Hall]; intros; cbv beta in *; lia).
  destruct (quotient_bounds Hne B) as [Hlo Hhi].
  destruct Hlaws as (Hcompat & _ & Hint & _). unfold mean.
  rewrite <- (Hint k Hk). apply Hcompat. now apply Qle_antisym.
Qed.

Lemma meanQ_nonneg (l : list Q) :
  ieee_doubles num ->
  l <> [] -> Forall (fun x => (0 <= x)%Q) l -> (0 <= meanQ l)%Q.
Proof.
  intros (_ & Hmono & Hint & _ & Hnn) Hne Hall.
  pose proof (length_pos_Q Hne) as Hn. unfold meanQ.
  change 0%Q with (inject_Z 0) at 1.
  rewrite <- (Hint 0%Z) by (cbn; lia). apply Hmono.
  apply Qle_shift_div_l; [exact Hn|].
  rewrite Qmult_0_l. now apply Hnn.
Qed.

Lemma meanQ_of_zeros (l : list Q) :
  ieee_doubles num ->
  l <> [] -> Forall (fun x => x = 0%Q) l -> meanQ l = 0%Q.
Proof.
  intros (Hcompat & _ & Hint & Hzero & _) Hne Hall. unfold meanQ.
  assert (S : (np_sum l / inject_Z (Z.of_nat (List.length l))
               == inject_Z 0)%Q).
  { rewrite (Hzero l).
    - unfold Qdiv. now rewrite Qmult_0_l.
    - eapply Forall_impl; [|exact Hall]. intros x ->. reflexivity. }
  rewrite (Hcompat _ _ S). exact (Hint 0%Z ltac:(cbn; lia)).
Qed.

Lemma series_counts_bounded (db : Table) :
  Forall (fun c => (1 <= c <= Z.of_nat (List.length db))%Z)
    (map snd (_load_daily_series db)).
Proof.
  apply Forall_forall. intros c Hc.
  apply in_map_iff in Hc as ([d c'] & E & HIn). cbn in E. subst c'.
  apply series_In in HIn as [Hpos ->]. split; [lia|].
  unfold returns_on. apply inj_le. apply filter_length_le.
Qed.

Lemma window_of_series (db : Table) :
  db <> [] ->
  let window :=
    tail (Nat.min 7 (List.length (_load_daily_series db)))
      (map snd (_load_daily_series db)) in
  window <> []
  /\ Forall (fun c => (1 <= c <= Z.of_nat (List.length db))%Z) window.
Proof.
  intros Hne window. split; [now apply window_nonempty|].
  destruct (tail_suffix (Nat.min 7 (List.length (_load_daily_series db)))
              (map snd (_load_daily_series db))) as [[older Ho] _].
  fold window in Ho.
  pose proof (series_counts_bounded db) as B. rewrite Ho in B.
  now apply Forall_app in B as [_ B].
Qed.

Lemma no_error_on_constant (k : Z) (l : list Z) :
  ieee_doubles num ->
  Forall (fun c => c = k) l ->
  Forall (fun x => x = 0%Q)
    (map (fun a => Qabs (fl (inject_Z a - inject_Z k))%Q) l).
Proof.
  intros (Hcompat & _ & Hint & _) Hk.
  induction Hk as [|a l Ha Hl IH]; cbn [map]; constructor; [|exact IH].
  subst a.
  assert (S : (inject_Z k - inject_Z k == inject_Z 0)%Q) by ring.
  rewrite (Hcompat _ _ S), (Hint 0%Z) by (cbn; lia). reflexivity.
Qed.

(** X15.  On a table with rows whose dates, horizon included, a [Timestamp]
    holds, the forecast has one point per day of the horizon (none for a
    horizon of zero or less), on the days that follow the latest return date.
    With doubles that round as IEEE 754 says, every predicted value lies
    between 1 and the number of rows, because a day without returns is not
    in the series, and the reported error is not negative.  When the counts
    of the window are all the same number, that number is predicted and the
    error is 0. *)
Theorem forecast_bounds :
  forall (request : ForecastRequest) (db : Table),
    db <> [] ->
    forecastable (horizon_days request) db ->
    ieee_doubles num ->
    (Z.of_nat (List.length db) <= 2 ^ 53)%Z ->
    exists resp : ForecastResponse,
      forecast request db = inr resp
      /\ List.length (predictions resp) = Z.to_nat (horizon_days request)
      /\ map date (predictions resp)
         = map (fun i => (max_date (_load_daily_series db) + Z.of_nat i)%Z)
             (seq 1 (Z.to_nat (horizon_days request)))
      /\ Forall (fun p => (1 <= predicted_value p)%Q
                          /\ (predicted_value p
                              <= inject_Z (Z.of_nat (List.length db)))%Q)
           (predictions resp)
      /\ (0 <= metric_value resp)%Q
      /\ (forall k : Z,
            Forall (fun c => c = k)
              (tail (Nat.min 7 (List.length (_load_daily_series db)))
                 (map snd (_load_daily_series db))) ->
            Forall (fun p => predicted_value p = inject_Z k)
              (predictions resp)
            /\ metric_value resp = 0%Q).
Proof.
  intros request db Hne Hok Hlaws Hsize.
  rewrite (forecast_on_series request Hne Hok). cbv zeta.
  destruct (window_of_series Hne) as [Hw Hb]. cbv zeta in Hw, Hb.
  set (window := tail _ _) in *.
  destruct (@mean_bounds 1 (Z.of_nat (List.length db)) window Hlaws
              ltac:(cbn; lia) ltac:(lia) Hw Hb) as [Hlo Hhi].
  eexists. split; [reflexivity|].
  cbn [predictions metric_value]. rewrite next_days.
  split; [now rewrite length_map, length_seq|].
  split; [rewrite map_map; reflexivity|].
  split; [apply Forall_forall; intros p Hp;
          apply in_map_iff in Hp as (i & <- & _); cbn; auto|].
  rewrite errors_against_constant.
  assert (Hw' : map (fun a => Qabs (fl (inject_Z a - mean window))%Q) window
                <> [])
    by (destruct window; [congruence | discriminate]).
  split.
  - apply meanQ_nonneg; [exact Hlaws | exact Hw'|].
    apply Forall_forall. intros x Hx.
    apply in_map_iff in Hx as (a & <- & _). apply Qabs_nonneg.
  - intros k Hk.
    assert (Hk53 : (Z.abs k <= 2 ^ 53)%Z).
    { destruct window as [|c w]; [congruence|].
      apply Forall_cons_iff in Hk as [-> _].
      apply Forall_cons_iff in Hb as [Hc _]. lia. }
    pose proof (mean_of_constant Hlaws Hk53 Hw Hk) as Hmean. split.
    + apply Forall_forall. intros p Hp.
      apply in_map_iff in Hp as (i & <- & _). exact Hmean.
    + rewrite Hmean in *.
      apply meanQ_of_zeros; [exact Hlaws | exact Hw'|].
      now apply no_error_on_constant.
Qed.

End ForecasterProperties.


(** ** The coordinator *)

Section Properties.

Variable sha256_hexdigest : string -> string.
Variable str_float : float -> string.
Variable str_date : Z -> string.
Context {num : Numerics}.
Variable _build_insight :
  option string -> Z -> Z -> Z -> Q -> Z -> Q -> string -> string.
Variable _write_excel :
  option string -> Z -> Z -> Z -> Q -> Z -> Q -> string -> string
  -> Exn + string.
Variable Vec : Type.
Variable encode : string -> Vec.
Variable index_search : list Vec -> Vec -> Z -> Exn + list Z.

Local Abbreviation handle :=
  (handle_message sha256_hexdigest str_float str_date _build_insight
     _write_excel encode index_search).
Local Abbreviation insert_flow :=
  (@_handle_insert_flow sha256_hexdigest str_float str_date Vec).
Local Abbreviation chat :=
  (converse sha256_hexdigest str_float str_date _build_insight
     _write_excel encode index_search).
Local Abbreviation rebuild := (build_index str_float encode).
Local Abbreviation search_index := (retrieve encode index_search).

(** ** The five-turn return dialogue *)

(** C1 (the code departs from the claim).  From a fresh session the five
    messages fill product, store, purchase date, reason and price/currency
    one per turn, and the prompt after the first asks for the store.  The
    last turn finds nothing missing and submits, but the request cannot be
    built: [return_date] was never set and the schema requires it.  The
    reply is the text of the validation error, the session is reset and the
    table is untouched; no confirmation is produced. *)
Theorem C1_dialogue_ends_in_validation_error :
  forall (today : Z) (self : Coordinator Vec),
    chat today Demo.iphone_dialogue new_state self =
      ([Returned (Say "Which store did you buy it from?");
        Returned (Say "When did you purchase it? (YYYY-MM-DD or 'last week')");
        Returned (Say "What is the reason for return?");
        Returned (Say "What was the price and currency?");
        Returned (ErrorText (ValidationError ["return_date"]))],
       new_state, self).
Proof.
  intros today [db rag]. vm_compute. reflexivity.
Qed.

(** ** The semantic index *)

(** C2 (the code departs from the claim).  A search on a retriever that was
    never rebuilt raises the index-not-built error, as claimed.  But a rebuild
    over an empty table returns before it creates the index, so the search
    that follows raises the same error instead of returning no result; the
    coordinator's retrieval turn over an empty table ends in that exception. *)
Theorem C2_search_after_empty_rebuild_raises :
  forall (q : RetrievalQuery),
    search_index q (new_retriever Vec)
      = inl (RuntimeError index_not_built_message)
    /\ rebuild [] (new_retriever Vec) = new_retriever Vec
    /\ search_index q (rebuild [] (new_retriever Vec))
       = inl (RuntimeError index_not_built_message)
    /\ (forall (text : string) (state : ConversationState),
          _handle_rag str_float encode index_search text state
            {| self_db := []; self_rag := new_retriever Vec |}
          = (Raised (RuntimeError index_not_built_message), state,
             {| self_db := []; self_rag := new_retriever Vec |})).
Proof.
  intro q. repeat split.
Qed.

(** ** Dispatch *)


(** C7.  Outside the return-collection mode the coordinator classifies the
    stripped message, records the intent as the mode and dispatches on it.
    The intent is read off the lowercased text by three keyword lists tried in
    order: a forecast keyword gives forecast; failing that an analytics
    keyword gives analytics; failing that "return" or "refund" gives the
    return-collection mode; failing that, retrieval. *)
Theorem C7_intent_by_ordered_keywords :
  forecast_keywords = ["forecast"; "predict"; "next"]
  /\ analytics_keywords = ["report"; "analysis"; "how many"; "trend"; "excel"]
  /\ return_keywords = ["return"; "refund"]
  /\ (forall text : string,
        let t := PyStr.lower text in
        (some_occurs forecast_keywords t -> _classify_intent text = Forecast)
        /\ (~ some_occurs forecast_keywords t ->
            some_occurs analytics_keywords t ->
            _classify_intent text = Analytics)
        /\ (~ some_occurs forecast_keywords t ->
            ~ some_occurs analytics_keywords t ->
            some_occurs return_keywords t ->
            _classify_intent text = InsertReturn)
        /\ (~ some_occurs forecast_keywords t ->
            ~ some_occurs analytics_keywords t ->
            ~ some_occurs return_keywords t ->
            _classify_intent text = Rag))
  /\ (forall (today : Z) (user_text : string) (state : ConversationState)
             (self : Coordinator Vec),
        is_insert_return (mode state) = false ->
        let text := PyStr.strip user_text in
        let intent := _classify_intent text in
        let state' := with_mode (Some intent) state in
        handle today user_text state self
        = match intent with
          | Forecast =>
              _handle_forecast text state' self
          | Analytics =>
              _handle_analytics _build_insight _write_excel today text state'
                self
          | InsertReturn => insert_flow today text state' self
          | Rag => _handle_rag str_float encode index_search text state' self
          end).
Proof.
  repeat (split; [reflexivity|]). split.
  - intros text t. unfold _classify_intent. fold t.
    repeat split.
    + intro Hf. apply any_in_iff in Hf. now rewrite Hf.
    + intros Hf Ha. rewrite (any_in_false Hf).
      apply any_in_iff in Ha. now rewrite Ha.
    + intros Hf Ha Hr. rewrite (any_in_false Hf), (any_in_false Ha).
      apply any_in_iff in Hr. now rewrite Hr.
    + intros Hf Ha Hr.
      now rewrite (any_in_false Hf), (any_in_false Ha), (any_in_false Hr).
  - intros today user_text state self Hm text intent state'.
    unfold handle_message. rewrite Hm. reflexivity.
Qed.


(** ** The completion check *)














End Properties.

(** * Further properties of the coordinator *)

(** ** Prompts *)

Lemma filter_nil_all (A : Type) (f : A -> bool) (l : list A) :
  filter f l = [] -> forall x, In x l -> f x = false.
Proof.
  intros H x HIn. destruct (f x) eqn:E; [|reflexivity].
  assert (HIn' : In x (filter f l)) by (apply filter_In; auto).
  rewrite H in HIn'. destruct HIn'.
Qed.

Lemma nothing_missing_all (p : Pending) :
  _missing_fields p = [] ->
  truthy_str (product_name p) = true
  /\ truthy_str (store_name p) = true
  /\ truthy_date (purchase_date p) = true
  /\ truthy_str (reason_raw p) = true
  /\ truthy_float (price p) = true
  /\ truthy_str (currency p) = true.
Proof.
  intro H. unfold _missing_fields in H.
  pose proof (filter_nil_all _ _ H) as G.
  assert (K : forall k, In k required -> truthy_key p k = true).
  { intros k Hk. apply G in Hk. now apply negb_false_iff in Hk. }
  repeat split.
  - apply (K "product_name"). unfold required. simpl. tauto.
  - apply (K "store_name"). unfold required. simpl. tauto.
  - apply (K "purchase_date"). unfold required. simpl. tauto.
  - apply (K "reason_raw"). unfold required. simpl. tauto.
  - apply (K "price"). unfold required. simpl. tauto.
  - apply (K "currency"). unfold required. simpl. tauto.
Qed.

(** X16.  The coordinator asks for the first field that is still falsy, in the
    order product, store, purchase date, reason, price and currency; it never
    asks for the return date and never falls back to the generic request, and
    nothing is missing exactly when the six required fields are truthy. *)
Theorem prompt_follows_the_priority_order :
  forall p : Pending,
    let prompt := _ask_next (_missing_fields p) in
    let product := truthy_str (product_name p) in
    let store := truthy_str (store_name p) in
    let bought := truthy_date (purchase_date p) in
    let reason := truthy_str (reason_raw p) in
    let paid := truthy_float (price p) && truthy_str (currency p) in
    (product = false -> prompt = "What product are you returning?")
    /\ (product = true -> store = false ->
        prompt = "Which store did you buy it from?")
    /\ (product = true -> store = true -> bought = false ->
        prompt = "When did you purchase it? (YYYY-MM-DD or 'last week')")
    /\ (product = true -> store = true -> bought = true -> reason = false ->
        prompt = "What is the reason for return?")
    /\ (product = true -> store = true -> bought = true -> reason = true ->
        paid = false -> prompt = "What was the price and currency?")
    /\ (_missing_fields p = []
        <-> product && store && bought && reason && paid = true)
    /\ (_missing_fields p <> [] ->
        prompt <> "When is the return date?"
        /\ prompt <> "Please provide the missing details.").
Proof.
  intros p prompt product store bought reason paid.
  subst prompt product store bought reason paid.
  unfold _missing_fields, required, truthy_key. cbn.
  destruct (truthy_str (product_name p)), (truthy_str (store_name p)),
    (truthy_date (purchase_date p)), (truthy_str (reason_raw p)),
    (truthy_float (price p)), (truthy_str (currency p)); cbn;
    repeat split; intros; try reflexivity; try discriminate; try congruence.
Qed.

(** ** Intent and letter case *)

Lemma lower_upper_char (c : ascii) :
  PyStr.lower_char (PyStr.upper_char c) = PyStr.lower_char c.
Proof.
  destruct c as [[] [] [] [] [] [] [] []]; reflexivity.
Qed.

Lemma lower_lower_char (c : ascii) :
  PyStr.lower_char (PyStr.lower_char c) = PyStr.lower_char c.
Proof.
  destruct c as [[] [] [] [] [] [] [] []]; reflexivity.
Qed.

Lemma lower_upper (s : string) : PyStr.lower (PyStr.upper s) = PyStr.lower s.
Proof.
  unfold PyStr.lower, PyStr.upper.
  induction s as [|c s IH]; cbn [PyStr.map_chars]; [reflexivity|].
  now rewrite IH, lower_upper_char.
Qed.

Lemma lower_lower (s : string) : PyStr.lower (PyStr.lower s) = PyStr.lower s.
Proof.
  unfold PyStr.lower.
  induction s as [|c s IH]; cbn [PyStr.map_chars]; [reflexivity|].
  now rewrite IH, lower_lower_char.
Qed.

Lemma occurs_lower (u text : string) :
  occurs u text -> occurs (PyStr.lower u) (PyStr.lower text).
Proof.
  intros (a & b & ->). exists (PyStr.lower a), (PyStr.lower b).
  now rewrite !lower_app.
Qed.

(** X17.  On ASCII text the intent does not depend on the case of the letters:
    a message, its upper-case form and its lower-case form are classified
    alike, and so are any two messages that differ only in case.  A forecast
    keyword written in any mix of capitals and small letters makes the
    message a forecast request, and "Return" or "REFUND" starts a return
    when no forecast or analytics keyword is there in any case. *)
Theorem intent_ignores_letter_case :
  forall text text' : string,
    PyStr.is_ascii text = true -> PyStr.is_ascii text' = true ->
    _classify_intent (PyStr.upper text) = _classify_intent text
    /\ _classify_intent (PyStr.lower text) = _classify_intent text
    /\ (PyStr.lower text = PyStr.lower text' ->
        _classify_intent text = _classify_intent text')
    /\ (forall k u : string,
          In k forecast_keywords -> PyStr.lower u = k -> occurs u text ->
          _classify_intent text = Forecast)
    /\ (forall k u : string,
          In k return_keywords -> PyStr.lower u = k -> occurs u text ->
          ~ some_occurs forecast_keywords (PyStr.lower text) ->
          ~ some_occurs analytics_keywords (PyStr.lower text) ->
          _classify_intent text = InsertReturn).
Proof.
  intros text text' _ _. unfold _classify_intent.
  rewrite lower_upper, lower_lower.
  split; [reflexivity|]. split; [reflexivity|].
  split; [now intros ->|]. split.
  - intros k u Hk Hu Ho. apply occurs_lower in Ho. rewrite Hu in Ho.
    assert (S : some_occurs forecast_keywords (PyStr.lower text))
      by (apply Exists_exists; now exists k).
    apply any_in_iff in S. now rewrite S.
  - intros k u Hk Hu Ho Hf Ha. apply occurs_lower in Ho. rewrite Hu in Ho.
    assert (S : some_occurs return_keywords (PyStr.lower text))
      by (apply Exists_exists; now exists k).
    apply any_in_iff in S.
    now rewrite (any_in_false Hf), (any_in_false Ha), S.
Qed.


(** ** Repeating the extraction pass *)

(** Case analysis on the innermost test of a step. *)
Ltac split_test :=
  let atomic b :=
    lazymatch b with
    | context [if _ then _ else _] => fail
    | context [match _ with _ => _ end] => fail
    | _ => idtac
    end in
  match goal with
  | H : context [if ?b then _ else _] |- _ => atomic b; destruct b eqn:?
  | H : context [match ?x with _ => _ end] |- _ => atomic x; destruct x eqn:?
  | |- context [if ?b then _ else _] => atomic b; destruct b eqn:?
  | |- context [match ?x with _ => _ end] => atomic x; destruct x eqn:?
  end.

Ltac step_cases :=
  cbn [product_name product_category store_name city country purchase_date
       return_date reason_raw price currency discount_pct negb andb orb
       truthy_date] in *;
  repeat (split_test;
          cbn [product_name product_category store_name city country
               purchase_date return_date reason_raw price currency
               discount_pct negb andb orb truthy_date] in *);
  subst; try reflexivity; try congruence.

Lemma extract_product_stable (text : string) (x y : Pending) :
  product_name y = product_name (extract_product text x) ->
  extract_product text y = y.
Proof.
  destruct x, y. unfold extract_product, set_product_name. step_cases.
Qed.


Lemma extract_store_stable (text t : string) (x y : Pending) :
  store_name y = store_name (extract_store text t x) ->
  truthy_str (product_name y) = truthy_str (product_name x) ->
  extract_store text t y = y.
Proof.
  destruct x, y. unfold extract_store, set_store_name. step_cases.
Qed.

Lemma extract_reason_stable (text t : string) (x y : Pending) :
  reason_raw y = reason_raw (extract_reason text t x) ->
  extract_reason text t y = y.
Proof.
  destruct x, y. unfold extract_reason, set_reason_raw. step_cases.
Qed.

Lemma extract_price_stable (text : string) (x y : Pending) :
  price y = price (extract_price text x) ->
  currency y = currency (extract_price text x) ->
  extract_price text y = y.
Proof.
  destruct x, y. unfold extract_price, set_price_currency. step_cases.
Qed.

Lemma extract_purchase_date_stable (today : Z) (text t : string)
    (x x' y : Pending) :
  extract_purchase_date today text t x = inr x' ->
  purchase_date y = purchase_date x' ->
  extract_purchase_date today text t y = inr y.
Proof.
  destruct x, x', y. unfold extract_purchase_date, set_purchase_date.
  intros H E. step_cases.
Qed.

Lemma extract_purchase_date_raises_again (today : Z) (text t : string)
    (x y : Pending) (e : Exn) :
  extract_purchase_date today text t x = inl e ->
  purchase_date y = purchase_date x ->
  extract_purchase_date today text t y = inl e.
Proof.
  destruct x, y. unfold extract_purchase_date, set_purchase_date.
  intros H E. step_cases.
Qed.

Lemma extract_return_date_stable (today : Z) (t : string) (x y : Pending) :
  return_date y = return_date (extract_return_date today t x) ->
  extract_return_date today t y = y.
Proof.
  destruct x, y. unfold extract_return_date, set_return_date. step_cases.
Qed.

(** Each step writes its own slot and nothing else. *)
Lemma extract_product_frame (text : string) (x : Pending) :
  let y := extract_product text x in
  store_name y = store_name x /\ reason_raw y = reason_raw x
  /\ price y = price x /\ currency y = currency x
  /\ purchase_date y = purchase_date x /\ return_date y = return_date x.
Proof.
  destruct x. unfold extract_product, set_product_name. cbv zeta.
  step_cases; repeat split.
Qed.

Lemma extract_store_frame (text t : string) (x : Pending) :
  let y := extract_store text t x in
  product_name y = product_name x /\ reason_raw y = reason_raw x
  /\ price y = price x /\ currency y = currency x
  /\ purchase_date y = purchase_date x /\ return_date y = return_date x.
Proof.
  destruct x. unfold extract_store, set_store_name. cbv zeta.
  step_cases; repeat split.
Qed.

Lemma extract_reason_frame (text t : string) (x : Pending) :
  let y := extract_reason text t x in
  product_name y = product_name x /\ store_name y = store_name x
  /\ price y = price x /\ currency y = currency x
  /\ purchase_date y = purchase_date x /\ return_date y = return_date x.
Proof.
  destruct x. unfold extract_reason, set_reason_raw. cbv zeta.
  step_cases; repeat split.
Qed.

Lemma extract_price_frame (text : string) (x : Pending) :
  let y := extract_price text x in
  product_name y = product_name x /\ store_name y = store_name x
  /\ reason_raw y = reason_raw x
  /\ purchase_date y = purchase_date x /\ return_date y = return_date x.
Proof.
  destruct x. unfold extract_price, set_price_currency. cbv zeta.
  step_cases; repeat split.
Qed.

Lemma extract_purchase_date_frame (today : Z) (text t : string)
    (x y : Pending) :
  extract_purchase_date today text t x = inr y ->
  product_name y = product_name x /\ store_name y = store_name x
  /\ reason_raw y = reason_raw x /\ price y = price x
  /\ currency y = currency x /\ return_date y = return_date x.
Proof.
  destruct x, y. unfold extract_purchase_date, set_purchase_date.
  intro H. step_cases; inversion H; subst; repeat split.
Qed.

Lemma extract_return_date_frame (today : Z) (t : string) (x : Pending) :
  let y := extract_return_date today t x in
  product_name y = product_name x /\ store_name y = store_name x
  /\ reason_raw y = reason_raw x /\ price y = price x
  /\ currency y = currency x /\ purchase_date y = purchase_date x.
Proof.
  destruct x. unfold extract_return_date, set_return_date. cbv zeta.
  step_cases; repeat split.
Qed.

(** X18.  Running the extraction pass again on the same message changes nothing:
    the second pass leaves the dictionary as the first one made it and ends
    the same way, also when it raises. *)
Theorem extraction_twice_is_extraction_once :
  forall (today : Z) (text : string) (p : Pending),
    _extract_fields today text (snd (_extract_fields today text p))
    = _extract_fields today text p.
Proof.
  intros today text p. unfold _extract_fields.
  set (t := PyStr.lower text).
  set (p1 := extract_product text p).
  set (p2 := extract_store text t p1).
  set (p3 := extract_reason text t p2).
  set (p4 := extract_price text p3).
  destruct (extract_product_frame text p) as (A1 & A2 & A3 & A4 & A5 & A6).
  destruct (extract_store_frame text t p1) as (B1 & B2 & B3 & B4 & B5 & B6).
  destruct (extract_reason_frame text t p2) as (C1 & C2 & C3 & C4 & C5 & C6).
  destruct (extract_price_frame text p3) as (D1 & D2 & D3 & D5 & D6).
  fold p1 in A1, A2, A3, A4, A5, A6. fold p2 in B1, B2, B3, B4, B5, B6.
  fold p3 in C1, C2, C3, C4, C5, C6. fold p4 in D1, D2, D3, D5, D6.
  assert (S : forall y,
             product_name y = product_name p4 ->
             store_name y = store_name p4 ->
             reason_raw y = reason_raw p4 ->
             price y = price p4 -> currency y = currency p4 ->
             extract_price text
               (extract_reason text t
                  (extract_store text t (extract_product text y))) = y).
  { intros y Y1 Y2 Y3 Y4 Y5.
    rewrite (extract_product_stable text p y) by (fold p1; congruence).
    rewrite (extract_store_stable text t p1 y)
      by (fold p2; try congruence; f_equal; congruence).
    rewrite (extract_reason_stable text t p2 y) by (fold p3; congruence).
    now rewrite (extract_price_stable text p3 y) by (fold p4; congruence). }
  destruct (extract_purchase_date today text t p4) as [e|p5] eqn:E5;
    cbn [snd].
  - rewrite (S p4) by reflexivity. now rewrite E5.
  - destruct (extract_purchase_date_frame today text t p4 E5)
      as (F1 & F2 & F3 & F4 & F5 & F6).
    set (p6 := extract_return_date today t p5).
    destruct (extract_return_date_frame today t p5)
      as (G1 & G2 & G3 & G4 & G5 & G6).
    fold p6 in G1, G2, G3, G4, G5, G6.
    rewrite (S p6) by congruence.
    rewrite (extract_purchase_date_stable today text t p4 p6 E5)
      by congruence.
    now rewrite (extract_return_date_stable today t p5 p6) by reflexivity.
Qed.


(** ** What the patterns can capture *)

Lemma str_length_app (a b : string) :
  String.length (a ++ b) = (String.length a + String.length b)%nat.
Proof.
  induction a as [|c a IH]; cbn [append String.length]; [reflexivity|].
  now rewrite IH.
Qed.

Lemma str_app_nil_r (a : string) : a ++ EmptyString = a.
Proof.
  induction a as [|c a IH]; cbn [append]; [reflexivity | now rewrite IH].
Qed.

Lemma substring_prefix (w s : string) :
  String.substring 0 (String.length w) (w ++ s) = w.
Proof.
  induction w as [|c w IH]; cbn [append String.length String.substring].
  - now destruct s.
  - now rewrite IH.
Qed.

Lemma consumed_prefix (w s : string) : consumed (w ++ s) s = w.
Proof.
  unfold consumed. rewrite str_length_app.
  replace (String.length w + String.length s - String.length s)%nat
    with (String.length w) by lia.
  apply substring_prefix.
Qed.

(** The matcher is sound: when it succeeds, the continuation was entered
    after a word of the pattern. *)
Lemma run_sound (A : Type) (r : re) :
  forall (prev : option ascii) (s : string) (m : caps)
         (k : option ascii -> string -> caps -> option A) (x : A),
    run r prev s m k = Some x ->
    exists w s' prev' m',
      s = w ++ s' /\ lang r w /\ k prev' s' m' = Some x.
Proof.
  induction r as [|p|r1 IH1 r2 IH2|r1 IH1 r2 IH2|r1 IH1|i r1 IH1|];
    intros prev s m k x H; cbn [run] in H.
  - exists EmptyString, s, prev, m. repeat split. exact H.
  - destruct s as [|c s]; [discriminate|].
    destruct (p c) eqn:Hp; [|discriminate].
    exists (String c EmptyString), s, (Some c), m.
    repeat split; [|exact H]. now exists c.
  - apply IH1 in H as (u & s1 & p1 & m1 & -> & Hu & H).
    apply IH2 in H as (v & s2 & p2 & m2 & -> & Hv & H).
    exists (u ++ v), s2, p2, m2. rewrite str_app_assoc.
    repeat split; [|exact H]. now exists u, v.
  - destruct (run r1 prev s m k) as [y|] eqn:E.
    + inversion H; subst y.
      apply IH1 in E as (w & s' & p' & m' & -> & Hw & E).
      exists w, s', p', m'. repeat split; [now left | exact E].
    + apply IH2 in H as (w & s' & p' & m' & -> & Hw & H).
      exists w, s', p', m'. repeat split; [now right | exact H].
  - revert H. generalize (String.length s). intro n. revert prev s m.
    induction n as [|n IHn]; intros prev s m H.
    + exists EmptyString, s, prev, m. repeat split; [|exact H].
      exists []. split; [reflexivity | constructor].
    + match type of H with
      | match ?t with _ => _ end = _ => destruct t as [y|] eqn:E
      end.
      * inversion H; subst y.
        apply IH1 in E as (u & s1 & p1 & m1 & -> & Hu & E).
        destruct (String.length s1 <? String.length (u ++ s1)); [|discriminate].
        apply IHn in E as (v & s2 & p2 & m2 & -> & (ws & -> & Hws) & E).
        exists (u ++ fold_right append EmptyString ws), s2, p2, m2.
        rewrite str_app_assoc. repeat split; [|exact E].
        exists (u :: ws). split; [reflexivity | now constructor].
      * exists EmptyString, s, prev, m. repeat split; [|exact H].
        exists []. split; [reflexivity | constructor].
  - apply IH1 in H as (w & s' & p' & m' & -> & Hw & H).
    exists w, s', p', ((i, consumed (w ++ s') s') :: m').
    repeat split; assumption.
  - destruct (xorb (word_before prev) (word_after s)); [|discriminate].
    exists EmptyString, s, prev, m. repeat split. exact H.
Qed.

Lemma search_from_found (r : re) (s : string) (prev : option ascii)
    (m : caps) :
  search_from r prev s = Some m ->
  exists prev' s', run r prev' s' [] (fun _ _ m' => Some m') = Some m.
Proof.
  revert prev. induction s as [|c s IH]; intros prev H; cbn [search_from] in H.
  - destruct (run r prev EmptyString [] _) as [y|] eqn:E; [|discriminate].
    inversion H; subst y. now exists prev, EmptyString.
  - destruct (run r prev (String c s) [] _) as [y|] eqn:E.
    + inversion H; subst y. now exists prev, (String c s).
    + now apply IH in H.
Qed.


Lemma search_from_at (r : re) (s : string) (prev : option ascii)
    (m : caps) :
  search_from r prev s = Some m ->
  exists a prev' s',
    s = a ++ s' /\ run r prev' s' [] (fun _ _ m' => Some m') = Some m.
Proof.
  revert prev. induction s as [|c s IH]; intros prev H; cbn [search_from] in H.
  - destruct (run r prev EmptyString [] _) as [y|] eqn:E; [|discriminate].
    inversion H; subst y. now exists EmptyString, prev, EmptyString.
  - destruct (run r prev (String c s) [] _) as [y|] eqn:E.
    + inversion H; subst y. now exists EmptyString, prev, (String c s).
    + apply IH in H as (a & prev' & s' & -> & H).
      now exists (String c a), prev', s'.
Qed.

Lemma run_Seq (A : Type) (r1 r2 : re) prev s m
    (k : option ascii -> string -> caps -> option A) :
  run (Seq r1 r2) prev s m k
  = run r1 prev s m (fun prev' s' m' => run r2 prev' s' m' k).
Proof. reflexivity. Qed.

Lemma run_Grp (A : Type) (i : nat) (r1 : re) prev s m
    (k : option ascii -> string -> caps -> option A) :
  run (Grp i r1) prev s m k
  = run r1 prev s m
      (fun prev' s' m' => k prev' s' ((i, consumed s s') :: m')).
Proof. reflexivity. Qed.

(** The currency the price pattern captures is two to five letters. *)
Lemma price_pattern_currency (text : string) (m : caps) :
  search pat_price text = Some m ->
  (2 <= String.length (group 2 m) <= 5)%nat
  /\ all_chars PyStr.is_alpha (group 2 m) = true.
Proof.
  intro H. apply search_from_found in H as (prev & s & H).
  unfold pat_price in H. rewrite run_Seq in H.
  apply run_sound in H as (w1 & s1 & p1 & m1 & _ & _ & H).
  rewrite run_Seq in H.
  apply run_sound in H as (w2 & s2 & p2 & m2 & _ & _ & H).
  rewrite run_Grp in H.
  apply run_sound in H as (w & s3 & p3 & m3 & -> & Hw & H).
  rewrite consumed_prefix in H. inversion H; subst m. cbn [group Nat.eqb].
  clear H. unfold Opt, alpha in Hw. cbn [lang] in Hw.
  repeat match goal with
         | H : exists _, _ |- _ => destruct H
         | H : _ /\ _ |- _ => destruct H
         | H : _ \/ _ |- _ => destruct H
         end; subst;
    cbn [append String.length all_chars];
    repeat match goal with
           | H : PyStr.is_alpha _ = true |- _ => rewrite H; clear H
           end;
    (split; [lia | reflexivity]).
Qed.

Lemma upper_of_letter (c : ascii) :
  PyStr.is_alpha c = true -> PyStr.is_upper (PyStr.upper_char c) = true.
Proof.
  destruct c as [[] [] [] [] [] [] [] []]; cbn; intro H;
    try reflexivity; discriminate H.
Qed.

Lemma upper_of_letters (w : string) :
  all_chars PyStr.is_alpha w = true ->
  all_chars PyStr.is_upper (PyStr.upper w) = true
  /\ String.length (PyStr.upper w) = String.length w.
Proof.
  unfold PyStr.upper.
  induction w as [|c w IH]; cbn [all_chars PyStr.map_chars String.length];
    [auto|].
  intro H. apply andb_true_iff in H as [Hc Hw].
  destruct (IH Hw) as [IH1 IH2].
  now rewrite (upper_of_letter c Hc), IH1, IH2.
Qed.

Lemma digits_from_nonneg (s : string) (acc : Z) :
  (0 <= acc)%Z -> (0 <= PyNum.digits_from acc s)%Z.
Proof.
  revert acc. induction s as [|c s IH]; intros acc H; cbn [PyNum.digits_from];
    [exact H|].
  apply IH. unfold PyNum.digit_val. lia.
Qed.

Lemma float_of_literal_nonneg (lit : string) :
  (0 <= PyNum.float_of_literal lit)%Q.
Proof.
  unfold PyNum.float_of_literal. destruct (PyNum.split_dot lit) as [a b].
  rewrite Qred_correct. unfold Qle. cbn [Qnum Qden].
  pose proof (digits_from_nonneg (a ++ b) (Z.le_refl 0)).
  unfold PyNum.int_of_digits. lia.
Qed.

Lemma extract_price_well_priced (text : string) (p : Pending) :
  well_priced p -> well_priced (extract_price text p).
Proof.
  intros [Hq Hc]. unfold extract_price.
  destruct (negb (truthy_float (price p)) || negb (truthy_str (currency p)));
    [|now split].
  destruct (search pat_price text) as [m|] eqn:E; [|now split].
  destruct (price_pattern_currency text E) as [Hlen Hal].
  destruct (upper_of_letters _ Hal) as [Hup Hl].
  split; cbn [price currency set_price_currency]; intros v Hv;
    inversion Hv; subst v.
  - apply float_of_literal_nonneg.
  - rewrite Hl. now split.
Qed.


Lemma well_priced_ext (x y : Pending) :
  price y = price x -> currency y = currency x ->
  well_priced x -> well_priced y.
Proof. unfold well_priced. intros -> ->. auto. Qed.

Lemma extraction_well_priced (today : Z) (text : string) (p : Pending) :
  well_priced p -> well_priced (snd (_extract_fields today text p)).
Proof.
  intro H. unfold _extract_fields.
  set (t := PyStr.lower text).
  set (p1 := extract_product text p).
  set (p2 := extract_store text t p1).
  set (p3 := extract_reason text t p2).
  set (p4 := extract_price text p3).
  destruct (extract_product_frame text p) as (_ & _ & A3 & A4 & _).
  destruct (extract_store_frame text t p1) as (_ & _ & B3 & B4 & _).
  destruct (extract_reason_frame text t p2) as (_ & _ & C3 & C4 & _).
  fold p1 in A3, A4. fold p2 in B3, B4. fold p3 in C3, C4.
  assert (H4 : well_priced p4).
  { apply extract_price_well_priced.
    apply well_priced_ext with p; [congruence | congruence | exact H]. }
  destruct (extract_purchase_date today text t p4) as [e|p5] eqn:E5;
    cbn [snd]; [exact H4|].
  destruct (extract_purchase_date_frame today text t p4 E5)
    as (_ & _ & _ & F4 & F5 & _).
  destruct (extract_return_date_frame today t p5) as (_ & _ & _ & G4 & G5 & _).
  apply well_priced_ext with p4; [congruence | congruence | exact H4].
Qed.

(** X19.  The extraction pass never stores a negative price, and the currency it
    stores is always two to five capital letters: a dictionary that is well
    priced stays so, whatever the message. *)
Theorem extraction_keeps_prices_well_formed :
  forall (today : Z) (text : string) (p : Pending),
    well_priced no_pending
    /\ (well_priced p -> well_priced (snd (_extract_fields today text p))).
Proof.
  intros today text p. split; [|apply extraction_well_priced].
  split; intros v Hv; discriminate Hv.
Qed.


(** ** The purchase date *)

Lemma digit_val_range (c : ascii) :
  PyStr.is_digit c = true -> (0 <= PyNum.digit_val c <= 9)%Z.
Proof.
  unfold PyStr.is_digit, PyNum.digit_val. intro H.
  apply andb_true_iff in H as [H1 H2].
  apply Nat.leb_le in H1, H2. lia.
Qed.

Lemma chr_eq (c x : ascii) : Ascii.eqb c x = true -> x = c.
Proof. intro H. apply Ascii.eqb_eq in H. now subst. Qed.

(** What the date pattern captures: a piece 20dd-dd-dd of the message. *)
Lemma date_pattern_shape (text : string) (m : caps) :
  search pat_date text = Some m ->
  exists d1 d2 d3 d4 d5 d6 : ascii,
    group 1 m = iso_text d1 d2 d3 d4 d5 d6
    /\ occurs (group 1 m) text
    /\ PyStr.is_digit d1 = true /\ PyStr.is_digit d2 = true
    /\ PyStr.is_digit d3 = true /\ PyStr.is_digit d4 = true
    /\ PyStr.is_digit d5 = true /\ PyStr.is_digit d6 = true.
Proof.
  intro H. apply search_from_at in H as (a & prev & s & -> & H).
  unfold pat_date in H. rewrite run_Seq in H.
  apply run_sound in H as (w0 & s0 & p0 & m0 & -> & Hw0 & H).
  cbn [lang] in Hw0. subst w0. cbn [append] in *.
  rewrite run_Seq, run_Grp in H.
  apply run_sound in H as (w & s1 & p1 & m1 & -> & Hw & H).
  rewrite consumed_prefix in H. cbn [run] in H.
  destruct (xorb (word_before p1) (word_after s1)); [|discriminate].
  inversion H; subst m. cbn [group Nat.eqb]. clear H.
  assert (Ho : occurs w (a ++ w ++ s1)) by (now exists a, s1).
  revert Ho. generalize (a ++ w ++ s1). intros text Ho.
  unfold chr, digit in Hw. cbn [lang] in Hw.
  repeat match goal with
         | H : exists _, _ |- _ => destruct H
         | H : _ /\ _ |- _ => destruct H
         end; subst.
  repeat match goal with
         | H : Ascii.eqb _ _ = true |- _ => apply chr_eq in H; subst
         end.
  cbn [append] in *. unfold iso_text.
  do 6 eexists. split; [reflexivity|]. split; [exact Ho|].
  repeat split; assumption.
Qed.

Lemma days_in_month_range (y m : Z) : (28 <= PyNum.days_in_month y m <= 31)%Z.
Proof.
  unfold PyNum.days_in_month.
  destruct (m =? 2)%Z; [destruct (PyNum.is_leap y); lia|].
  destruct ((m =? 4) || (m =? 6) || (m =? 9) || (m =? 11))%Z; lia.
Qed.

(** A month and the days before it stay within the year. *)
Lemma month_within_year (y m : Z) :
  (1 <= m <= 12)%Z ->
  (0 <= PyNum.days_before_month y m)%Z
  /\ (PyNum.days_before_month y m + PyNum.days_in_month y m
      <= 365 + (if PyNum.is_leap y then 1 else 0))%Z.
Proof.
  intro H.
  assert (C : (m = 1 \/ m = 2 \/ m = 3 \/ m = 4 \/ m = 5 \/ m = 6 \/ m = 7
               \/ m = 8 \/ m = 9 \/ m = 10 \/ m = 11 \/ m = 12)%Z) by lia.
  unfold PyNum.days_before_month.
  repeat (destruct C as [->|C]); try subst m;
    match goal with
    | |- context [PyNum.days_before_month_from y ?n] =>
        let v := eval vm_compute in n in change n with v
    end;
    cbn -[PyNum.is_leap Z.add]; destruct (PyNum.is_leap y); lia.
Qed.

Lemma century_ordinals (y m d : Z) :
  (2000 <= y <= 2099)%Z -> (1 <= m <= 12)%Z ->
  (1 <= d <= PyNum.days_in_month y m)%Z ->
  (730120 <= PyNum.ymd2ord y m d <= 766644)%Z.
Proof.
  intros Hy Hm Hd. destruct (month_within_year y Hm) as [M0 M1].
  unfold PyNum.ymd2ord.
  assert (L : (730119 <= PyNum.days_before_year y)%Z).
  { unfold PyNum.days_before_year. cbv zeta.
    Z.div_mod_to_equations. lia. }
  split; [lia|].
  destruct (Z.eq_dec y 2099) as [->|Hne].
  - change (PyNum.is_leap 2099) with false in M1. cbv iota in M1.
    change (PyNum.days_before_year 2099) with 766279%Z. lia.
  - assert (U : (PyNum.days_before_year y <= 765914)%Z).
    { unfold PyNum.days_before_year. cbv zeta.
      Z.div_mod_to_equations. lia. }
    destruct (PyNum.is_leap y); lia.
Qed.

Lemma occurs_trans (a b c : string) : occurs a b -> occurs b c -> occurs a c.
Proof.
  intros (x & y & ->) (u & v & ->). exists (u ++ x), (y ++ v).
  now rewrite !str_app_assoc.
Qed.

Lemma digit_is_word (d : ascii) :
  PyStr.is_digit d = true -> PyStr.is_word d = true.
Proof.
  intro H. unfold PyStr.is_word. rewrite H. now rewrite orb_true_r.
Qed.

(** A message that is a date and nothing else is matched whole. *)
Lemma date_pattern_whole (d1 d2 d3 d4 d5 d6 : ascii) :
  forallb PyStr.is_digit [d1; d2; d3; d4; d5; d6] = true ->
  search pat_date (iso_text d1 d2 d3 d4 d5 d6)
  = Some [(1, iso_text d1 d2 d3 d4 d5 d6)].
Proof.
  cbn [forallb]. rewrite !andb_true_iff.
  intros (H1 & H2 & H3 & H4 & H5 & H6 & _).
  pose proof (digit_is_word d6 H6) as W6.
  unfold search, iso_text, pat_date, chr, digit. cbn [search_from].
  cbn [run word_before word_after xorb].
  change (PyStr.is_word "2") with true. cbn [xorb Ascii.eqb Bool.eqb].
  cbv iota. rewrite H1, H2. cbv iota. rewrite H3, H4. cbv iota.
  rewrite H5, H6, W6. reflexivity.
Qed.

(** X20.  On an ASCII message: the purchase date, once filled, is never
    replaced.  While it is empty, a message with "last week" sets it to seven
    days before today, also when the message carries a date.  Otherwise the
    first piece 20dd-dd-dd of the message that stands between word
    boundaries decides: when its month and day exist the date is set to that
    very day, which lies between 2000-01-01 and 2099-12-31, and when they do
    not the step raises a [ValueError]; with no such piece the dictionary is
    left as it is.  A message without "20" has no such piece, and a message that is
    such a date and nothing else is matched whole. *)
Theorem purchase_date_step :
  forall (today : Z) (text : string) (p : Pending),
    PyStr.is_ascii text = true ->
    let t := PyStr.lower text in
    let step := extract_purchase_date today text t p in
    (purchase_date p <> None -> step = inr p)
    /\ (purchase_date p = None ->
        PyStr.contains "last week" t = true ->
        step = inr (set_purchase_date (today - 7)%Z p))
    /\ (purchase_date p = None ->
        PyStr.contains "last week" t = false ->
        match search pat_date text with
        | None => step = inr p
        | Some m =>
            exists d1 d2 d3 d4 d5 d6 : ascii,
              group 1 m = iso_text d1 d2 d3 d4 d5 d6
              /\ occurs (group 1 m) text
              /\ forallb PyStr.is_digit [d1; d2; d3; d4; d5; d6] = true
              /\ let y := (2000 + two_digits d1 d2)%Z in
                 let mo := two_digits d3 d4 in
                 let da := two_digits d5 d6 in
                 if ((1 <=? mo) && (mo <=? 12) && (1 <=? da)
                     && (da <=? PyNum.days_in_month y mo))%Z
                 then step = inr (set_purchase_date (PyNum.ymd2ord y mo da) p)
                      /\ (730120 <= PyNum.ymd2ord y mo da <= 766644)%Z
                 else exists msg : string, step = inl (ValueError msg)
        end)
    /\ (~ occurs "20" text -> search pat_date text = None)
    /\ (forall d1 d2 d3 d4 d5 d6 : ascii,
          forallb PyStr.is_digit [d1; d2; d3; d4; d5; d6] = true ->
          text = iso_text d1 d2 d3 d4 d5 d6 ->
          search pat_date text = Some [(1, text)]).
Proof.
  intros today text p _ t step. subst step. unfold extract_purchase_date.
  split; [|split; [|split; [|split]]].
  - intro H. destruct (purchase_date p); [reflexivity | congruence].
  - intros -> ->. reflexivity.
  - intros -> ->. cbn [truthy_date negb].
    destruct (search pat_date text) as [m|] eqn:E; [|reflexivity].
    destruct (date_pattern_shape text E)
      as (d1 & d2 & d3 & d4 & d5 & d6 & G & Ho & H1 & H2 & H3 & H4 & H5 & H6).
    exists d1, d2, d3, d4, d5, d6. split; [exact G|]. split; [exact Ho|].
    split; [cbn [forallb]; now rewrite H1, H2, H3, H4, H5, H6|].
    rewrite G. unfold PyNum.strptime_ymd, iso_text.
    cbn [String.substring]. unfold PyNum.int_of_digits.
    cbn [PyNum.digits_from].
    apply digit_val_range in H1, H2, H3, H4, H5, H6.
    change (PyNum.digit_val "2") with 2%Z.
    change (PyNum.digit_val "0") with 0%Z.
    replace (10 * (10 * (10 * (10 * 0 + 2) + 0) + PyNum.digit_val d1)
             + PyNum.digit_val d2)%Z
      with (2000 + two_digits d1 d2)%Z by (unfold two_digits; lia).
    replace (10 * (10 * 0 + PyNum.digit_val d3) + PyNum.digit_val d4)%Z
      with (two_digits d3 d4) by (unfold two_digits; lia).
    replace (10 * (10 * 0 + PyNum.digit_val d5) + PyNum.digit_val d6)%Z
      with (two_digits d5 d6) by (unfold two_digits; lia).
    cbv zeta.
    assert (Y : (2000 <= 2000 + two_digits d1 d2 <= 2099)%Z)
      by (unfold two_digits; lia).
    set (y := (2000 + two_digits d1 d2)%Z) in *.
    set (mo := two_digits d3 d4). set (da := two_digits d5 d6).
    destruct (Z.leb_spec 1 y); [|lia].
    destruct (Z.leb_spec 1 mo), (Z.leb_spec mo 12),
      (Z.leb_spec 1 da), (Z.leb_spec da (PyNum.days_in_month y mo));
      cbn [andb]; try (eexists; reflexivity).
    split; [reflexivity|]. apply century_ordinals; lia.
  - intro Hno. destruct (search pat_date text) as [m|] eqn:E; [|reflexivity].
    exfalso. apply Hno.
    destruct (date_pattern_shape text E)
      as (d1 & d2 & d3 & d4 & d5 & d6 & G & Ho & _).
    apply occurs_trans with (group 1 m); [|exact Ho].
    rewrite G. exists EmptyString. eexists. unfold iso_text. reflexivity.
  - intros d1 d2 d3 d4 d5 d6 Hd ->. now apply date_pattern_whole.
Qed.


(** ** Turns and the table *)

Section CoordinatorInvariants.

Variable sha256_hexdigest : string -> string.
Variable str_float : float -> string.
Variable str_date : Z -> string.
Context {num : Numerics}.
Variable _build_insight :
  option string -> Z -> Z -> Z -> Q -> Z -> Q -> string -> string.
Variable _write_excel :
  option string -> Z -> Z -> Z -> Q -> Z -> Q -> string -> string
  -> Exn + string.
Variable Vec : Type.
Variable encode : string -> Vec.
Variable index_search : list Vec -> Vec -> Z -> Exn + list Z.

Local Abbreviation handle :=
  (handle_message sha256_hexdigest str_float str_date _build_insight
     _write_excel encode index_search).
Local Abbreviation insert_flow :=
  (@_handle_insert_flow sha256_hexdigest str_float str_date Vec).
Local Abbreviation chat :=
  (converse sha256_hexdigest str_float str_date _build_insight
     _write_excel encode index_search).
Local Abbreviation fingerprint :=
  (_generate_dedupe_key sha256_hexdigest str_float str_date).

(** What a submission does once nothing is missing. *)
Lemma submit_cases (p : Pending) (db : Table) :
  _missing_fields p = [] ->
  (return_date p = None
   /\ submit sha256_hexdigest str_float str_date p db
      = (inl (ValidationError ["return_date"]), db))
  \/ (exists request,
        make_request p = inr request
        /\ Some (req_product_name request) = product_name p
        /\ Some (req_store_name request) = store_name p
        /\ Some (req_purchase_date request) = purchase_date p
        /\ Some (req_return_date request) = return_date p
        /\ Some (req_reason_raw request) = reason_raw p
        /\ Some (req_price request) = option_map Num (price p)
        /\ Some (req_currency request) = currency p
        /\ submit sha256_hexdigest str_float str_date p db
           = insert_return sha256_hexdigest str_float str_date request db).
Proof.
  intro H. apply nothing_missing_all in H as (H1 & H2 & H3 & H4 & H5 & H6).
  unfold submit, make_request, none_fields.
  destruct (product_name p), (store_name p), (purchase_date p),
    (reason_raw p), (price p), (currency p); try discriminate.
  destruct (return_date p).
  - right. eexists. repeat split; reflexivity.
  - left. split; reflexivity.
Qed.

Lemma insert_flow_cases :
  forall (today : Z) (text : string) (state : ConversationState)
         (self : Coordinator Vec),
    let pass := _extract_fields today text (pending_return state) in
    let turn := insert_flow today text state self in
    match fst (fst turn) with
    | Raised e =>
        fst pass = Some e
        /\ snd (fst turn) = with_pending (snd pass) state /\ snd turn = self
    | Returned (Say prompt) =>
        fst pass = None
        /\ _missing_fields (snd pass) <> []
        /\ prompt = _ask_next (_missing_fields (snd pass))
        /\ snd (fst turn) = with_pending (snd pass) state /\ snd turn = self
    | Returned (ErrorText e) =>
        fst pass = None /\ _missing_fields (snd pass) = []
        /\ snd (fst turn) = new_state /\ snd turn = self
        /\ ((e = ValidationError ["return_date"]
             /\ return_date (snd pass) = None)
            \/ (e = ValueError duplicate_message
                /\ return_date (snd pass) <> None))
    | Returned (ReturnRecorded resp) =>
        fst pass = None /\ _missing_fields (snd pass) = []
        /\ snd (fst turn) = new_state
        /\ self_rag (snd turn) = self_rag self
        /\ exists row,
             self_db (snd turn) = (self_db self ++ [row])%list
             /\ id row = resp_return_id resp
             /\ Some (row_product_name row) = product_name (snd pass)
             /\ Some (row_store_name row) = store_name (snd pass)
             /\ Some (row_purchase_date row) = purchase_date (snd pass)
             /\ Some (row_return_date row) = return_date (snd pass)
             /\ Some (row_reason_raw row) = reason_raw (snd pass)
             /\ row_price row = price (snd pass)
             /\ Some (row_currency row) = currency (snd pass)
             /\ key_present (dedupe_key row) (self_db self) = false
             /\ resp_product_name resp = row_product_name row
             /\ resp_store_name resp = row_store_name row
             /\ Some (resp_price resp) = row_price row
             /\ resp_currency resp = row_currency row
    | Returned _ => False
    end.
Proof.
  intros today text state self pass turn. subst turn.
  unfold _handle_insert_flow. fold pass.
  destruct pass as [[e|] p]; cbn [fst snd with_pending pending_return].
  - repeat split.
  - destruct (_missing_fields p) eqn:Hmiss; cbn [fst snd].
    + destruct (submit_cases p (self_db self) Hmiss)
        as [[Hrd E]|(request & Hreq & F1 & F2 & F3 & F4 & F5 & F6 & F7 & E)];
        rewrite E.
      * cbn. destruct self. repeat split; auto.
      * destruct (price p) as [q|] eqn:Hq; [|discriminate F6].
        cbn [option_map] in F6. inversion F6 as [Hprice].
        assert (Hstored : stored (req_price request) = Some q)
          by (now rewrite Hprice).
        destruct (insert_number_cases sha256_hexdigest str_float str_date
                    request (self_db self) Hstored) as [[Hk Ei]|[Hk Ei]];
          rewrite Ei; cbn.
        -- destruct self. repeat split; auto. right. split; [reflexivity|].
           rewrite <- F4. discriminate.
        -- repeat split; auto. eexists. split; [reflexivity|].
           cbn. rewrite Hprice. cbn [stored]. repeat split; auto.
    + repeat split; auto. discriminate.
Qed.

(** X21.  A turn of the collection flow ends in one of four ways.  A prompt or an
    exception from the extraction pass leaves the mode and the coordinator
    untouched and keeps what was extracted.  A submission always resets the
    session; its reply is the recorded return, whose row of the extracted
    fields is appended to the table, or the duplicate message, or the
    validation error for the return date that was never given, the only
    field a submission can lack. *)
Theorem insert_flow_outcomes :
  forall (today : Z) (text : string) (state : ConversationState)
         (self : Coordinator Vec),
    let pass := _extract_fields today text (pending_return state) in
    let turn := insert_flow today text state self in
    match fst (fst turn) with
    | Raised e =>
        fst pass = Some e
        /\ snd (fst turn) = with_pending (snd pass) state /\ snd turn = self
    | Returned (Say prompt) =>
        fst pass = None
        /\ _missing_fields (snd pass) <> []
        /\ prompt = _ask_next (_missing_fields (snd pass))
        /\ snd (fst turn) = with_pending (snd pass) state /\ snd turn = self
    | Returned (ErrorText e) =>
        fst pass = None /\ _missing_fields (snd pass) = []
        /\ snd (fst turn) = new_state /\ snd turn = self
        /\ ((e = ValidationError ["return_date"]
             /\ return_date (snd pass) = None)
            \/ (e = ValueError duplicate_message
                /\ return_date (snd pass) <> None))
    | Returned (ReturnRecorded resp) =>
        fst pass = None /\ _missing_fields (snd pass) = []
        /\ snd (fst turn) = new_state
        /\ self_rag (snd turn) = self_rag self
        /\ exists row,
             self_db (snd turn) = (self_db self ++ [row])%list
             /\ id row = resp_return_id resp
             /\ Some (row_product_name row) = product_name (snd pass)
             /\ Some (row_store_name row) = store_name (snd pass)
             /\ Some (row_purchase_date row) = purchase_date (snd pass)
             /\ Some (row_return_date row) = return_date (snd pass)
             /\ Some (row_reason_raw row) = reason_raw (snd pass)
             /\ row_price row = price (snd pass)
             /\ Some (row_currency row) = currency (snd pass)
             /\ key_present (dedupe_key row) (self_db self) = false
             /\ resp_product_name resp = row_product_name row
             /\ resp_store_name resp = row_store_name row
             /\ Some (resp_price resp) = row_price row
             /\ resp_currency resp = row_currency row
    | Returned _ => False
    end.
Proof.
  intros today text state self pass turn. subst turn.
  unfold _handle_insert_flow. fold pass.
  destruct pass as [[e|] p]; cbn [fst snd with_pending pending_return].
  - repeat split.
  - destruct (_missing_fields p) eqn:Hmiss; cbn [fst snd].
    + destruct (submit_cases p (self_db self) Hmiss)
        as [[Hrd E]|(request & Hreq & F1 & F2 & F3 & F4 & F5 & F6 & F7 & E)];
        rewrite E.
      * cbn. destruct self. repeat split; auto.
      * destruct (price p) as [q|] eqn:Hq; [|discriminate F6].
        cbn [option_map] in F6. inversion F6 as [Hprice].
        assert (Hstored : stored (req_price request) = Some q)
          by (now rewrite Hprice).
        destruct (insert_number_cases sha256_hexdigest str_float str_date
                    request (self_db self) Hstored) as [[Hk Ei]|[Hk Ei]];
          rewrite Ei; cbn.
        -- destruct self. repeat split; auto. right. split; [reflexivity|].
           rewrite <- F4. discriminate.
        -- repeat split; auto. eexists. split; [reflexivity|].
           cbn. rewrite Hprice. cbn [stored]. repeat split; auto.
    + repeat split; auto. discriminate.
Qed.

Lemma insert_flow_effect (today : Z) (text : string)
    (state : ConversationState) (self : Coordinator Vec) :
  mode state = Some InsertReturn ->
  let turn := insert_flow today text state self in
  (exists added,
      self_db (snd turn) = (self_db self ++ added)%list
      /\ List.length added = recorded [fst (fst turn)]
      /\ (unique_keys (self_db self) -> unique_keys (self_db self ++ added)%list))
  /\ (forall r, fst (fst turn) = Returned r ->
        snd (fst turn) = new_state
        \/ (mode (snd (fst turn)) = Some InsertReturn
            /\ exists prompt, r = Say prompt)).
Proof.
  intros Hm turn.
  pose proof (insert_flow_cases today text state self) as T.
  cbv zeta in T. fold turn in T.
  destruct (fst (fst turn)) as [[prompt|resp|e|x|x|x]|e]; try contradiction.
  - destruct T as (_ & _ & _ & Hst & Hself). split.
    + exists []. rewrite app_nil_r, Hself. repeat split; auto.
    + intros r Hr. right. rewrite Hst. split; [exact Hm|].
      inversion Hr. now exists prompt.
  - destruct T as (_ & _ & Hst & _ & row & Hdb & _ & _ & _ & _ & _ & _ & _
                   & _ & Hk & _).
    split; [|intros; now left].
    exists [row]. split; [exact Hdb|]. split; [reflexivity|].
    intro Hu. apply unique_keys_snoc; [exact Hu|].
    now apply key_absent_not_in.
  - destruct T as (_ & _ & Hst & Hself & _). split; [|intros; now left].
    exists []. rewrite app_nil_r, Hself. repeat split; auto.
  - destruct T as (_ & _ & Hself). split; [|intros r Hr; discriminate Hr].
    exists []. rewrite app_nil_r, Hself. repeat split; auto.
Qed.

Lemma turn_effect (today : Z) (text : string) (state : ConversationState)
    (self : Coordinator Vec) :
  let turn := handle today text state self in
  (exists added,
      self_db (snd turn) = (self_db self ++ added)%list
      /\ List.length added = recorded [fst (fst turn)]
      /\ (unique_keys (self_db self) -> unique_keys (self_db self ++ added)%list))
  /\ (forall r, fst (fst turn) = Returned r ->
        mode (snd (fst turn)) = None
        \/ (mode (snd (fst turn)) = Some InsertReturn
            /\ exists prompt, r = Say prompt)).
Proof.
  intro turn. subst turn. unfold handle_message.
  assert (Q : forall (o : Outcome) (st : ConversationState)
                     (c : Coordinator Vec),
             is_recorded o = false -> self_db c = self_db self ->
             (o = Raised (match o with Raised e => e | _ => IndexError end)
              \/ mode st = None) ->
             (exists added,
                 self_db (snd (o, st, c)) = (self_db self ++ added)%list
                 /\ List.length added = recorded [fst (fst (o, st, c))]
                 /\ (unique_keys (self_db self) ->
                     unique_keys (self_db self ++ added)%list))
             /\ (forall r, fst (fst (o, st, c)) = Returned r ->
                   mode (snd (fst (o, st, c))) = None
                   \/ (mode (snd (fst (o, st, c))) = Some InsertReturn
                       /\ exists prompt, r = Say prompt))).
  { intros o st c Ho Hc Hmode. cbn [fst snd]. split.
    - exists []. rewrite app_nil_r. unfold recorded. cbn [filter].
      rewrite Ho. repeat split; auto.
    - intros r Hr. left. destruct Hmode as [E|E]; [|exact E].
      rewrite Hr in E. discriminate E. }
  assert (F : forall st, mode st = Some InsertReturn ->
             let turn := insert_flow today (PyStr.strip text) st self in
             (exists added,
                 self_db (snd turn) = (self_db self ++ added)%list
                 /\ List.length added = recorded [fst (fst turn)]
                 /\ (unique_keys (self_db self) ->
                     unique_keys (self_db self ++ added)%list))
             /\ (forall r, fst (fst turn) = Returned r ->
                   mode (snd (fst turn)) = None
                   \/ (mode (snd (fst turn)) = Some InsertReturn
                       /\ exists prompt, r = Say prompt))).
  { intros st Hst turn.
    destruct (insert_flow_effect today (PyStr.strip text) st self Hst)
      as [A B]. fold turn in A, B. split; [exact A|].
    intros r Hr. destruct (B r Hr) as [E|E]; [left | right; exact E].
    now rewrite E. }
  destruct (is_insert_return (mode state)) eqn:Hm.
  - apply F. destruct (mode state) as [[]|]; try discriminate. reflexivity.
  - destruct (_classify_intent (PyStr.strip text)).
    + apply F. reflexivity.
    + unfold _handle_analytics.
      destruct (generate_report _ _ _ _ _); apply Q; auto.
    + unfold _handle_forecast. destruct (forecast _ _); apply Q; auto.
    + unfold _handle_rag.
      destruct (retrieve _ _ _ _) as [e|[|r res]]; apply Q; auto.
Qed.

(** X22.  Whatever the message and the session, a turn keeps every row of the
    table and appends one row exactly when it replies with a recorded return;
    unique keys stay unique.  A turn that returns leaves the session without
    a mode, or still collecting behind a prompt: the analytics, forecast and
    retrieval modes never outlive a turn that returns. *)
Theorem turn_keeps_the_table_and_the_mode :
  forall (today : Z) (text : string) (state : ConversationState)
         (self : Coordinator Vec),
    let turn := handle today text state self in
    (exists added,
        self_db (snd turn) = (self_db self ++ added)%list
        /\ List.length added = recorded [fst (fst turn)]
        /\ (unique_keys (self_db self) ->
            unique_keys (self_db self ++ added)%list))
    /\ (forall r, fst (fst turn) = Returned r ->
          mode (snd (fst turn)) = None
          \/ (mode (snd (fst turn)) = Some InsertReturn
              /\ exists prompt, r = Say prompt)).
Proof.
  intros today text state self. apply turn_effect.
Qed.

Lemma recorded_cons (o : Outcome) (os : list Outcome) :
  recorded (o :: os) = (recorded [o] + recorded os)%nat.
Proof.
  unfold recorded. cbn [filter]. destruct (is_recorded o); reflexivity.
Qed.

(** X23.  Over a whole conversation the coordinator answers every message, the
    table grows by exactly as many rows as returns were recorded, no row is
    changed or removed, and unique keys stay unique. *)
Theorem conversation_grows_the_table_by_its_recorded_returns :
  forall (today : Z) (texts : list string) (state : ConversationState)
         (self : Coordinator Vec),
    let run := chat today texts state self in
    List.length (fst (fst run)) = List.length texts
    /\ exists added,
         self_db (snd run) = (self_db self ++ added)%list
         /\ List.length added = recorded (fst (fst run))
         /\ (unique_keys (self_db self) ->
             unique_keys (self_db self ++ added)%list).
Proof.
  intros today texts. induction texts as [|u rest IH]; intros state self run;
    subst run; cbn [converse].
  - split; [reflexivity|]. exists []. rewrite app_nil_r. repeat split; auto.
  - destruct (turn_effect today u state self) as [(a1 & D1 & L1 & U1) _].
    destruct (handle today u state self) as [[o st'] self'].
    cbn [fst snd] in D1, L1.
    specialize (IH st' self'). cbv zeta in IH.
    destruct (chat today rest st' self') as [[os st''] self''].
    cbn [fst snd] in *. destruct IH as (Hlen & a2 & D2 & L2 & U2).
    split; [cbn [List.length]; now rewrite Hlen|].
    exists (a1 ++ a2)%list. rewrite D2, D1, app_assoc.
    split; [reflexivity|].
    split; [rewrite length_app, recorded_cons; lia|].
    intro Hu. rewrite <- D1. apply U2. rewrite D1. now apply U1.
Qed.

Lemma truthy_str_nonempty (v : option string) (x : string) :
  truthy_str v = true -> Some x = v -> x <> EmptyString.
Proof.
  intros H <-. cbn in H. unfold PyStr.nonempty in H.
  apply negb_true_iff, String.eqb_neq in H. exact H.
Qed.

Lemma insert_flow_well_priced (today : Z) (text : string)
    (state : ConversationState) (self : Coordinator Vec) :
  well_priced (pending_return state) ->
  let turn := insert_flow today text state self in
  well_priced (pending_return (snd (fst turn)))
  /\ well_recorded (fst (fst turn)).
Proof.
  intros Hw turn.
  pose proof (extraction_well_priced today text Hw) as Hp.
  pose proof (insert_flow_cases today text state self) as T.
  cbv zeta in T. fold turn in T.
  assert (N : well_priced no_pending)
    by (split; intros v Hv; discriminate Hv).
  destruct (fst (fst turn)) as [[prompt|resp|e|x|x|x]|e]; try contradiction.
  - destruct T as (_ & _ & _ & -> & _). now split.
  - destruct T as (_ & Hm & -> & _ & row & _ & _ & F1 & F2 & _ & _ & _ & F6
                   & F7 & _ & R1 & R2 & R3 & R4).
    split; [exact N|]. cbn [well_recorded].
    apply nothing_missing_all in Hm as (M1 & M2 & _ & _ & M5 & M6).
    assert (P : price (snd (_extract_fields today text (pending_return state)))
                = Some (resp_price resp)) by congruence.
    rewrite R1, R2, R4. destruct Hp as [Hq Hc].
    split; [now apply truthy_str_nonempty with (product_name
              (snd (_extract_fields today text (pending_return state))))|].
    split; [now apply truthy_str_nonempty with (store_name
              (snd (_extract_fields today text (pending_return state))))|].
    split.
    + rewrite P in M5. cbn in M5. unfold PyNum.nonzero in M5.
      apply negb_true_iff, Z.eqb_neq in M5.
      specialize (Hq _ P). unfold Qle in Hq. unfold Qlt.
      cbn [Qnum Qden] in *. lia.
    + now apply Hc.
  - destruct T as (_ & _ & -> & _). now split.
  - destruct T as (_ & -> & _). now split.
Qed.

Lemma turn_well_priced (today : Z) (text : string)
    (state : ConversationState) (self : Coordinator Vec) :
  well_priced (pending_return state) ->
  let turn := handle today text state self in
  well_priced (pending_return (snd (fst turn)))
  /\ well_recorded (fst (fst turn)).
Proof.
  intros Hw turn. subst turn. unfold handle_message.
  destruct (is_insert_return (mode state)).
  - now apply insert_flow_well_priced.
  - destruct (_classify_intent (PyStr.strip text)).
    + now apply insert_flow_well_priced.
    + unfold _handle_analytics.
      destruct (generate_report _ _ _ _ _); cbn; auto.
    + unfold _handle_forecast. destruct (forecast _ _); cbn; auto.
    + unfold _handle_rag.
      destruct (retrieve _ _ _ _) as [e|[|r res]]; cbn; auto.
Qed.

(** X24.  In a conversation that starts from a well-priced dictionary, the fresh
    one in particular, every return the coordinator records has a product and
    a store that are not empty, a price above zero and a currency of two to
    five capital letters. *)
Theorem conversation_records_only_well_formed_returns :
  forall (today : Z) (texts : list string) (state : ConversationState)
         (self : Coordinator Vec),
    well_priced (pending_return state) ->
    Forall well_recorded (fst (fst (chat today texts state self)))
    /\ well_priced (pending_return (snd (fst (chat today texts state self)))).
Proof.
  intros today texts.
  induction texts as [|u rest IH]; intros state self Hw; cbn [converse].
  - split; [constructor | exact Hw].
  - destruct (turn_well_priced today u state self Hw) as [Hp Hr].
    destruct (handle today u state self) as [[o st'] self'].
    cbn [fst snd] in Hp, Hr.
    destruct (IH st' self' Hp) as [Hall Hfin].
    destruct (chat today rest st' self') as [[os st''] self''].
    cbn [fst snd] in *. split; [now constructor | exact Hfin].
Qed.


(** X25.  Once an insert has succeeded the readers have data: a forecast no
    longer fails for lack of data, and it answers when the dates of the
    table, horizon included, are days a [Timestamp] holds; a rebuild creates
    the index, with one vector per row; the return counts once more on
    its return date and in every window that contains that date, and in no
    other. *)
Theorem after_an_insert_the_readers_have_data :
  forall (request : InsertReturnRequest) (db db' : Table)
         (resp : InsertReturnResponse),
    insert_return sha256_hexdigest str_float str_date request db
      = (inr resp, db') ->
    (forall fr : ForecastRequest,
        forecast fr db' <> inl (ValueError empty_series_message)
        /\ (forecastable (horizon_days fr) db' ->
            exists f, forecast fr db' = inr f))
    /\ (forall self : RAGRetriever Vec,
          exists vectors,
            index (build_index str_float encode db' self) = Some vectors
            /\ List.length vectors = List.length db')
    /\ (forall d : Z,
          returns_on d db'
          = (returns_on d db
             + (if (req_return_date request =? d)%Z then 1 else 0))%Z)
    /\ (forall s e : Z,
          returns_between s e db'
          = (returns_between s e db
             + (if ((s <=? req_return_date request)
                    && (req_return_date request <=? e))%Z
                then 1 else 0))%Z).
Proof.
  intros request db db' resp H.
  destruct (insert_cases sha256_hexdigest str_float str_date request db)
    as [[_ E]|[(_ & q0 & _ & E)|(_ & _ & E)]];
    cbv zeta in E; rewrite E in H; try discriminate H.
  inversion H; subst db'. clear H E.
  set (row := new_return _ _ _).
  assert (Hne : (db ++ [row])%list <> []) by (destruct db; discriminate).
  split; [|split; [|split]].
  - intro fr. split.
    + now apply forecast_has_data.
    + intro Hok. rewrite (forecast_on_series fr Hne Hok).
      cbv zeta. eexists. reflexivity.
  - intros self. unfold build_index.
    destruct (map (record_text str_float) (db ++ [row])%list) as [|x xs] eqn:M.
    + apply map_eq_nil in M. congruence.
    + cbn [index]. eexists. split; [reflexivity|].
      now rewrite <- M, !length_map.
  - intro d. apply returns_on_snoc.
  - intros s e. unfold returns_between. rewrite filter_app, length_app.
    cbn [filter]. change (row_return_date row) with (req_return_date request).
    destruct ((s <=? req_return_date request)
              && (req_return_date request <=? e))%Z; cbn [List.length]; lia.
Qed.


End CoordinatorInvariants.


(** * Concrete runs *)

Lemma sumQ_nonneg (l : list Q) :
  Forall (fun x => (0 <= x)%Q) l -> (0 <= sumQ l)%Q.
Proof.
  unfold sumQ. induction 1 as [|x l Hx Hl IH]; cbn [fold_right];
    [apply Qle_refl|].
  exact (Qplus_le_compat 0 x 0 _ Hx IH).
Qed.

Lemma sumQ_zeros (l : list Q) :
  Forall (fun x => (x == 0)%Q) l -> (sumQ l == 0)%Q.
Proof.
  unfold sumQ. induction 1 as [|x l Hx Hl IH]; cbn [fold_right];
    [reflexivity|].
  rewrite Hx, IH. reflexivity.
Qed.

(** Exact arithmetic has what [ieee_doubles] asks for. *)
Lemma exact_is_ieee : ieee_doubles Demo.exact.
Proof.
  unfold ieee_doubles, Demo.exact. cbn [fl np_sum].
  split; [exact Qred_complete|]. split; [|split; [|split]].
  - intros x y H. now rewrite !Qred_correct.
  - intros z _. apply Qcanon.Qred_identity. cbn [Qnum Qden inject_Z].
    apply Z.gcd_1_r.
  - intros l H. rewrite Qred_correct. now apply sumQ_zeros.
  - intros l H. rewrite Qred_correct. now apply sumQ_nonneg.
Qed.

Ltac by_computation :=
  vm_compute; let C := fresh "C" in intro C; discriminate C.

Lemma five_returns_forecastable :
  forecastable (num := Demo.exact) 14 Demo.five_returns.
Proof. repeat constructor; by_computation. Qed.




(** The fingerprint of the insertion script's request is shared by a later
    request for the same purchase. *)
Lemma C9_witness :
  same_natural_key Demo.apple_tv Demo.apple_tv_again
  /\ Demo.fingerprint Demo.apple_tv = Demo.fingerprint Demo.apple_tv_again.
Proof.
  assert (K : same_natural_key Demo.apple_tv Demo.apple_tv_again)
    by (repeat split; reflexivity).
  split; [exact K|].
  exact (proj1 (C9_fingerprint_is_a_function_of_the_natural_key
                  Demo.digest Demo.str_float Demo.str_Z)
               Demo.apple_tv Demo.apple_tv_again K).
Defined.

(** A request whose price is NaN, inserted into an empty table: the row is
    committed without a price, the call raises, and the same request is a
    duplicate from then on. *)
Lemma C5_witness :
  key_present (Demo.fingerprint Demo.nan_priced) [] = false
  /\ same_natural_key Demo.nan_priced Demo.nan_priced
  /\ exists row : Return,
       snd (Demo.insert Demo.nan_priced []) = [row]
       /\ row_price row = None
       /\ fst (Demo.insert Demo.nan_priced [])
          = inl (ValidationError ["price"])
       /\ Demo.insert Demo.nan_priced [row]
          = (inl (ValueError duplicate_message), [row]).
Proof.
  assert (K : same_natural_key Demo.nan_priced Demo.nan_priced)
    by (repeat split; reflexivity).
  split; [reflexivity|]. split; [exact K|].
  destruct (@C5_first_insert_commits_then_answers Demo.digest Demo.str_float
              Demo.str_Z [] Demo.nan_priced Demo.nan_priced eq_refl K)
    as (row & Hdb & _ & _ & _ & Hnan & Hdup & _).
  exists row. destruct (Hnan eq_refl) as [Hfst Hprice].
  split; [exact Hdb|]. split; [exact Hprice|]. split; [exact Hfst|].
  exact Hdup.
Defined.

Lemma C7_witness :
  some_occurs forecast_keywords (PyStr.lower "Predict returns for May")
  /\ _classify_intent "Predict returns for May" = Forecast
  /\ _classify_intent "How many returns last week?" = Analytics
  /\ _classify_intent "I want a Refund" = InsertReturn
  /\ _classify_intent "USB port not working" = Rag.
Proof.
  assert (F : forall ks t, PyStr.any_in ks t = false -> ~ some_occurs ks t).
  { intros ks t E H. apply any_in_iff in H. congruence. }
  assert (T : forall ks t, PyStr.any_in ks t = true -> some_occurs ks t).
  { intros ks t E. now apply any_in_iff. }
  pose proof (proj1 (proj2 (proj2 (proj2
    (C7_intent_by_ordered_keywords (num := Demo.exact)
       Demo.digest Demo.str_float Demo.str_Z
       Demo.insight Demo.excel Demo.enc Demo.nearest))))) as R.
  split; [apply T; reflexivity|].
  split; [apply (R "Predict returns for May"); apply T; reflexivity|].
  split; [apply (R "How many returns last week?");
          [apply F | apply T]; reflexivity|].
  split; [apply (R "I want a Refund"); [apply F | apply F | apply T];
          reflexivity|].
  apply (R "USB port not working"); apply F; reflexivity.
Defined.

(** After "0 USD" the currency holds "USD"; the next message "5 EUR"
    replaces it. *)
Lemma C3_counterexample :
  ~ (forall (today : Z) (text : string) (p : Pending),
        keeps_filled p (snd (_extract_fields today text p))).
Proof.
  intro H.
  destruct (H 739500%Z "5 EUR" Demo.after_zero_usd)
    as (_ & _ & _ & _ & _ & _ & _ & _ & _ & Hcur & _).
  vm_compute in Hcur.
  assert (E : Some "EUR" = Some "USD") by (apply Hcur; discriminate).
  discriminate E.
Qed.

Lemma C3_witness :
  truthy_str (currency Demo.after_zero_usd) = true
  /\ keeps_truthy Demo.after_zero_usd
       (snd (_extract_fields 739500%Z "5 EUR" Demo.after_zero_usd)).
Proof.
  split; [reflexivity|].
  exact (C3_extraction_keeps_truthy_fields 739500%Z "5 EUR"
           Demo.after_zero_usd).
Defined.



(** A history whose only return is dated 9999-12-31 is not empty, and a
    forecast for the next day does not return: pandas holds neither that day
    nor the next. *)
Lemma C8_counterexample :
  ~ (forall (request : ForecastRequest) (db : Table),
        db <> [] ->
        exists resp : ForecastResponse,
          Demo.predict request db = inr resp
          /\ List.length (predictions resp)
             = Z.to_nat (horizon_days request)).
Proof.
  intro H.
  destruct (H Demo.one_day Demo.last_day_of_the_calendar)
    as (resp & E & _); [discriminate|].
  vm_compute in E. discriminate E.
Qed.

Lemma C8_witness :
  ieee_doubles Demo.exact
  /\ List.length Demo.five_returns = 5
  /\ Forall (fun r => row_return_date r = 739261%Z) Demo.five_returns
  /\ forecastable (num := Demo.exact) (horizon_days Demo.two_weeks)
       Demo.five_returns
  /\ exists resp : ForecastResponse,
       Demo.predict Demo.two_weeks Demo.five_returns = inr resp
       /\ predictions resp
          = map (fun i => {| date := (739261 + Z.of_nat i)%Z;
                             predicted_value := 5%Q |})
              (seq 1 (Z.to_nat (horizon_days Demo.two_weeks)))
       /\ metric_value resp = 0%Q.
Proof.
  assert (A : Forall (fun r => row_return_date r = 739261%Z)
                Demo.five_returns) by (repeat constructor).
  split; [exact exact_is_ieee|]. split; [reflexivity|]. split; [exact A|].
  split; [exact five_returns_forecastable|].
  destruct (C8_forecast_is_the_trailing_mean (num := Demo.exact)
              Demo.two_weeks Demo.five_returns)
    as (_ & _ & _ & _ & _ & _ & _ & G).
  exact (G exact_is_ieee 739261%Z eq_refl A five_returns_forecastable).
Defined.

(** ** Further runs of the coordinator *)

(** The same dialogue with the word "today" in the fourth message sets the
    return date and is recorded. *)
Example dialogue_with_today_is_recorded :
  fst (fst (Demo.chat 739500%Z
              ["I want to return my iPhone"; "Target"; "2025-01-01";
               "not working today"; "50 USD"] new_state Demo.fresh))
  = [Returned (Say "Which store did you buy it from?");
     Returned (Say "When did you purchase it? (YYYY-MM-DD or 'last week')");
     Returned (Say "What is the reason for return?");
     Returned (Say "What was the price and currency?");
     Returned (ReturnRecorded
                 {| resp_return_id := 1; resp_product_name := "iPhone";
                    resp_store_name := "Target"; resp_price := 50%Q;
                    resp_currency := "USD";
                    resp_message := "Return successfully recorded." |})].
Proof. vm_compute. reflexivity. Qed.

(** "Next Level Shop" is a forecast request in a fresh session and a store
    name in a session that collects a return. *)
Example next_is_field_input_while_collecting :
  _classify_intent "Next Level Shop" = Forecast
  /\ Demo.handle 739500%Z "Next Level Shop" Demo.collecting_iphone Demo.fresh
     = (Returned (Say "When did you purchase it? (YYYY-MM-DD or 'last week')"),
        {| pending_return :=
             set_store_name "Next Level Shop"
               (set_product_name "iPhone" no_pending);
           mode := Some InsertReturn |},
        Demo.fresh).
Proof. split; vm_compute; reflexivity. Qed.

(** A question over an empty table: the turn ends in the index-not-built
    error and the session object is left in the retrieval mode. *)
Example question_over_empty_table_raises :
  Demo.handle 739500%Z "USB port not working" new_state Demo.fresh
  = (Raised (RuntimeError index_not_built_message),
     {| pending_return := no_pending; mode := Some Rag |}, Demo.fresh).
Proof. vm_compute. reflexivity. Qed.

(** A date that does not exist makes the extraction pass raise, outside the
    submission's [try]. *)
Example impossible_date_raises :
  fst (fst (Demo.handle 739500%Z "2025-02-30" Demo.collecting_iphone
              Demo.fresh))
  = Raised (ValueError "time data does not match format").
Proof. vm_compute. reflexivity. Qed.

(** After four messages the four fields are filled and the session still
    collects. *)
Example four_turns_fill_four_fields :
  snd (fst (Demo.chat 739500%Z
              ["I want to return my iPhone"; "Target"; "2025-01-01";
               "not working"] new_state Demo.fresh))
  = {| pending_return :=
         set_reason_raw "not working"
           (set_purchase_date 739252%Z
              (set_store_name "Target"
                 (set_product_name "iPhone" no_pending)));
       mode := Some InsertReturn |}.
Proof. vm_compute. reflexivity. Qed.

(** A report whose workbook cannot be written: the error reaches the caller
    and the session object is left in the analytics mode. *)
Example report_on_readonly_disk_raises :
  Demo.handle_readonly 739500%Z "weekly report" new_state Demo.fresh
  = (Raised OSError, {| pending_return := no_pending; mode := Some Analytics |},
     Demo.fresh).
Proof. vm_compute. reflexivity. Qed.

(** ** Runs of the collaborators *)

(** Of two lines of a file the second has [nan] for its price: both rows are
    in the table afterwards, one is counted, and a second pass over the file
    adds and counts nothing. *)
Example nan_line_is_stored_and_not_counted :
  fst (Demo.load Demo.two_lines []) = 1%Z
  /\ map row_product_name (snd (Demo.load Demo.two_lines []))
     = ["iPhone"; "iPad"]
  /\ map row_price (snd (Demo.load Demo.two_lines [])) = [Some 50%Q; None]
  /\ Demo.load Demo.two_lines (snd (Demo.load Demo.two_lines []))
     = (0%Z, snd (Demo.load Demo.two_lines [])).
Proof. repeat split; vm_compute; reflexivity. Qed.

(** The product filter [_] is a wildcard: it counts the five returns of
    "Apple TV", whose name has no underscore. *)
Example underscore_filter_counts_every_product :
  fst (Demo.aggregate Demo.five_returns 739255 739265 (Some "_")) = 5%Z
  /\ fst (Demo.aggregate Demo.five_returns 739255 739265 (Some "apple t"))
     = 5%Z
  /\ fst (Demo.aggregate Demo.five_returns 739255 739265 (Some "a_le"))
     = 0%Z.
Proof. repeat split; vm_compute; reflexivity. Qed.

(** Asked for no result, the search fails on the assertion of the index. *)
Example search_for_nothing_fails :
  retrieve Demo.enc Demo.nearest Demo.none_nearest
    (build_index Demo.str_float Demo.enc Demo.five_returns
       (new_retriever string))
  = inl AssertionError.
Proof. vm_compute. reflexivity. Qed.

(** A return on the last day pandas holds: the forecast of the next day
    raises. *)
Example forecast_past_the_last_timestamp_raises :
  Demo.predict Demo.one_day [Demo.returned_on (Timestamp_max (Numerics := Demo.exact)) 1]
  = inl OutOfBoundsDatetime.
Proof. vm_compute. reflexivity. Qed.

(** ** Runs of the further properties *)

Lemma aggregate_window_splits_witness :
  filter_accepted None
  /\ (739255 <= 739260 + 1)%Z /\ (739260 <= 739265)%Z
  /\ fst (Demo.aggregate Demo.five_returns 739255 739265 None)
     = (fst (Demo.aggregate Demo.five_returns 739255 739260 None)
        + fst (Demo.aggregate Demo.five_returns (739260 + 1) 739265 None))%Z.
Proof.
  assert (H1 : (739255 <= 739260 + 1)%Z) by lia.
  assert (H2 : (739260 <= 739265)%Z) by lia.
  split; [exact I|]. split; [exact H1|]. split; [exact H2|].
  exact (proj1 (@aggregate_window_splits Demo.exact Demo.five_returns
                  739255%Z 739260%Z 739265%Z None I H1 H2)).
Defined.

Lemma aggregate_window_nothing_witness :
  ascii_names (Some "Roku") Demo.five_returns
  /\ filter_accepted (Some "Roku")
  /\ Forall (fun r => (row_return_date r < 739255)%Z
                      \/ (739265 < row_return_date r)%Z
                      \/ product_matches (Some "Roku") r = false)
       Demo.five_returns
  /\ Demo.aggregate Demo.five_returns 739255 739265 (Some "Roku")
     = (0%Z, 0%Q).
Proof.
  assert (A : ascii_names (Some "Roku") Demo.five_returns).
  { split; [intros n E; inversion E; reflexivity|].
    repeat constructor. }
  assert (H : Forall (fun r => (row_return_date r < 739255)%Z
                               \/ (739265 < row_return_date r)%Z
                               \/ product_matches (Some "Roku") r = false)
                Demo.five_returns)
    by (repeat constructor; right; right; reflexivity).
  assert (L : filter_accepted (Some "Roku")) by by_computation.
  split; [exact A|]. split; [exact L|]. split; [exact H|].
  exact (proj1 (@aggregate_window_nothing Demo.exact Demo.five_returns
                  739255%Z 739265%Z (Some "Roku") A L H)).
Defined.

Lemma report_without_workbook_witness :
  generate_excel Demo.plain_report = false
  /\ report_in_calendar 739265%Z Demo.plain_report
  /\ filter_accepted (rep_product_name Demo.plain_report)
  /\ exists r : ReportSummary,
       generate_report (num := Demo.exact) Demo.insight Demo.excel_fails
         739265%Z Demo.plain_report Demo.five_returns = inr r
       /\ excel_path r = None.
Proof.
  assert (C : report_in_calendar 739265%Z Demo.plain_report)
    by (repeat split; by_computation).
  assert (L : filter_accepted (rep_product_name Demo.plain_report))
    by exact I.
  split; [reflexivity|]. split; [exact C|]. split; [exact L|].
  destruct (@report_without_workbook_never_fails Demo.exact Demo.insight
              Demo.excel_fails 739265%Z Demo.plain_report Demo.five_returns
              eq_refl C L) as (r & E & P & _).
  exists r. split; [exact E | exact P].
Defined.

Lemma search_after_rebuild_witness :
  Demo.five_returns <> []
  /\ (0 < top_k Demo.three_nearest)%Z
  /\ retrieve Demo.enc Demo.nearest Demo.three_nearest
       (build_index Demo.str_float Demo.enc Demo.five_returns
          (new_retriever string))
     = collect Demo.five_returns [0; 1; 2]%Z.
Proof.
  assert (H : Demo.five_returns <> []) by discriminate.
  assert (K : (0 < top_k Demo.three_nearest)%Z) by reflexivity.
  split; [exact H|]. split; [exact K|].
  exact (proj1 (proj2 (proj2 (proj2 (@search_after_rebuild Demo.str_float
                                       string Demo.enc Demo.nearest
                                       Demo.five_returns
                                       (new_retriever string)
                                       Demo.three_nearest H)) K)
                  [0; 1; 2]%Z eq_refl)).
Defined.

Lemma forecast_bounds_witness :
  Demo.five_returns <> []
  /\ forecastable (num := Demo.exact) (horizon_days Demo.two_weeks)
       Demo.five_returns
  /\ ieee_doubles Demo.exact
  /\ (Z.of_nat (List.length Demo.five_returns) <= 2 ^ 53)%Z
  /\ exists resp : ForecastResponse,
       Demo.predict Demo.two_weeks Demo.five_returns = inr resp
       /\ List.length (predictions resp) = 14.
Proof.
  assert (H : Demo.five_returns <> []) by discriminate.
  assert (S : (Z.of_nat (List.length Demo.five_returns) <= 2 ^ 53)%Z)
    by by_computation.
  split; [exact H|]. split; [exact five_returns_forecastable|].
  split; [exact exact_is_ieee|]. split; [exact S|].
  destruct (@forecast_bounds Demo.exact Demo.two_weeks Demo.five_returns H
              five_returns_forecastable exact_is_ieee S)
    as (resp & E & L & _).
  exists resp. split; [exact E | exact L].
Defined.

Lemma intent_ignores_letter_case_witness :
  PyStr.is_ascii "FORECAST the Returns" = true
  /\ PyStr.is_ascii "forecast the returns" = true
  /\ _classify_intent "FORECAST the Returns"
     = _classify_intent "forecast the returns".
Proof.
  split; [reflexivity|]. split; [reflexivity|].
  exact (proj1 (proj2 (proj2 (@intent_ignores_letter_case
                                "FORECAST the Returns" "forecast the returns"
                                eq_refl eq_refl))) eq_refl).
Defined.

Lemma purchase_date_step_witness :
  PyStr.is_ascii "I bought it Last Week" = true
  /\ extract_purchase_date 739500%Z "I bought it Last Week"
       (PyStr.lower "I bought it Last Week") no_pending
     = inr (set_purchase_date 739493%Z no_pending).
Proof.
  split; [reflexivity|].
  exact (proj1 (proj2 (@purchase_date_step 739500%Z "I bought it Last Week"
                         no_pending eq_refl)) eq_refl eq_refl).
Defined.

Lemma conversation_records_witness :
  well_priced (pending_return new_state)
  /\ Forall well_recorded
       (fst (fst (Demo.chat 739500%Z Demo.iphone_dialogue_today new_state
                    Demo.fresh))).
Proof.
  assert (H : well_priced (pending_return new_state))
    by (split; intros v Hv; discriminate Hv).
  split; [exact H|].
  exact (proj1 (@conversation_records_only_well_formed_returns Demo.digest
                  Demo.str_float Demo.str_Z Demo.exact Demo.insight
                  Demo.excel string
                  Demo.enc Demo.nearest 739500%Z Demo.iphone_dialogue_today
                  new_state Demo.fresh H)).
Defined.

Lemma after_an_insert_witness :
  exists (resp : InsertReturnResponse) (db' : Table),
    insert_return Demo.digest Demo.str_float Demo.str_Z Demo.apple_tv []
      = (inr resp, db')
    /\ (forall fr : ForecastRequest,
          Demo.predict fr db' <> inl (ValueError empty_series_message)).
Proof.
  eexists. eexists. split; [reflexivity|].
  intro fr.
  exact (proj1 (proj1 (@after_an_insert_the_readers_have_data Demo.digest
                         Demo.str_float Demo.str_Z Demo.exact string Demo.enc
                         Demo.apple_tv [] _ _ eq_refl) fr)).
Defined.
